(** * VoodooRMI: the F11 touch function and the 2D sensor

    A shallow embedding of [VoodooRMI/Functions/F11.cpp] and
    [VoodooRMI/RMI_2D_Sensor.cpp]:

    - the query decoder [rmi_f11_get_query_parameters], the initialisation
      [rmi_f11_initialize] and the packet layout [f11_2d_construct_data],
      written in a small state monad with early return over the driver
      object, every bus access being recorded in a log;
    - the report assembler [getReport] and its 5-byte absolute record;
    - the multitouch update [handleReport] with its two loops, the thumb
      pre-emption [setThumbFingerType] and the allocator [getFingerType].

    C integers are integers of [Z]; bytes that come from the bus are
    reduced modulo 256 and the truncations the sources spell out ([u8
    query_offset], the [UInt32] coordinates) are written out.  Arrays are
    lists read with [!!] and written with [<[i:=x]>]. *)

From Stdlib Require Import ZArith Lia Bool List.
From stdpp Require Import base list.

Local Open Scope Z_scope.

(** ** Machine integers *)

Definition u8 (z : Z) : Z := z mod 256.
Definition u16 (z : Z) : Z := z mod 65536.
Definition u32 (z : Z) : Z := z mod 4294967296.

(** [BIT(n)] of the kernel headers. *)
Definition BIT (n : Z) : Z := Z.shiftl 1 n.

(** [!!(v)] : the C truth value of an integer. *)
Definition truthy (v : Z) : bool := negb (v =? 0).

(** [DIV_ROUND_UP(n, d)] is [((n) + (d) - 1) / (d)]; the division of C
    truncates towards zero. *)
Definition DIV_ROUND_UP (n d : Z) : Z := (n + d - 1) ÷ d.

(** The errno values of <sys/errno.h>. *)
Definition ENOMEM : Z := 12.
Definition ENODEV : Z := 19.

(** Modelled from the spec: [RMI_F11_ABS_BYTES] is declared in F11.hpp,
    which is not among the sources; the absolute-data record of one finger
    is 5 bytes long. *)
Definition RMI_F11_ABS_BYTES : Z := 5.

(** Modelled from the spec: [RMI_F11_QUERY_GESTURE_SIZE] (F11.hpp); the
    gesture block is 2 bytes long. *)
Definition RMI_F11_QUERY_GESTURE_SIZE : Z := 2.

(** [RMI_F11_QUERY_SIZE] (F11.hpp) is the length of [query_buf], into which
    the decoder reads a block of 4 bytes and of which it uses
    [query_buf[3]]. *)
Definition RMI_F11_QUERY_SIZE : Z := 4.

(** The bit masks of F11.hpp the decoder tests.  The header is not among
    the sources, so the masks are kept abstract: the results on the decoder
    hold whatever their values. *)
Record F11_hpp : Type := {
  RMI_F11_HAS_QUERY9 : Z;
  RMI_F11_HAS_QUERY11 : Z;
  RMI_F11_HAS_QUERY12 : Z;
  RMI_F11_HAS_QUERY27 : Z;
  RMI_F11_HAS_QUERY28 : Z;
  RMI_F11_NR_FINGERS_MASK : Z;
  RMI_F11_HAS_REL : Z;
  RMI_F11_HAS_ABS : Z;
  RMI_F11_HAS_GESTURES : Z;
  RMI_F11_HAS_DRIBBLE : Z;
  RMI_F11_HAS_JITTER_FILTER : Z;
  RMI_F11_HAS_FLICK : Z;
  RMI_F11_HAS_PINCH : Z;
  RMI_F11_HAS_PALM_DET : Z;
  RMI_F11_HAS_ROTATE : Z;
  RMI_F11_HAS_TOUCH_SHAPES : Z;
  RMI_F11_NR_TOUCH_SHAPES_MASK : Z;
  RMI_F11_HAS_INFO2 : Z;
  RMI_F11_HAS_PHYSICAL_PROPS : Z;
  F11_CTRL_SENSOR_MAX_X_POS_OFFSET : Z;
  F11_CTRL_SENSOR_MAX_Y_POS_OFFSET : Z;
  RMI_F11_CTRL_REG_COUNT : Z
}.

(** The values these macros have in the Linux driver the file is a port of
    (drivers/input/rmi4/rmi_f11.c); used to run the decoder on concrete
    register contents. *)
Definition rmi_f11_h : F11_hpp := {|
  RMI_F11_HAS_QUERY9 := BIT 3;
  RMI_F11_HAS_QUERY11 := BIT 4;
  RMI_F11_HAS_QUERY12 := BIT 5;
  RMI_F11_HAS_QUERY27 := BIT 6;
  RMI_F11_HAS_QUERY28 := BIT 7;
  RMI_F11_NR_FINGERS_MASK := 7;
  RMI_F11_HAS_REL := BIT 3;
  RMI_F11_HAS_ABS := BIT 4;
  RMI_F11_HAS_GESTURES := BIT 5;
  RMI_F11_HAS_DRIBBLE := BIT 4;
  RMI_F11_HAS_JITTER_FILTER := BIT 7;
  RMI_F11_HAS_FLICK := BIT 4;
  RMI_F11_HAS_PINCH := BIT 6;
  RMI_F11_HAS_PALM_DET := BIT 0;
  RMI_F11_HAS_ROTATE := BIT 1;
  RMI_F11_HAS_TOUCH_SHAPES := BIT 2;
  RMI_F11_NR_TOUCH_SHAPES_MASK := 31;
  RMI_F11_HAS_INFO2 := BIT 4;
  RMI_F11_HAS_PHYSICAL_PROPS := BIT 5;
  F11_CTRL_SENSOR_MAX_X_POS_OFFSET := 6;
  F11_CTRL_SENSOR_MAX_Y_POS_OFFSET := 8;
  RMI_F11_CTRL_REG_COUNT := 12
|}.

(** ** The driver objects *)

(** [f11_2d_sensor_queries]: the members that gate a later read or that
    [f11_2d_construct_data] and [rmi_f11_initialize] consult.  The other
    members are decoded from the same bytes and only published as
    properties of the service. *)
Record f11_2d_sensor_queries : Type := {
  nr_fingers : Z;
  has_rel : bool;
  has_abs : bool;
  has_gestures : bool;
  has_dribble : bool;
  has_jitter_filter : bool;
  f11_2d_query6 : Z;
  has_flick : bool;
  has_pinch : bool;
  has_palm_det : bool;
  has_rotate : bool;
  has_touch_shapes : bool;
  query7_nonzero : bool;
  query8_nonzero : bool;
  nr_touch_shapes : Z;
  has_info2 : bool;
  has_physical_props : bool;
  x_sensor_size_mm : Z;
  y_sensor_size_mm : Z
}.

(** The members of [RMI2DSensor] that F11 fills in.  [data_pkt] is the
    length of the receive buffer once it is allocated.  [x_mm] and [y_mm]
    are 8-bit members (RMI_2D_Sensor.hpp): what is stored in them is
    reduced modulo 256. *)
Record RMI2DSensor_layout : Type := {
  nbr_fingers : Z;
  pkt_size : Z;
  attn_size : Z;
  x_mm : Z;
  y_mm : Z;
  max_x : Z;
  max_y : Z;
  data_pkt : option Z
}.

(** [f11_2d_data]: [f_state] and [abs_pos] point into [data_pkt]; they are
    kept as offsets from its start. *)
Record f11_2d_data : Type := {
  f_state : option Z;
  abs_pos : option Z
}.

Inductive bus_op : Type :=
  | op_read (addr : Z)
  | op_readBlock (addr len : Z)
  | op_blockWrite (addr : Z) (data : list Z).

(** One call of the bus with the code it returned. *)
Record bus_event : Type := { ev_op : bus_op; ev_rc : Z }.

(** The F11 object, with the log of the bus calls made so far. *)
Record F11 : Type := {
  has_query9 : bool;
  has_query11 : bool;
  has_query12 : bool;
  has_query27 : bool;
  has_query28 : bool;
  has_acm : bool;
  sens_query : f11_2d_sensor_queries;
  sensor : RMI2DSensor_layout;
  data_2d : f11_2d_data;
  ctrl0_11 : list Z;
  ctrl0_11_address : Z;
  rezero_wait_ms : Z;
  bus_log : list bus_event
}.

(** *** Member updates *)

Definition set_nbr_fingers (v : Z) (s : RMI2DSensor_layout) : RMI2DSensor_layout :=
  {| nbr_fingers := v; pkt_size := pkt_size s; attn_size := attn_size s;
     x_mm := x_mm s; y_mm := y_mm s; max_x := max_x s; max_y := max_y s;
     data_pkt := data_pkt s |}.

Definition set_pkt_size (v : Z) (s : RMI2DSensor_layout) : RMI2DSensor_layout :=
  {| nbr_fingers := nbr_fingers s; pkt_size := v; attn_size := attn_size s;
     x_mm := x_mm s; y_mm := y_mm s; max_x := max_x s; max_y := max_y s;
     data_pkt := data_pkt s |}.

Definition set_attn_size (v : Z) (s : RMI2DSensor_layout) : RMI2DSensor_layout :=
  {| nbr_fingers := nbr_fingers s; pkt_size := pkt_size s; attn_size := v;
     x_mm := x_mm s; y_mm := y_mm s; max_x := max_x s; max_y := max_y s;
     data_pkt := data_pkt s |}.

Definition set_mm (vx vy : Z) (s : RMI2DSensor_layout) : RMI2DSensor_layout :=
  {| nbr_fingers := nbr_fingers s; pkt_size := pkt_size s; attn_size := attn_size s;
     x_mm := vx; y_mm := vy; max_x := max_x s; max_y := max_y s;
     data_pkt := data_pkt s |}.

Definition set_max (vx vy : Z) (s : RMI2DSensor_layout) : RMI2DSensor_layout :=
  {| nbr_fingers := nbr_fingers s; pkt_size := pkt_size s; attn_size := attn_size s;
     x_mm := x_mm s; y_mm := y_mm s; max_x := vx; max_y := vy;
     data_pkt := data_pkt s |}.

Definition set_data_pkt (v : option Z) (s : RMI2DSensor_layout) : RMI2DSensor_layout :=
  {| nbr_fingers := nbr_fingers s; pkt_size := pkt_size s; attn_size := attn_size s;
     x_mm := x_mm s; y_mm := y_mm s; max_x := max_x s; max_y := max_y s;
     data_pkt := v |}.

Definition with_query_flags (q9 q11 q12 q27 q28 : bool) (o : F11) : F11 :=
  {| has_query9 := q9; has_query11 := q11; has_query12 := q12;
     has_query27 := q27; has_query28 := q28; has_acm := has_acm o;
     sens_query := sens_query o; sensor := sensor o; data_2d := data_2d o;
     ctrl0_11 := ctrl0_11 o; ctrl0_11_address := ctrl0_11_address o;
     rezero_wait_ms := rezero_wait_ms o; bus_log := bus_log o |}.

Definition with_has_acm (v : bool) (o : F11) : F11 :=
  {| has_query9 := has_query9 o; has_query11 := has_query11 o;
     has_query12 := has_query12 o; has_query27 := has_query27 o;
     has_query28 := has_query28 o; has_acm := v;
     sens_query := sens_query o; sensor := sensor o; data_2d := data_2d o;
     ctrl0_11 := ctrl0_11 o; ctrl0_11_address := ctrl0_11_address o;
     rezero_wait_ms := rezero_wait_ms o; bus_log := bus_log o |}.

Definition with_sens_query (v : f11_2d_sensor_queries) (o : F11) : F11 :=
  {| has_query9 := has_query9 o; has_query11 := has_query11 o;
     has_query12 := has_query12 o; has_query27 := has_query27 o;
     has_query28 := has_query28 o; has_acm := has_acm o;
     sens_query := v; sensor := sensor o; data_2d := data_2d o;
     ctrl0_11 := ctrl0_11 o; ctrl0_11_address := ctrl0_11_address o;
     rezero_wait_ms := rezero_wait_ms o; bus_log := bus_log o |}.

Definition with_sensor (v : RMI2DSensor_layout) (o : F11) : F11 :=
  {| has_query9 := has_query9 o; has_query11 := has_query11 o;
     has_query12 := has_query12 o; has_query27 := has_query27 o;
     has_query28 := has_query28 o; has_acm := has_acm o;
     sens_query := sens_query o; sensor := v; data_2d := data_2d o;
     ctrl0_11 := ctrl0_11 o; ctrl0_11_address := ctrl0_11_address o;
     rezero_wait_ms := rezero_wait_ms o; bus_log := bus_log o |}.

Definition with_data_2d (v : f11_2d_data) (o : F11) : F11 :=
  {| has_query9 := has_query9 o; has_query11 := has_query11 o;
     has_query12 := has_query12 o; has_query27 := has_query27 o;
     has_query28 := has_query28 o; has_acm := has_acm o;
     sens_query := sens_query o; sensor := sensor o; data_2d := v;
     ctrl0_11 := ctrl0_11 o; ctrl0_11_address := ctrl0_11_address o;
     rezero_wait_ms := rezero_wait_ms o; bus_log := bus_log o |}.

Definition with_ctrl0_11 (v : list Z) (o : F11) : F11 :=
  {| has_query9 := has_query9 o; has_query11 := has_query11 o;
     has_query12 := has_query12 o; has_query27 := has_query27 o;
     has_query28 := has_query28 o; has_acm := has_acm o;
     sens_query := sens_query o; sensor := sensor o; data_2d := data_2d o;
     ctrl0_11 := v; ctrl0_11_address := ctrl0_11_address o;
     rezero_wait_ms := rezero_wait_ms o; bus_log := bus_log o |}.

Definition with_ctrl0_11_address (v : Z) (o : F11) : F11 :=
  {| has_query9 := has_query9 o; has_query11 := has_query11 o;
     has_query12 := has_query12 o; has_query27 := has_query27 o;
     has_query28 := has_query28 o; has_acm := has_acm o;
     sens_query := sens_query o; sensor := sensor o; data_2d := data_2d o;
     ctrl0_11 := ctrl0_11 o; ctrl0_11_address := v;
     rezero_wait_ms := rezero_wait_ms o; bus_log := bus_log o |}.

Definition with_rezero_wait_ms (v : Z) (o : F11) : F11 :=
  {| has_query9 := has_query9 o; has_query11 := has_query11 o;
     has_query12 := has_query12 o; has_query27 := has_query27 o;
     has_query28 := has_query28 o; has_acm := has_acm o;
     sens_query := sens_query o; sensor := sensor o; data_2d := data_2d o;
     ctrl0_11 := ctrl0_11 o; ctrl0_11_address := ctrl0_11_address o;
     rezero_wait_ms := v; bus_log := bus_log o |}.

Definition with_bus_log (v : list bus_event) (o : F11) : F11 :=
  {| has_query9 := has_query9 o; has_query11 := has_query11 o;
     has_query12 := has_query12 o; has_query27 := has_query27 o;
     has_query28 := has_query28 o; has_acm := has_acm o;
     sens_query := sens_query o; sensor := sensor o; data_2d := data_2d o;
     ctrl0_11 := ctrl0_11 o; ctrl0_11_address := ctrl0_11_address o;
     rezero_wait_ms := rezero_wait_ms o; bus_log := v |}.

(** ** Function bodies with [return]

    A body runs on the object and either falls through with a value
    ([inr]) or has executed [return v] ([inl v]), which skips the rest. *)

Definition Fn (A : Type) : Type := F11 -> (Z + A) * F11.

Definition ret {A} (a : A) : Fn A := fun o => (inr a, o).

Definition bind {A B} (m : Fn A) (f : A -> Fn B) : Fn B :=
  fun o => match m o with
           | (inl v, o') => (inl v, o')
           | (inr a, o') => f a o'
           end.

Definition Return {A} (v : Z) : Fn A := fun o => (inl v, o).

Definition member {A} (f : F11 -> A) : Fn A := fun o => (inr (f o), o).

Definition assign (g : F11 -> F11) : Fn unit := fun o => (inr tt, g o).

(** [when c body]: an [if] without [else]. *)
Definition when (c : bool) (body : Fn unit) : Fn unit :=
  if c then body else ret tt.

(** Calling a function whose body is [m]: the value it returned, by
    [return] or at its end. *)
Definition call (m : Fn Z) : F11 -> Z * F11 :=
  fun o => match m o with
           | (inl v, o') => (v, o')
           | (inr v, o') => (v, o')
           end.

Definition invoke (m : Fn Z) : Fn Z := fun o => let (v, o') := call m o in (inr v, o').

Declare Scope fn_scope.
Delimit Scope fn_scope with fn.
Notation "x <- m ;; k" := (bind m (fun x => k))
  (at level 20, m at level 99, k at level 200, only parsing) : fn_scope.
Notation "' p <- m ;; k" := (bind m (fun p => k))
  (at level 20, p pattern, m at level 99, k at level 200, only parsing) : fn_scope.
Notation "m ;;; k" := (bind m (fun _ : unit => k))
  (at level 100, k at level 200, only parsing, right associativity) : fn_scope.

(** ** The bus

    [rmiBus] answers with a return code (negative on failure) and the
    bytes it stored in the caller's buffer.  An answer may depend on the
    calls made before. *)
Record RMIBus : Type := {
  bus_read : list bus_event -> Z -> Z * Z;
  bus_readBlock : list bus_event -> Z -> Z -> Z * list Z;
  bus_blockWrite : list bus_event -> Z -> list Z -> Z
}.

Definition record_event (op : bus_op) (rc : Z) (o : F11) : F11 :=
  with_bus_log (bus_log o ++ [{| ev_op := op; ev_rc := rc |}]) o.

Definition read (bus : RMIBus) (addr : Z) : Fn (Z * Z) :=
  fun o => let '(rc, b) := bus_read bus (bus_log o) addr in
           (inr (rc, b), record_event (op_read addr) rc o).

Definition readBlock (bus : RMIBus) (addr len : Z) : Fn (Z * list Z) :=
  fun o => let '(rc, bs) := bus_readBlock bus (bus_log o) addr len in
           (inr (rc, bs), record_event (op_readBlock addr len) rc o).

Definition blockWrite (bus : RMIBus) (addr : Z) (data : list Z) : Fn Z :=
  fun o => let rc := bus_blockWrite bus (bus_log o) addr data in
           (inr rc, record_event (op_blockWrite addr data) rc o).

(** [buf[k]] of a [u8] buffer the bus has just filled. *)
Definition byte_at (buf : list Z) (k : nat) : Z := u8 (nth k buf 0).

(** *** Blocks of [f11_2d_sensor_queries] written together *)

Definition set_query1 (n : Z) (rel abs gest : bool)
    (q : f11_2d_sensor_queries) : f11_2d_sensor_queries :=
  {| nr_fingers := n; has_rel := rel; has_abs := abs; has_gestures := gest;
     has_dribble := has_dribble q; has_jitter_filter := has_jitter_filter q;
     f11_2d_query6 := f11_2d_query6 q;
     has_flick := has_flick q; has_pinch := has_pinch q;
     has_palm_det := has_palm_det q; has_rotate := has_rotate q;
     has_touch_shapes := has_touch_shapes q;
     query7_nonzero := query7_nonzero q; query8_nonzero := query8_nonzero q;
     nr_touch_shapes := nr_touch_shapes q;
     has_info2 := has_info2 q; has_physical_props := has_physical_props q;
     x_sensor_size_mm := x_sensor_size_mm q;
     y_sensor_size_mm := y_sensor_size_mm q |}.

Definition set_query5 (dribble jitter : bool)
    (q : f11_2d_sensor_queries) : f11_2d_sensor_queries :=
  {| nr_fingers := nr_fingers q; has_rel := has_rel q; has_abs := has_abs q;
     has_gestures := has_gestures q;
     has_dribble := dribble; has_jitter_filter := jitter;
     f11_2d_query6 := f11_2d_query6 q;
     has_flick := has_flick q; has_pinch := has_pinch q;
     has_palm_det := has_palm_det q; has_rotate := has_rotate q;
     has_touch_shapes := has_touch_shapes q;
     query7_nonzero := query7_nonzero q; query8_nonzero := query8_nonzero q;
     nr_touch_shapes := nr_touch_shapes q;
     has_info2 := has_info2 q; has_physical_props := has_physical_props q;
     x_sensor_size_mm := x_sensor_size_mm q;
     y_sensor_size_mm := y_sensor_size_mm q |}.

Definition set_query6 (v : Z)
    (q : f11_2d_sensor_queries) : f11_2d_sensor_queries :=
  {| nr_fingers := nr_fingers q; has_rel := has_rel q; has_abs := has_abs q;
     has_gestures := has_gestures q;
     has_dribble := has_dribble q; has_jitter_filter := has_jitter_filter q;
     f11_2d_query6 := v;
     has_flick := has_flick q; has_pinch := has_pinch q;
     has_palm_det := has_palm_det q; has_rotate := has_rotate q;
     has_touch_shapes := has_touch_shapes q;
     query7_nonzero := query7_nonzero q; query8_nonzero := query8_nonzero q;
     nr_touch_shapes := nr_touch_shapes q;
     has_info2 := has_info2 q; has_physical_props := has_physical_props q;
     x_sensor_size_mm := x_sensor_size_mm q;
     y_sensor_size_mm := y_sensor_size_mm q |}.

Definition set_query7_8 (flick pinch palm rotate shapes q7 q8 : bool)
    (q : f11_2d_sensor_queries) : f11_2d_sensor_queries :=
  {| nr_fingers := nr_fingers q; has_rel := has_rel q; has_abs := has_abs q;
     has_gestures := has_gestures q;
     has_dribble := has_dribble q; has_jitter_filter := has_jitter_filter q;
     f11_2d_query6 := f11_2d_query6 q;
     has_flick := flick; has_pinch := pinch;
     has_palm_det := palm; has_rotate := rotate;
     has_touch_shapes := shapes;
     query7_nonzero := q7; query8_nonzero := q8;
     nr_touch_shapes := nr_touch_shapes q;
     has_info2 := has_info2 q; has_physical_props := has_physical_props q;
     x_sensor_size_mm := x_sensor_size_mm q;
     y_sensor_size_mm := y_sensor_size_mm q |}.

Definition set_query10 (n : Z)
    (q : f11_2d_sensor_queries) : f11_2d_sensor_queries :=
  {| nr_fingers := nr_fingers q; has_rel := has_rel q; has_abs := has_abs q;
     has_gestures := has_gestures q;
     has_dribble := has_dribble q; has_jitter_filter := has_jitter_filter q;
     f11_2d_query6 := f11_2d_query6 q;
     has_flick := has_flick q; has_pinch := has_pinch q;
     has_palm_det := has_palm_det q; has_rotate := has_rotate q;
     has_touch_shapes := has_touch_shapes q;
     query7_nonzero := query7_nonzero q; query8_nonzero := query8_nonzero q;
     nr_touch_shapes := n;
     has_info2 := has_info2 q; has_physical_props := has_physical_props q;
     x_sensor_size_mm := x_sensor_size_mm q;
     y_sensor_size_mm := y_sensor_size_mm q |}.

Definition set_query12 (info2 phys : bool)
    (q : f11_2d_sensor_queries) : f11_2d_sensor_queries :=
  {| nr_fingers := nr_fingers q; has_rel := has_rel q; has_abs := has_abs q;
     has_gestures := has_gestures q;
     has_dribble := has_dribble q; has_jitter_filter := has_jitter_filter q;
     f11_2d_query6 := f11_2d_query6 q;
     has_flick := has_flick q; has_pinch := has_pinch q;
     has_palm_det := has_palm_det q; has_rotate := has_rotate q;
     has_touch_shapes := has_touch_shapes q;
     query7_nonzero := query7_nonzero q; query8_nonzero := query8_nonzero q;
     nr_touch_shapes := nr_touch_shapes q;
     has_info2 := info2; has_physical_props := phys;
     x_sensor_size_mm := x_sensor_size_mm q;
     y_sensor_size_mm := y_sensor_size_mm q |}.

Definition set_sensor_size_mm (vx vy : Z)
    (q : f11_2d_sensor_queries) : f11_2d_sensor_queries :=
  {| nr_fingers := nr_fingers q; has_rel := has_rel q; has_abs := has_abs q;
     has_gestures := has_gestures q;
     has_dribble := has_dribble q; has_jitter_filter := has_jitter_filter q;
     f11_2d_query6 := f11_2d_query6 q;
     has_flick := has_flick q; has_pinch := has_pinch q;
     has_palm_det := has_palm_det q; has_rotate := has_rotate q;
     has_touch_shapes := has_touch_shapes q;
     query7_nonzero := query7_nonzero q; query8_nonzero := query8_nonzero q;
     nr_touch_shapes := nr_touch_shapes q;
     has_info2 := has_info2 q; has_physical_props := has_physical_props q;
     x_sensor_size_mm := vx;
     y_sensor_size_mm := vy |}.

Definition upd_query (g : f11_2d_sensor_queries -> f11_2d_sensor_queries) : Fn unit :=
  assign (fun o => with_sens_query (g (sens_query o)) o).

Definition upd_sensor (g : RMI2DSensor_layout -> RMI2DSensor_layout) : Fn unit :=
  assign (fun o => with_sensor (g (sensor o)) o).

(** [sensor->pkt_size += v] *)
Definition pkt_size_add (v : Z) : Fn unit :=
  upd_sensor (fun s => set_pkt_size (pkt_size s + v) s).

(** ** F11.cpp *)

Definition REZERO_WAIT_MS : Z := 100.

(** The 16-bit value a little-endian host finds in two bytes read into a
    [u16] variable. *)
Definition u16_of_bytes (buf : list Z) : Z :=
  Z.lor (byte_at buf 0) (Z.shiftl (byte_at buf 1) 8).

Section F11.

(** The header values, the bus, whether [IOMalloc] of a given size
    succeeds, and the base addresses of [fn_descriptor]. *)
Variable h : F11_hpp.
Variable bus : RMIBus.
Variable IOMalloc : Z -> bool.
Variable query_base_addr control_base_addr : Z.

Local Open Scope fn_scope.

(** *** [f11_read_control_regs], [f11_write_control_regs] *)

Definition f11_read_control_regs (ctrl_base_addr : Z) : Fn Z :=
  assign (with_ctrl0_11_address ctrl_base_addr);;;
  '(error, regs) <- readBlock bus ctrl_base_addr (RMI_F11_CTRL_REG_COUNT h);;
  assign (with_ctrl0_11 (map u8 regs));;;
  if error <? 0 then Return error else
  ret 0.

Definition f11_write_control_regs (ctrl_base_addr : Z) : Fn Z :=
  regs <- member ctrl0_11;;
  error <- blockWrite bus ctrl_base_addr regs;;
  if error <? 0 then Return error else
  ret 0.

(** *** [f11_2d_construct_data] *)

Definition f11_2d_construct_data : Fn Z :=
  query <- member sens_query;;
  upd_sensor (set_nbr_fingers
                (if nr_fingers query =? 5 then 10 else nr_fingers query + 1));;;
  upd_sensor (fun s => set_pkt_size (DIV_ROUND_UP (nbr_fingers s) 4) s);;;
  when (has_abs query)
    (upd_sensor (fun s => set_pkt_size (pkt_size s + nbr_fingers s * 5) s);;;
     upd_sensor (fun s => set_attn_size (pkt_size s) s));;;
  when (has_rel query)
    (upd_sensor (fun s => set_pkt_size (pkt_size s + nbr_fingers s * 2) s));;;
  when (query7_nonzero query) (pkt_size_add 1);;;
  when (query7_nonzero query || query8_nonzero query) (pkt_size_add 1);;;
  when (has_pinch query || has_flick query || has_rotate query)
    (pkt_size_add 3;;;
     when (negb (has_flick query)) (pkt_size_add (-1));;;
     when (negb (has_rotate query)) (pkt_size_add (-1)));;;
  when (has_touch_shapes query)
    (pkt_size_add (DIV_ROUND_UP (nr_touch_shapes query + 1) 8));;;
  size <- member (fun o => pkt_size (sensor o));;
  upd_sensor (set_data_pkt (if IOMalloc size then Some size else None));;;
  pkt <- member (fun o => data_pkt (sensor o));;
  match pkt with
  | None => Return (- ENOMEM)
  | Some _ =>
      assign (fun o => with_data_2d
                {| f_state := Some 0; abs_pos := abs_pos (data_2d o) |} o);;;
      i <- member (fun o => DIV_ROUND_UP (nbr_fingers (sensor o)) 4);;
      when (has_abs query)
        (assign (fun o => with_data_2d
                   {| f_state := f_state (data_2d o); abs_pos := Some i |} o));;;
      ret 0
  end.

(** *** [rmi_f11_get_query_parameters]

    One definition per [if] block of the function; each takes the
    running [query_size] and gives the new one.  [qba] is the parameter
    [query_base_addr]. *)

Definition query_block_first (qba : Z) : Fn Z :=
  '(rc, query_buf) <- readBlock bus qba RMI_F11_QUERY_SIZE;;
  if rc <? 0 then Return rc else
  upd_query (set_query1
    (Z.land (byte_at query_buf 0) (RMI_F11_NR_FINGERS_MASK h))
    (truthy (Z.land (byte_at query_buf 0) (RMI_F11_HAS_REL h)))
    (truthy (Z.land (byte_at query_buf 0) (RMI_F11_HAS_ABS h)))
    (truthy (Z.land (byte_at query_buf 0) (RMI_F11_HAS_GESTURES h))));;;
  ret RMI_F11_QUERY_SIZE.

Definition query_block_abs (qba query_size : Z) : Fn Z :=
  q <- member sens_query;;
  if has_abs q then
    '(rc, b) <- read bus (qba + query_size);;
    if rc <? 0 then Return rc else
    upd_query (set_query5
      (truthy (Z.land (u8 b) (RMI_F11_HAS_DRIBBLE h)))
      (truthy (Z.land (u8 b) (RMI_F11_HAS_JITTER_FILTER h))));;;
    ret (query_size + 1)
  else ret query_size.

Definition query_block_rel (qba query_size : Z) : Fn Z :=
  q <- member sens_query;;
  if has_rel q then
    '(rc, b) <- read bus (qba + query_size);;
    upd_query (set_query6 (u8 b));;;
    if rc <? 0 then Return rc else
    ret (query_size + 1)
  else ret query_size.

Definition query_block_gestures (qba query_size : Z) : Fn Z :=
  q <- member sens_query;;
  if has_gestures q then
    '(rc, query_buf) <- readBlock bus (qba + query_size) RMI_F11_QUERY_GESTURE_SIZE;;
    if rc <? 0 then Return rc else
    upd_query (set_query7_8
      (truthy (Z.land (byte_at query_buf 0) (RMI_F11_HAS_FLICK h)))
      (truthy (Z.land (byte_at query_buf 0) (RMI_F11_HAS_PINCH h)))
      (truthy (Z.land (byte_at query_buf 1) (RMI_F11_HAS_PALM_DET h)))
      (truthy (Z.land (byte_at query_buf 1) (RMI_F11_HAS_ROTATE h)))
      (truthy (Z.land (byte_at query_buf 1) (RMI_F11_HAS_TOUCH_SHAPES h)))
      (truthy (byte_at query_buf 0))
      (truthy (byte_at query_buf 1)));;;
    ret (query_size + 2)
  else ret query_size.

(** Query 9 (pen), query 11 (tuning), query 13 (jitter) and query 14
    (misc): one byte each, decoded into members that are only published. *)
Definition query_block_one_byte (present : bool) (qba query_size : Z) : Fn Z :=
  if present then
    '(rc, b) <- read bus (qba + query_size);;
    if rc <? 0 then Return rc else
    ret (query_size + 1)
  else ret query_size.

Definition query_block_touch_shapes (qba query_size : Z) : Fn Z :=
  q <- member sens_query;;
  if has_touch_shapes q then
    '(rc, b) <- read bus (qba + query_size);;
    if rc <? 0 then Return rc else
    upd_query (set_query10 (Z.land (u8 b) (RMI_F11_NR_TOUCH_SHAPES_MASK h)));;;
    ret (query_size + 1)
  else ret query_size.

Definition query_block_12 (qba query_size : Z) : Fn Z :=
  q12 <- member has_query12;;
  if q12 then
    '(rc, b) <- read bus (qba + query_size);;
    if rc <? 0 then Return rc else
    upd_query (set_query12
      (truthy (Z.land (u8 b) (RMI_F11_HAS_INFO2 h)))
      (truthy (Z.land (u8 b) (RMI_F11_HAS_PHYSICAL_PROPS h))));;;
    ret (query_size + 1)
  else ret query_size.

Definition query_block_physical_props (qba query_size : Z) : Fn Z :=
  q <- member sens_query;;
  if has_physical_props q then
    '(rc, query_buf) <- readBlock bus (qba + query_size) 4;;
    if rc <? 0 then Return rc else
    upd_query (set_sensor_size_mm
      (Z.lor (byte_at query_buf 0) (Z.shiftl (byte_at query_buf 1) 8) ÷ 10)
      (Z.lor (byte_at query_buf 2) (Z.shiftl (byte_at query_buf 3) 8) ÷ 10));;;
    ret (query_size + 12)
  else ret query_size.

Definition query_block_27 (query_size : Z) : Fn Z :=
  q27 <- member has_query27;;
  if q27 then ret (query_size + 1) else ret query_size.

(** Gives [has_query36]; [query_size] is left as it is. *)
Definition query_block_28 (qba query_size : Z) (has_query36 : bool) : Fn bool :=
  q28 <- member has_query28;;
  if q28 then
    '(rc, b) <- read bus (qba + query_size);;
    if rc <? 0 then Return rc else
    ret (truthy (Z.land (u8 b) (BIT 6)))
  else ret has_query36.

Definition query_block_36 (qba query_size : Z) (has_query36 : bool) : Fn Z :=
  if has_query36 then
    let query_size := query_size + 2 in
    '(rc, b) <- read bus (qba + query_size);;
    if rc <? 0 then Return rc else
    when (truthy (Z.land (u8 b) (BIT 5))) (assign (with_has_acm true));;;
    ret query_size
  else ret query_size.

Definition rmi_f11_get_query_parameters (qba : Z) : Fn Z :=
  let has_query36 := false in
  query_size <- query_block_first qba;;
  query_size <- query_block_abs qba query_size;;
  query_size <- query_block_rel qba query_size;;
  query_size <- query_block_gestures qba query_size;;
  q9 <- member has_query9;;
  query_size <- query_block_one_byte q9 qba query_size;;
  query_size <- query_block_touch_shapes qba query_size;;
  q11 <- member has_query11;;
  query_size <- query_block_one_byte q11 qba query_size;;
  query_size <- query_block_12 qba query_size;;
  q <- member sens_query;;
  query_size <- query_block_one_byte (has_jitter_filter q) qba query_size;;
  q <- member sens_query;;
  query_size <- query_block_one_byte (has_info2 q) qba query_size;;
  query_size <- query_block_physical_props qba query_size;;
  query_size <- query_block_27 query_size;;
  has_query36 <- query_block_28 qba query_size has_query36;;
  query_size <- query_block_36 qba query_size has_query36;;
  Return query_size.

(** *** [rmi_f11_initialize] and [attach] *)

(** The two base addresses are held in 16-bit locals and the bus takes
    16-bit addresses; [query_offset] is an 8-bit local; the sizes in
    millimetres go to 8-bit members. *)
Definition rmi_f11_initialize : Fn Z :=
  assign (with_rezero_wait_ms REZERO_WAIT_MS);;;
  let query_base_addr := u16 query_base_addr in
  let control_base_addr := u16 control_base_addr in
  '(rc, buf) <- read bus query_base_addr;;
  if rc <? 0 then Return rc else
  let buf := u8 buf in
  assign (with_query_flags
            (truthy (Z.land buf (RMI_F11_HAS_QUERY9 h)))
            (truthy (Z.land buf (RMI_F11_HAS_QUERY11 h)))
            (truthy (Z.land buf (RMI_F11_HAS_QUERY12 h)))
            (truthy (Z.land buf (RMI_F11_HAS_QUERY27 h)))
            (truthy (Z.land buf (RMI_F11_HAS_QUERY28 h))));;;
  let query_offset := u8 (query_base_addr + 1) in
  rc <- invoke (rmi_f11_get_query_parameters query_offset);;
  if rc <? 0 then Return rc else
  let query_offset := u8 (query_offset + rc) in
  q <- member sens_query;;
  (if has_physical_props q
   then upd_sensor (set_mm (u8 (x_sensor_size_mm q)) (u8 (y_sensor_size_mm q)))
   else Return (- ENODEV));;;
  q <- member sens_query;;
  if negb (has_abs q) then Return (- ENODEV) else
  '(rc, max_x_pos) <-
    readBlock bus (u16 (control_base_addr + F11_CTRL_SENSOR_MAX_X_POS_OFFSET h)) 2;;
  if rc <? 0 then Return rc else
  '(rc, max_y_pos) <-
    readBlock bus (u16 (control_base_addr + F11_CTRL_SENSOR_MAX_Y_POS_OFFSET h)) 2;;
  if rc <? 0 then Return rc else
  upd_sensor (set_max (u16_of_bytes max_x_pos) (u16_of_bytes max_y_pos));;;
  rc <- invoke f11_2d_construct_data;;
  if rc <? 0 then Return rc else
  acm <- member has_acm;;
  when acm
    (upd_sensor (fun s => set_attn_size (attn_size s + nbr_fingers s * 2) s));;;
  rc <- invoke (f11_read_control_regs control_base_addr);;
  if rc <? 0 then Return rc else
  q <- member sens_query;;
  when (has_dribble q)
    (assign (fun o => with_ctrl0_11
               (alter (fun v => Z.land v (Z.lnot (BIT 6))) 0%nat (ctrl0_11 o)) o));;;
  when (has_palm_det q)
    (assign (fun o => with_ctrl0_11
               (alter (fun v => Z.land v (Z.lnot (BIT 0))) 11%nat (ctrl0_11 o)) o));;;
  rc <- invoke (f11_write_control_regs control_base_addr);;
  ret 0.

End F11.

(** [attach]: [provider] is the result of [OSDynamicCast(RMIBus, provider)],
    [None] when the provider is not the bus; the function is attached when
    the initialisation returned 0. *)
Definition attach (h : F11_hpp) (provider : option RMIBus) (IOMalloc : Z -> bool)
    (query_base_addr control_base_addr : Z) (o : F11) : bool * F11 :=
  match provider with
  | None => (false, o)
  | Some rmiBus =>
      let (error, o') :=
        call (rmi_f11_initialize h rmiBus IOMalloc query_base_addr control_base_addr)
          o in
      if negb (error =? 0) then (false, o') else (true, o')
  end.

(** ** Reasoning on function bodies

    [wp m Q o]: running [m] on [o] ends in a result and an object that
    [Q] accepts. *)

Definition wp {A} (m : Fn A) (Q : Z + A -> F11 -> Prop) (o : F11) : Prop :=
  Q (fst (m o)) (snd (m o)).

(** The value a body hands to its caller. *)
Definition returned (r : Z + Z) : Z :=
  match r with inl v => v | inr v => v end.

Lemma wp_ret {A} (a : A) Q o : Q (inr a) o -> wp (ret a) Q o.
Proof. exact (fun H => H). Qed.

Lemma wp_Return {A} v (Q : Z + A -> F11 -> Prop) o : Q (inl v) o -> wp (Return v) Q o.
Proof. exact (fun H => H). Qed.

Lemma wp_bind {A B} (m : Fn A) (f : A -> Fn B) Q o :
  wp m (fun r o' => match r with
                    | inl v => Q (inl v) o'
                    | inr a => wp (f a) Q o'
                    end) o ->
  wp (bind m f) Q o.
Proof.
  unfold wp, bind. destruct (m o) as [[v|a] o']; simpl; auto.
Qed.

Lemma wp_member {A} (f : F11 -> A) Q o : Q (inr (f o)) o -> wp (member f) Q o.
Proof. exact (fun H => H). Qed.

Lemma wp_assign g Q o : Q (inr tt) (g o) -> wp (assign g) Q o.
Proof. exact (fun H => H). Qed.

Lemma wp_upd_sensor g Q o :
  Q (inr tt) (with_sensor (g (sensor o)) o) -> wp (upd_sensor g) Q o.
Proof. exact (fun H => H). Qed.

Lemma wp_upd_query g Q o :
  Q (inr tt) (with_sens_query (g (sens_query o)) o) -> wp (upd_query g) Q o.
Proof. exact (fun H => H). Qed.

Lemma wp_when c body Q o :
  (c = true -> wp body Q o) -> (c = false -> Q (inr tt) o) -> wp (when c body) Q o.
Proof. intros Ht Hf. destruct c; [apply Ht | apply Hf]; reflexivity. Qed.

Lemma wp_invoke (m : Fn Z) Q o :
  wp m (fun r o' => Q (inr (returned r)) o') o -> wp (invoke m) Q o.
Proof.
  unfold wp, invoke, call. destruct (m o) as [[v|v] o']; simpl; auto.
Qed.

Lemma wp_read bus addr Q o :
  (forall rc b, bus_read bus (bus_log o) addr = (rc, b) ->
     Q (inr (rc, b)) (record_event (op_read addr) rc o)) ->
  wp (read bus addr) Q o.
Proof.
  intros H. unfold wp, read.
  destruct (bus_read bus (bus_log o) addr) as [rc b] eqn:E. simpl. auto.
Qed.

Lemma wp_readBlock bus addr len Q o :
  (forall rc bs, bus_readBlock bus (bus_log o) addr len = (rc, bs) ->
     Q (inr (rc, bs)) (record_event (op_readBlock addr len) rc o)) ->
  wp (readBlock bus addr len) Q o.
Proof.
  intros H. unfold wp, readBlock.
  destruct (bus_readBlock bus (bus_log o) addr len) as [rc bs] eqn:E. simpl. auto.
Qed.

Lemma wp_blockWrite bus addr data Q o :
  Q (inr (bus_blockWrite bus (bus_log o) addr data))
    (record_event (op_blockWrite addr data)
       (bus_blockWrite bus (bus_log o) addr data) o) ->
  wp (blockWrite bus addr data) Q o.
Proof. exact (fun H => H). Qed.

Lemma wp_mono {A} (m : Fn A) (Q Q' : Z + A -> F11 -> Prop) o :
  (forall r o', Q r o' -> Q' r o') -> wp m Q o -> wp m Q' o.
Proof. unfold wp. auto. Qed.

Lemma wp_call (m : Fn Z) (Q : Z + Z -> F11 -> Prop) o :
  wp m Q o -> Q (match fst (m o) with inl v => inl v | inr v => inr v end) (snd (call m o)).
Proof.
  unfold wp, call. destruct (m o) as [[v|v] o']; simpl; auto.
Qed.

(** One step of a body, whatever its head is. *)
Ltac wp_step :=
  first
    [ apply wp_bind
    | apply wp_ret
    | apply wp_Return
    | apply wp_member
    | apply wp_upd_sensor
    | apply wp_upd_query
    | apply wp_assign
    | apply wp_invoke
    | apply wp_blockWrite ].

(** ** The packet layout *)

(** The ceiling of [n / d]. *)
Definition ceil_div (n d : Z) : Z := n / d + (if n mod d =? 0 then 0 else 1).

Lemma DIV_ROUND_UP_ceil n d : 0 <= n -> 0 < d -> DIV_ROUND_UP n d = ceil_div n d.
Proof.
  intros Hn Hd. unfold DIV_ROUND_UP, ceil_div.
  rewrite Z.quot_div_nonneg by lia.
  destruct (Z.eqb_spec (n mod d) 0) as [E|E].
  - pose proof (Z.div_mod n d ltac:(lia)) as D. rewrite E in D.
    symmetry. apply Z.div_unique with (r := d - 1); lia.
  - pose proof (Z.div_mod n d ltac:(lia)) as D.
    pose proof (Z.mod_pos_bound n d Hd) as B.
    symmetry. apply Z.div_unique with (r := n mod d - 1); lia.
Qed.

(** The layout in the words of the specification. *)
Definition resolved_finger_count (code : Z) : Z :=
  if code =? 5 then 10 else code + 1.

Definition gesture_bytes (q : f11_2d_sensor_queries) : Z :=
  (if query7_nonzero q then 1 else 0)
  + (if query7_nonzero q || query8_nonzero q then 1 else 0)
  + (if has_pinch q || has_flick q || has_rotate q
     then 3 - (if has_flick q then 0 else 1) - (if has_rotate q then 0 else 1)
     else 0).

Definition spec_pkt_size (q : f11_2d_sensor_queries) : Z :=
  let count := resolved_finger_count (nr_fingers q) in
  ceil_div count 4
  + (if has_abs q then count * 5 else 0)
  + (if has_rel q then count * 2 else 0)
  + gesture_bytes q
  + (if has_touch_shapes q then ceil_div (nr_touch_shapes q + 1) 8 else 0).

(** [before] is the attention size the object held, which stays when
    absolute data is not supported. *)
Definition spec_attn_size (q : f11_2d_sensor_queries) (acm : bool) (before : Z) : Z :=
  let count := resolved_finger_count (nr_fingers q) in
  (if has_abs q then ceil_div count 4 + count * 5 else before)
  + (if acm then count * 2 else 0).

Arguments DIV_ROUND_UP : simpl never.
Arguments ceil_div : simpl never.

Lemma resolved_finger_count_pos code : 0 <= code -> 1 <= resolved_finger_count code.
Proof. unfold resolved_finger_count. destruct (code =? 5); lia. Qed.

(** Unfolding of the monad and of the member updates, and nothing else. *)
Ltac run_body :=
  cbv beta iota zeta delta
    [wp bind ret Return member assign when call invoke returned fst snd
     upd_sensor upd_query pkt_size_add orb negb andb
     sens_query sensor data_2d has_acm bus_log ctrl0_11 ctrl0_11_address
     rezero_wait_ms has_query9 has_query11 has_query12 has_query27 has_query28
     with_sensor with_sens_query with_data_2d with_has_acm with_bus_log
     with_ctrl0_11 with_ctrl0_11_address with_rezero_wait_ms with_query_flags
     nbr_fingers pkt_size attn_size x_mm y_mm max_x max_y data_pkt
     set_nbr_fingers set_pkt_size set_attn_size set_mm set_max set_data_pkt
     f_state abs_pos
     nr_fingers has_rel has_abs has_gestures has_dribble has_jitter_filter
     f11_2d_query6 has_flick has_pinch has_palm_det has_rotate has_touch_shapes
     query7_nonzero query8_nonzero nr_touch_shapes has_info2 has_physical_props
     x_sensor_size_mm y_sensor_size_mm
     set_query1 set_query5 set_query6 set_query7_8 set_query10 set_query12
     set_sensor_size_mm].

(** What [f11_2d_construct_data] leaves in the object [o'] and returns,
    from the object [o] it was called on. *)
Definition constructed (IOMalloc : Z -> bool) (o : F11) (r : Z) (o' : F11) : Prop :=
  let q := sens_query o in
  sens_query o' = q /\ has_acm o' = has_acm o /\ bus_log o' = bus_log o /\
  nbr_fingers (sensor o') = resolved_finger_count (nr_fingers q) /\
  pkt_size (sensor o') = spec_pkt_size q /\
  attn_size (sensor o') = spec_attn_size q false (attn_size (sensor o)) /\
  x_mm (sensor o') = x_mm (sensor o) /\ y_mm (sensor o') = y_mm (sensor o) /\
  max_x (sensor o') = max_x (sensor o) /\ max_y (sensor o') = max_y (sensor o) /\
  ((r = 0 /\ IOMalloc (spec_pkt_size q) = true /\
    data_pkt (sensor o') = Some (spec_pkt_size q) /\
    f_state (data_2d o') = Some 0 /\
    abs_pos (data_2d o') =
      if has_abs q then Some (ceil_div (resolved_finger_count (nr_fingers q)) 4)
      else abs_pos (data_2d o))
   \/
   (r = - ENOMEM /\ IOMalloc (spec_pkt_size q) = false /\
    data_pkt (sensor o') = None /\ data_2d o' = data_2d o)).

Ltac malloc_eq E :=
  match goal with
  | |- ?f ?b = _ =>
      match type of E with
      | f ?a = _ => replace b with a by lia; exact E
      end
  end.

Lemma construct_data_layout IOMalloc o :
  0 <= nr_fingers (sens_query o) ->
  (has_touch_shapes (sens_query o) = true -> 0 <= nr_touch_shapes (sens_query o)) ->
  wp (f11_2d_construct_data IOMalloc)
     (fun r o' => constructed IOMalloc o (returned r) o') o.
Proof.
  destruct o as [q9 q11 q12 q27 q28 acm q sens d2d ctrl ctrla rz log].
  destruct q as [nf rel abs gest drib jit q6 flick pinch palm rot shapes q7 q8
                 nts info2 phys xs ys].
  cbv beta iota delta [sens_query nr_fingers nr_touch_shapes has_touch_shapes].
  intros Hn Hs.
  pose proof (resolved_finger_count_pos _ Hn) as Hc.
  unfold constructed. cbv zeta. unfold spec_pkt_size, spec_attn_size, gesture_bytes.
  cbv beta iota delta [sens_query nr_fingers nr_touch_shapes has_touch_shapes].
  destruct shapes; [specialize (Hs eq_refl)|clear Hs];
    rewrite <- !DIV_ROUND_UP_ceil by lia;
    unfold f11_2d_construct_data; run_body;
    fold (resolved_finger_count nf);
    set (c := resolved_finger_count nf) in *;
    destruct abs, rel, q7, q8, pinch, flick, rot; run_body;
    (match goal with
     | |- context [IOMalloc ?n] => destruct (IOMalloc n) eqn:E
     end;
     run_body;
     repeat (split; [first [reflexivity | lia] |]);
     [ left; split; [reflexivity|]; split; [malloc_eq E|];
       split; [f_equal; lia|]; split; reflexivity
     | right; split; [reflexivity|]; split; [malloc_eq E|]; split; reflexivity ]).
Qed.

(** ** The bus log *)

Definition is_read (ev : bus_event) : bool :=
  match ev_op ev with
  | op_read _ | op_readBlock _ _ => true
  | op_blockWrite _ _ => false
  end.

(** A register read that failed: the bus returned a negative code. *)
Definition failed_read (ev : bus_event) : Prop :=
  is_read ev = true /\ ev_rc ev < 0.

(** No read of the log failed. *)
Definition clean (l : list bus_event) : Prop :=
  Forall (fun ev => ~ failed_read ev) l.

(** The log ends with a failed read that returned [rc], the first one to
    fail. *)
Definition aborted (rc : Z) (l : list bus_event) : Prop :=
  exists l' ev, l = l' ++ [ev] /\ clean l' /\ failed_read ev /\ ev_rc ev = rc.

Lemma clean_nil : clean [].
Proof. constructor. Qed.

Lemma clean_app l1 l2 : clean l1 -> clean l2 -> clean (l1 ++ l2).
Proof. unfold clean. intros H1 H2. apply Forall_app. split; assumption. Qed.

Lemma clean_read_ok op rc :
  0 <= rc -> clean [{| ev_op := op; ev_rc := rc |}].
Proof.
  intros H. constructor; [|constructor].
  intros [_ Hneg]. simpl in Hneg. lia.
Qed.

Lemma clean_write addr data rc :
  clean [{| ev_op := op_blockWrite addr data; ev_rc := rc |}].
Proof.
  constructor; [|constructor]. intros [Hr _]. discriminate Hr.
Qed.

Lemma aborted_app l1 l2 rc : clean l1 -> aborted rc l2 -> aborted rc (l1 ++ l2).
Proof.
  intros H1 (l' & ev & -> & Hc & Hf & Hrc).
  exists (l1 ++ l'), ev. rewrite app_assoc.
  repeat split; try apply Hf; auto using clean_app.
Qed.

Lemma aborted_neg rc l : aborted rc l -> rc < 0.
Proof. intros (l' & ev & _ & _ & [_ Hneg] & <-). exact Hneg. Qed.

Lemma aborted_not_clean rc l : aborted rc l -> ~ clean l.
Proof.
  intros (l' & ev & -> & _ & Hf & _) Hc.
  apply Forall_app in Hc as [_ Hc]. inversion Hc; subst. contradiction.
Qed.

(** In an aborted log the failed read is the last call, and the only
    failed one. *)
Lemma aborted_failed_read rc l ev :
  aborted rc l -> In ev l -> failed_read ev -> ev_rc ev = rc /\ last l = Some ev.
Proof.
  intros (l' & ev' & -> & Hc & Hf & Hrc) Hin Hev.
  apply in_app_or in Hin as [Hin | [<- | []]].
  - exfalso. unfold clean in Hc. rewrite Forall_forall in Hc.
    apply (Hc ev); [apply list_elem_of_In; exact Hin | exact Hev].
  - split; [exact Hrc | apply last_snoc].
Qed.

Lemma aborted_read_fail op rc :
  is_read {| ev_op := op; ev_rc := rc |} = true -> rc < 0 ->
  aborted rc [{| ev_op := op; ev_rc := rc |}].
Proof.
  intros Hr Hneg. exists [], {| ev_op := op; ev_rc := rc |}.
  repeat split; auto using clean_nil.
Qed.

(** The object without its log. *)
Definition unlog (o : F11) : F11 := with_bus_log [] o.

(** The shape of what a body does to the bus, from the object [o] it
    starts on: the calls it adds are all successful reads and the body
    falls through ([P]) or returns normally ([N]), or the last call is the
    first failed read and the body returns its code. *)
Definition io_spec {A} (o : F11) (N : Z -> F11 -> Prop) (P : A -> F11 -> Prop)
    : Z + A -> F11 -> Prop :=
  fun r o' =>
    exists l, bus_log o' = bus_log o ++ l /\
      match r with
      | inl v => aborted v l \/ (clean l /\ N v o')
      | inr a => clean l /\ P a o'
      end.

Definition never (_ : Z) (_ : F11) : Prop := False.

Lemma io_bind {A B} (m : Fn A) (f : A -> Fn B) o N P Q :
  wp m (io_spec o N P) o ->
  (forall a o1, P a o1 -> wp (f a) (io_spec o1 N Q) o1) ->
  wp (bind m f) (io_spec o N Q) o.
Proof.
  intros Hm Hf. apply wp_bind. revert Hm. apply wp_mono.
  intros [v|a] o1 (l & Hl & H).
  - exists l. split; [exact Hl | exact H].
  - destruct H as [Hc HP]. specialize (Hf a o1 HP). revert Hf. apply wp_mono.
    intros r o2 (l2 & Hl2 & H2). exists (l ++ l2). split.
    + rewrite Hl2, Hl. symmetry. apply app_assoc.
    + destruct r as [v|b].
      * destruct H2 as [H2 | [H2 HN]]; [left | right]; auto using aborted_app, clean_app.
      * destruct H2; split; auto using clean_app.
Qed.

Lemma io_ret {A} (a : A) o N (P : A -> F11 -> Prop) :
  P a o -> wp (ret a) (io_spec o N P) o.
Proof.
  intros H. apply wp_ret. exists []. split; [symmetry; apply app_nil_r|].
  split; [apply clean_nil | exact H].
Qed.

Lemma io_Return {A} v o (N : Z -> F11 -> Prop) (P : A -> F11 -> Prop) :
  N v o -> wp (Return v) (io_spec o N P) o.
Proof.
  intros H. apply wp_Return. exists []. split; [symmetry; apply app_nil_r|].
  right. split; [apply clean_nil | exact H].
Qed.

(** A body specified from [o1] is specified from [o] when the calls made
    between the two were successful. *)
Lemma io_rebase {A} (m : Fn A) o o1 l N P :
  bus_log o1 = bus_log o ++ l -> clean l ->
  wp m (io_spec o1 N P) o1 -> wp m (io_spec o N P) o1.
Proof.
  intros Hl Hc. apply wp_mono. intros r o2 (l2 & Hl2 & H).
  exists (l ++ l2). split; [rewrite Hl2, Hl; symmetry; apply app_assoc|].
  destruct r as [v|a].
  - destruct H as [H | [H HN]]; [left | right]; auto using aborted_app, clean_app.
  - destruct H; split; auto using clean_app.
Qed.

Lemma io_weaken {A} (m : Fn A) o (N N' : Z -> F11 -> Prop) (P P' : A -> F11 -> Prop) :
  (forall v o', N v o' -> N' v o') -> (forall a o', P a o' -> P' a o') ->
  wp m (io_spec o N P) o -> wp m (io_spec o N' P') o.
Proof.
  intros HN HP. apply wp_mono. intros r o' (l & Hl & H). exists l. split; [exact Hl|].
  destruct r; [destruct H as [H | [H H']]; [left | right]; auto | destruct H; auto].
Qed.

(** The members a query block leaves alone. *)
Definition same_outside_query (o o' : F11) : Prop :=
  has_query9 o' = has_query9 o /\ has_query11 o' = has_query11 o /\
  has_query12 o' = has_query12 o /\ has_query27 o' = has_query27 o /\
  has_query28 o' = has_query28 o /\ sensor o' = sensor o /\
  data_2d o' = data_2d o /\ ctrl0_11 o' = ctrl0_11 o /\
  ctrl0_11_address o' = ctrl0_11_address o /\
  rezero_wait_ms o' = rezero_wait_ms o.

Lemma same_outside_query_refl o : same_outside_query o o.
Proof. repeat split. Qed.

Lemma same_outside_query_trans o1 o2 o3 :
  same_outside_query o1 o2 -> same_outside_query o2 o3 -> same_outside_query o1 o3.
Proof.
  unfold same_outside_query. intros H1 H2.
  destruct H1 as (?&?&?&?&?&?&?&?&?&?), H2 as (?&?&?&?&?&?&?&?&?&?).
  repeat split; congruence.
Qed.

Definition b2z (b : bool) : Z := if b then 1 else 0.

Lemma u8_nonneg z : 0 <= u8 z.
Proof. unfold u8. apply Z.mod_pos_bound. lia. Qed.

Lemma u8_range z : 0 <= u8 z < 256.
Proof. unfold u8. apply Z.mod_pos_bound. lia. Qed.

Lemma byte_at_range buf k : 0 <= byte_at buf k < 256.
Proof. apply u8_range. Qed.

(** What a query block does: [gate] tells whether it reads, [w] is what it
    adds to [query_size], [R] how it changes the query record. *)
Definition block_post (o : F11) (gate : bool) (w size : Z)
    (R : f11_2d_sensor_queries -> f11_2d_sensor_queries -> Prop)
    (size' : Z) (o' : F11) : Prop :=
  same_outside_query o o' /\ has_acm o' = has_acm o /\
  size' = size + w * b2z gate /\
  (if gate then R (sens_query o) (sens_query o')
   else sens_query o' = sens_query o).

Ltac run_io :=
  cbv beta iota zeta delta
    [wp bind ret Return member assign when call invoke returned fst snd
     upd_sensor upd_query pkt_size_add read readBlock blockWrite record_event
     io_spec
     sens_query sensor data_2d has_acm bus_log ctrl0_11 ctrl0_11_address
     rezero_wait_ms has_query9 has_query11 has_query12 has_query27 has_query28
     with_sensor with_sens_query with_data_2d with_has_acm with_bus_log
     with_ctrl0_11 with_ctrl0_11_address with_rezero_wait_ms with_query_flags].

(** The three ends of a block: the read failed, the read succeeded, no
    read was made. *)
Ltac block_end :=
  match goal with
  | H : ?rc < 0 |- exists l, ?l0 ++ [?ev] = ?l0 ++ l /\ _ =>
      exists [ev]; split; [reflexivity | left; apply aborted_read_fail; [reflexivity | exact H]]
  | H : 0 <= ?rc |- exists l, ?l0 ++ [?ev] = ?l0 ++ l /\ _ =>
      exists [ev]; split; [reflexivity | split; [apply clean_read_ok; exact H |]]
  | |- exists l, ?l0 = ?l0 ++ l /\ _ =>
      exists []; split; [symmetry; apply app_nil_r | split; [apply clean_nil |]]
  end.

Ltac block_frame :=
  unfold block_post, same_outside_query, b2z;
  cbv beta iota delta
    [sens_query sensor data_2d has_acm bus_log ctrl0_11 ctrl0_11_address
     rezero_wait_ms has_query9 has_query11 has_query12 has_query27 has_query28];
  repeat split; try reflexivity; try lia.

Section QueryBlocks.

Variable h : F11_hpp.
Variable bus : RMIBus.
Variable qba : Z.

Lemma query_block_abs_spec size o :
  wp (query_block_abs h bus qba size)
     (io_spec o never
        (block_post o (has_abs (sens_query o)) 1 size
           (fun q q' => exists d j, q' = set_query5 d j q))) o.
Proof.
  unfold query_block_abs.
  destruct o as [q9 q11 q12 q27 q28 acm q sens d2d ctrl ctrla rz log].
  run_io. destruct (has_abs q) eqn:Hg.
  - destruct (bus_read bus log (qba + size)) as [rc b].
    destruct (Z.ltb_spec rc 0); cbv beta iota; block_end.
    block_frame. eauto.
  - cbv beta iota. block_end. block_frame.
Qed.

Lemma query_block_first_spec o :
  wp (query_block_first h bus qba)
     (io_spec o never
        (block_post o true RMI_F11_QUERY_SIZE 0
           (fun q q' => exists n r a g, q' = set_query1 n r a g q /\ 0 <= n))) o.
Proof.
  unfold query_block_first.
  destruct o as [q9 q11 q12 q27 q28 acm q sens d2d ctrl ctrla rz log].
  run_io.
  destruct (bus_readBlock bus log qba RMI_F11_QUERY_SIZE) as [rc b].
  destruct (Z.ltb_spec rc 0); cbv beta iota; block_end.
  block_frame. do 4 eexists. split; [reflexivity|].
  apply Z.land_nonneg. left. apply byte_at_range.
Qed.

Lemma query_block_rel_spec size o :
  wp (query_block_rel bus qba size)
     (io_spec o never
        (block_post o (has_rel (sens_query o)) 1 size
           (fun q q' => exists v, q' = set_query6 v q))) o.
Proof.
  unfold query_block_rel.
  destruct o as [q9 q11 q12 q27 q28 acm q sens d2d ctrl ctrla rz log].
  run_io. destruct (has_rel q) eqn:Hg.
  - destruct (bus_read bus log (qba + size)) as [rc b].
    cbv beta iota.
    destruct (Z.ltb_spec rc 0); cbv beta iota; block_end.
    block_frame. eauto.
  - cbv beta iota. block_end. block_frame.
Qed.

Lemma query_block_gestures_spec size o :
  wp (query_block_gestures h bus qba size)
     (io_spec o never
        (block_post o (has_gestures (sens_query o)) 2 size
           (fun q q' => exists f p pd r ts n7 n8, q' = set_query7_8 f p pd r ts n7 n8 q))) o.
Proof.
  unfold query_block_gestures.
  destruct o as [q9 q11 q12 q27 q28 acm q sens d2d ctrl ctrla rz log].
  run_io. destruct (has_gestures q) eqn:Hg.
  - destruct (bus_readBlock bus log (qba + size) RMI_F11_QUERY_GESTURE_SIZE) as [rc b].
    destruct (Z.ltb_spec rc 0); cbv beta iota; block_end.
    block_frame. do 7 eexists. reflexivity.
  - cbv beta iota. block_end. block_frame.
Qed.

Lemma query_block_one_byte_spec present size o :
  wp (query_block_one_byte bus present qba size)
     (io_spec o never
        (block_post o present 1 size (fun q q' => q' = q))) o.
Proof.
  unfold query_block_one_byte.
  destruct o as [q9 q11 q12 q27 q28 acm q sens d2d ctrl ctrla rz log].
  run_io. destruct present.
  - destruct (bus_read bus log (qba + size)) as [rc b].
    destruct (Z.ltb_spec rc 0); cbv beta iota; block_end.
    block_frame.
  - cbv beta iota. block_end. block_frame.
Qed.

Lemma query_block_touch_shapes_spec size o :
  wp (query_block_touch_shapes h bus qba size)
     (io_spec o never
        (block_post o (has_touch_shapes (sens_query o)) 1 size
           (fun q q' => exists n, q' = set_query10 n q /\ 0 <= n))) o.
Proof.
  unfold query_block_touch_shapes.
  destruct o as [q9 q11 q12 q27 q28 acm q sens d2d ctrl ctrla rz log].
  run_io. destruct (has_touch_shapes q) eqn:Hg.
  - destruct (bus_read bus log (qba + size)) as [rc b].
    destruct (Z.ltb_spec rc 0); cbv beta iota; block_end.
    block_frame. eexists. split; [reflexivity|].
    apply Z.land_nonneg. left. apply u8_range.
  - cbv beta iota. block_end. block_frame.
Qed.

Lemma query_block_12_spec size o :
  wp (query_block_12 h bus qba size)
     (io_spec o never
        (block_post o (has_query12 o) 1 size
           (fun q q' => exists i p, q' = set_query12 i p q))) o.
Proof.
  unfold query_block_12.
  destruct o as [q9 q11 q12 q27 q28 acm q sens d2d ctrl ctrla rz log].
  run_io. destruct q12.
  - destruct (bus_read bus log (qba + size)) as [rc b].
    destruct (Z.ltb_spec rc 0); cbv beta iota; block_end.
    block_frame. eauto.
  - cbv beta iota. block_end. block_frame.
Qed.

Lemma query_block_physical_props_spec size o :
  wp (query_block_physical_props bus qba size)
     (io_spec o never
        (block_post o (has_physical_props (sens_query o)) 12 size
           (fun q q' => exists x y, q' = set_sensor_size_mm x y q))) o.
Proof.
  unfold query_block_physical_props.
  destruct o as [q9 q11 q12 q27 q28 acm q sens d2d ctrl ctrla rz log].
  run_io. destruct (has_physical_props q) eqn:Hg.
  - destruct (bus_readBlock bus log (qba + size) 4) as [rc b].
    destruct (Z.ltb_spec rc 0); cbv beta iota; block_end.
    block_frame. eauto.
  - cbv beta iota. block_end. block_frame.
Qed.

Lemma query_block_27_spec size o :
  wp (query_block_27 size)
     (io_spec o never
        (block_post o (has_query27 o) 1 size (fun q q' => q' = q))) o.
Proof.
  unfold query_block_27.
  destruct o as [q9 q11 q12 q27 q28 acm q sens d2d ctrl ctrla rz log].
  run_io. destruct q27; cbv beta iota; block_end; block_frame.
Qed.

Lemma query_block_28_spec size q36 o :
  wp (query_block_28 bus qba size q36)
     (io_spec o never
        (fun q36' o' =>
           block_post o (has_query28 o) 0 size (fun q q' => q' = q) size o' /\
           (has_query28 o = false -> q36' = q36))) o.
Proof.
  unfold query_block_28.
  destruct o as [q9 q11 q12 q27 q28 acm q sens d2d ctrl ctrla rz log].
  run_io. destruct q28.
  - destruct (bus_read bus log (qba + size)) as [rc b].
    destruct (Z.ltb_spec rc 0); cbv beta iota; block_end.
    split; [block_frame | discriminate].
  - cbv beta iota. block_end. split; [block_frame | reflexivity].
Qed.

Lemma query_block_36_spec size q36 o :
  wp (query_block_36 bus qba size q36)
     (io_spec o never
        (fun size' o' =>
           same_outside_query o o' /\ sens_query o' = sens_query o /\
           size' = size + 2 * b2z q36 /\
           (q36 = false -> has_acm o' = has_acm o) /\
           (has_acm o = true -> has_acm o' = true))) o.
Proof.
  unfold query_block_36.
  destruct o as [q9 q11 q12 q27 q28 acm q sens d2d ctrl ctrla rz log].
  run_io. destruct q36.
  - destruct (bus_read bus log (qba + (size + 2))) as [rc b].
    destruct (Z.ltb_spec rc 0); cbv beta iota; [block_end|].
    destruct (truthy (Z.land (u8 b) (BIT 5))); cbv beta iota; block_end;
      block_frame; try discriminate; auto.
  - cbv beta iota. block_end. block_frame; auto.
Qed.

End QueryBlocks.

(** ** The size of the query area *)

(** The gates of the blocks of [rmi_f11_get_query_parameters] in the order
    they are met, with the number of registers each block takes. *)
Definition query_gates : list ((F11 -> bool) * Z) :=
  [ (fun o => has_abs (sens_query o), 1);
    (fun o => has_rel (sens_query o), 1);
    (fun o => has_gestures (sens_query o), 2);
    (has_query9, 1);
    (fun o => has_touch_shapes (sens_query o), 1);
    (has_query11, 1);
    (has_query12, 1);
    (fun o => has_jitter_filter (sens_query o), 1);
    (fun o => has_info2 (sens_query o), 1);
    (fun o => has_physical_props (sens_query o), 12);
    (has_query27, 1) ].

Definition query_size_upto (k : nat) (o : F11) : Z :=
  RMI_F11_QUERY_SIZE
  + foldr (fun gw acc => snd gw * b2z (fst gw o) + acc) 0 (take k query_gates).

(** What holds between two blocks: [o0] is the object on entry. *)
Definition query_inv (o0 : F11) (k : nat) (size : Z) (o : F11) : Prop :=
  same_outside_query o0 o /\ has_acm o = has_acm o0 /\
  0 <= nr_fingers (sens_query o) /\
  ((5 <= k)%nat -> has_touch_shapes (sens_query o) = true ->
   0 <= nr_touch_shapes (sens_query o)) /\
  size = query_size_upto k o.

(** What [rmi_f11_get_query_parameters] has done when it returns a size. *)
Definition query_result (o0 : F11) (size : Z) (o : F11) : Prop :=
  same_outside_query o0 o /\
  0 <= nr_fingers (sens_query o) /\
  (has_touch_shapes (sens_query o) = true -> 0 <= nr_touch_shapes (sens_query o)) /\
  (has_acm o0 = true -> has_acm o = true) /\
  exists has_query36 : bool,
    (has_query28 o = false -> has_query36 = false) /\
    (has_query36 = false -> has_acm o = has_acm o0) /\
    size = query_size_upto 11 o + 2 * b2z has_query36.

Ltac query_fields :=
  cbn
    [nr_fingers has_rel has_abs has_gestures has_dribble has_jitter_filter
     f11_2d_query6 has_flick has_pinch has_palm_det has_rotate has_touch_shapes
     query7_nonzero query8_nonzero nr_touch_shapes has_info2 has_physical_props
     x_sensor_size_mm y_sensor_size_mm
     set_query1 set_query5 set_query6 set_query7_8 set_query10 set_query12
     set_sensor_size_mm].

Ltac size_unfold :=
  cbv beta iota delta [query_size_upto query_gates firstn fold_right fst snd] in *.

(** From the invariant before a block and what the block did, the
    invariant after it. *)
Ltac inv_step Hinv Hpost :=
  let Hf := fresh "Hf" in let Hacm := fresh "Hacm" in
  let Hnf := fresh "Hnf" in let Hnts := fresh "Hnts" in
  let Hsize := fresh "Hsize" in
  let Hf' := fresh "Hf'" in let Hacm' := fresh "Hacm'" in
  let Hsize' := fresh "Hsize'" in let HR := fresh "HR" in
  destruct Hinv as (Hf & Hacm & Hnf & Hnts & Hsize);
  destruct Hpost as (Hf' & Hacm' & Hsize' & HR);
  split; [exact (same_outside_query_trans _ _ _ Hf Hf')|];
  split; [congruence|];
  destruct Hf' as (?&?&?&?&?&?&?&?&?&?);
  size_unfold;
  match type of HR with
  | if ?g then _ else _ =>
      let E := fresh "E" in
      destruct g eqn:E;
      repeat match goal with
             | H : exists _, _ |- _ => destruct H
             | H : _ /\ _ |- _ => destruct H
             end;
      repeat match goal with
             | H : sens_query _ = _ |- _ => rewrite H in *; clear H
             | H : has_query9 _ = _ |- _ => rewrite H in *; clear H
             | H : has_query11 _ = _ |- _ => rewrite H in *; clear H
             | H : has_query12 _ = _ |- _ => rewrite H in *; clear H
             | H : has_query27 _ = _ |- _ => rewrite H in *; clear H
             end;
      query_fields; rewrite ?E;
      change (b2z true) with 1 in *; change (b2z false) with 0 in *;
      (split; [try assumption; try lia |
               split; [let Hk := fresh "Hk" in
                       let Hts := fresh "Hts" in
                       intros Hk Hts;
                       first [ lia | assumption | congruence
                             | apply Hnts; [lia | assumption] ]
                      | lia]])
  end.

Ltac blk spec k :=
  match goal with
  | Hinv : query_inv ?o _ _ _ |- _ =>
      apply io_bind with (P := query_inv o k);
      [ eapply io_weaken; [| | apply spec];
        [ intros ? ? []
        | let s := fresh "size" in
          let o' := fresh "o" in
          let Hp := fresh "Hpost" in
          intros s o' Hp; inv_step Hinv Hp ]
      | clear Hinv;
        let s := fresh "size" in
        let o' := fresh "o" in
        intros s o' Hinv ]
  end.

Section QuerySize.

Variable h : F11_hpp.
Variable bus : RMIBus.
Variable qba : Z.

Lemma rmi_f11_get_query_parameters_spec o :
  wp (rmi_f11_get_query_parameters h bus qba)
     (io_spec o (query_result o) (fun _ _ => False)) o.
Proof.
  unfold rmi_f11_get_query_parameters.
  apply io_bind with (P := query_inv o 0).
  { eapply io_weaken; [| |apply query_block_first_spec]; [intros ? ? []|].
    intros size o1 (Hf & Hacm & Hsize & (n & r & a & g & Hq & Hn)).
    split; [exact Hf|]. split; [exact Hacm|].
    split; [rewrite Hq; exact Hn|].
    split; [intros Hk; lia|].
    subst size. size_unfold. change (b2z true) with 1. lia. }
  intros size o1 Hinv.
  blk query_block_abs_spec 1%nat.
  blk query_block_rel_spec 2%nat.
  blk query_block_gestures_spec 3%nat.
  apply wp_bind; apply wp_member; cbv beta iota.
  blk query_block_one_byte_spec 4%nat.
  blk query_block_touch_shapes_spec 5%nat.
  apply wp_bind; apply wp_member; cbv beta iota.
  blk query_block_one_byte_spec 6%nat.
  blk query_block_12_spec 7%nat.
  apply wp_bind; apply wp_member; cbv beta iota.
  blk query_block_one_byte_spec 8%nat.
  apply wp_bind; apply wp_member; cbv beta iota.
  blk query_block_one_byte_spec 9%nat.
  blk query_block_physical_props_spec 10%nat.
  blk query_block_27_spec 11%nat.
  match goal with
  | Hinv : query_inv _ _ ?sz _ |- _ =>
      apply io_bind with
        (P := fun q36 o' => query_inv o 11 sz o' /\
                            (has_query28 o' = false -> q36 = false))
  end.
  { eapply io_weaken; [| |apply query_block_28_spec]; [intros ? ? []|].
    intros q36 o' [Hpost Hq36]. split.
    - inv_step Hinv Hpost.
    - destruct Hpost as ((_&_&_&_&H28&_) & _). rewrite H28. exact Hq36. }
  clear Hinv. intros q36 o' [Hinv Hq36].
  apply io_bind with (P := query_result o).
  { eapply io_weaken; [| |apply query_block_36_spec]; [intros ? ? []|].
    intros size' o'' (Hf' & Hq & Hsize' & Hacm1 & Hacm2).
    destruct Hinv as (Hf & Hacm & Hnf & Hnts & Hsize).
    split; [exact (same_outside_query_trans _ _ _ Hf Hf')|].
    rewrite Hq. split; [exact Hnf|]. split; [apply Hnts; lia|].
    split; [intros H0; apply Hacm2; congruence|].
    exists q36. split; [|split].
    - destruct Hf' as (_&_&_&_&H28&_). rewrite H28. exact Hq36.
    - intros H0. rewrite (Hacm1 H0). exact Hacm.
    - destruct Hf' as (H9&H11&H12&H27&_).
      size_unfold. rewrite Hq, H9, H11, H12, H27. lia. }
  intros size' o'' Hres. apply io_Return. exact Hres.
Qed.

End QuerySize.

(** ** The initialisation *)

Lemma io_read_check {B} bus addr (k : Z -> Fn B) o N Q :
  (forall rc b, bus_read bus (bus_log o) addr = (rc, b) -> 0 <= rc ->
     wp (k b) (io_spec (record_event (op_read addr) rc o) N Q)
        (record_event (op_read addr) rc o)) ->
  wp (bind (read bus addr)
        (fun p => let '(rc, b) := p in if rc <? 0 then Return rc else k b))
     (io_spec o N Q) o.
Proof.
  intros Hk. apply wp_bind, wp_read. intros rc b Hbus.
  destruct (Z.ltb_spec rc 0) as [Hneg|Hpos].
  - apply wp_Return. exists [{| ev_op := op_read addr; ev_rc := rc |}].
    split; [reflexivity|]. left. apply aborted_read_fail; [reflexivity | exact Hneg].
  - apply io_rebase with (l := [{| ev_op := op_read addr; ev_rc := rc |}]).
    + reflexivity.
    + apply clean_read_ok, Hpos.
    + apply (Hk rc b Hbus Hpos).
Qed.

Lemma io_readBlock_check {B} bus addr len (k : list Z -> Fn B) o N Q :
  (forall rc bs, bus_readBlock bus (bus_log o) addr len = (rc, bs) -> 0 <= rc ->
     wp (k bs) (io_spec (record_event (op_readBlock addr len) rc o) N Q)
        (record_event (op_readBlock addr len) rc o)) ->
  wp (bind (readBlock bus addr len)
        (fun p => let '(rc, bs) := p in if rc <? 0 then Return rc else k bs))
     (io_spec o N Q) o.
Proof.
  intros Hk. apply wp_bind, wp_readBlock. intros rc b Hbus.
  destruct (Z.ltb_spec rc 0) as [Hneg|Hpos].
  - apply wp_Return. exists [{| ev_op := op_readBlock addr len; ev_rc := rc |}].
    split; [reflexivity|]. left. apply aborted_read_fail; [reflexivity | exact Hneg].
  - apply io_rebase with (l := [{| ev_op := op_readBlock addr len; ev_rc := rc |}]).
    + reflexivity.
    + apply clean_read_ok, Hpos.
    + apply (Hk rc b Hbus Hpos).
Qed.

Lemma io_assign_bind {B} g (f : unit -> Fn B) o N Q :
  bus_log (g o) = bus_log o ->
  wp (f tt) (io_spec (g o) N Q) (g o) ->
  wp (bind (assign g) f) (io_spec o N Q) o.
Proof.
  intros Hl H. apply wp_bind, wp_assign.
  apply io_rebase with (l := []); [rewrite Hl; symmetry; apply app_nil_r | apply clean_nil | exact H].
Qed.

Lemma io_member_bind {A B} (g : F11 -> A) (f : A -> Fn B) o N Q :
  wp (f (g o)) (io_spec o N Q) o -> wp (bind (member g) f) (io_spec o N Q) o.
Proof. intros H. apply wp_bind, wp_member. exact H. Qed.

(** A call whose result is tested: the caller goes on when the callee
    returned a value that is not negative and no read failed. *)
Lemma io_invoke_check {B} (m : Fn Z) (k : Z -> Fn B) o Nm Pm N Q :
  wp m (io_spec o Nm Pm) o ->
  (forall v o1, Nm v o1 \/ Pm v o1 ->
     wp (if v <? 0 then Return v else k v) (io_spec o1 N Q) o1) ->
  wp (bind (invoke m) (fun rc => if rc <? 0 then Return rc else k rc))
     (io_spec o N Q) o.
Proof.
  intros Hm Hk. apply wp_bind, wp_invoke. revert Hm. apply wp_mono.
  intros r o1 (l & Hl & H).
  assert (Hcases : aborted (returned r) l \/ (clean l /\ (Nm (returned r) o1 \/ Pm (returned r) o1))).
  { destruct r as [v|v]; simpl; [destruct H as [H|[H H']] | destruct H as [H H']]; auto. }
  destruct Hcases as [Hab | [Hc Hv]].
  - pose proof (aborted_neg _ _ Hab) as Hneg.
    apply Z.ltb_lt in Hneg. rewrite Hneg.
    apply wp_Return. exists l. split; [exact Hl | left; exact Hab].
  - apply io_rebase with (l := l); [exact Hl | exact Hc | apply Hk, Hv].
Qed.

Lemma io_early {A} v o (N : Z -> F11 -> Prop) (P : A -> F11 -> Prop) :
  N v o -> io_spec o N P (inl v) o.
Proof.
  intros H. exists []. split; [symmetry; apply app_nil_r|].
  right. split; [apply clean_nil | exact H].
Qed.

Lemma io_when_assign_bind {B} (c : bool) g (f : unit -> Fn B) o N Q :
  bus_log (g o) = bus_log o ->
  wp (f tt) (io_spec (if c then g o else o) N Q) (if c then g o else o) ->
  wp (bind (when c (assign g)) f) (io_spec o N Q) o.
Proof.
  intros Hl H. destruct c; unfold when.
  - apply io_assign_bind; assumption.
  - apply wp_bind, wp_ret. exact H.
Qed.

Lemma b2z_range b : 0 <= b2z b <= 1.
Proof. destruct b; simpl; lia. Qed.

Lemma gate_sum_bounds (o : F11) (l : list ((F11 -> bool) * Z)) (k : nat) :
  Forall (fun gw => 0 <= snd gw) l ->
  0 <= foldr (fun gw acc => snd gw * b2z (fst gw o) + acc) 0 (take k l) /\
  foldr (fun gw acc => snd gw * b2z (fst gw o) + acc) 0 (take k l)
    <= foldr (fun gw acc => snd gw + acc) 0 l.
Proof.
  intros Hl. revert k. induction Hl as [|[g w] l Hw Hl IH]; intros k.
  - destruct k; simpl; lia.
  - destruct k as [|k]; simpl in *.
    + specialize (IH 0%nat). simpl in IH. lia.
    + specialize (IH k). pose proof (b2z_range (g o)). nia.
Qed.

Lemma query_size_upto_bounds k o : 4 <= query_size_upto k o <= 27.
Proof.
  unfold query_size_upto, RMI_F11_QUERY_SIZE.
  assert (Hw : Forall (fun gw : (F11 -> bool) * Z => 0 <= snd gw) query_gates)
    by (unfold query_gates; repeat constructor; simpl; lia).
  pose proof (gate_sum_bounds o query_gates k Hw) as H.
  change (foldr (fun gw acc => snd gw + acc) 0 query_gates) with 23 in H.
  lia.
Qed.

Lemma construct_data_io IOMalloc o :
  0 <= nr_fingers (sens_query o) ->
  (has_touch_shapes (sens_query o) = true -> 0 <= nr_touch_shapes (sens_query o)) ->
  wp (f11_2d_construct_data IOMalloc)
     (io_spec o (constructed IOMalloc o) (constructed IOMalloc o)) o.
Proof.
  intros Hn Hs. generalize (construct_data_layout IOMalloc o Hn Hs).
  apply wp_mono. intros r o' H. exists [].
  assert (Hl : bus_log o' = bus_log o ++ [])
    by (rewrite app_nil_r; apply H).
  split; [exact Hl|].
  destruct r; simpl in H; [right|]; (split; [apply clean_nil | exact H]).
Qed.

(** The outcomes of [rmi_f11_initialize] when no read failed. *)
Definition init_done (o' : F11) : Prop :=
  let q := sens_query o' in
  let s := sensor o' in
  has_physical_props q = true /\ has_abs q = true /\
  0 <= nr_fingers q /\
  (has_touch_shapes q = true -> 0 <= nr_touch_shapes q) /\
  nbr_fingers s = resolved_finger_count (nr_fingers q) /\
  pkt_size s = spec_pkt_size q /\
  attn_size s = spec_attn_size q (has_acm o') 0 /\
  x_mm s = u8 (x_sensor_size_mm q) /\ y_mm s = u8 (y_sensor_size_mm q) /\
  data_pkt s = Some (pkt_size s) /\
  f_state (data_2d o') = Some 0 /\
  abs_pos (data_2d o') = Some (ceil_div (nbr_fingers s) 4).

Definition init_refused (v : Z) (o' : F11) : Prop :=
  let q := sens_query o' in
  (v = - ENODEV /\ (has_physical_props q = false \/ has_abs q = false)) \/
  (v = - ENOMEM /\ has_physical_props q = true /\ has_abs q = true /\
   data_pkt (sensor o') = None).

Section Initialize.

Variable h : F11_hpp.
Variable bus : RMIBus.
Variable IOMalloc : Z -> bool.
Variable query_base_addr control_base_addr : Z.

Lemma f11_read_control_regs_spec addr o :
  wp (f11_read_control_regs h bus addr)
     (io_spec o never
        (fun v o' => v = 0 /\ sens_query o' = sens_query o /\
                     has_acm o' = has_acm o /\ sensor o' = sensor o /\
                     data_2d o' = data_2d o)) o.
Proof.
  unfold f11_read_control_regs.
  destruct o as [q9 q11 q12 q27 q28 acm q sens d2d ctrl ctrla rz log].
  run_io.
  destruct (bus_readBlock bus log addr (RMI_F11_CTRL_REG_COUNT h)) as [rc b].
  cbv beta iota.
  destruct (Z.ltb_spec rc 0); cbv beta iota; block_end. auto.
Qed.


Lemma f11_write_control_regs_spec addr o :
  wp (f11_write_control_regs bus addr)
     (fun r o' => exists rc, o' = record_event (op_blockWrite addr (ctrl0_11 o)) rc o) o.
Proof.
  unfold f11_write_control_regs.
  destruct o as [q9 q11 q12 q27 q28 acm q sens d2d ctrl ctrla rz log].
  run_io.
  destruct (bus_blockWrite bus log addr ctrl <? 0); cbv beta iota; eexists; reflexivity.
Qed.

Lemma rmi_f11_initialize_spec o :
  wp (rmi_f11_initialize h bus IOMalloc query_base_addr control_base_addr)
     (io_spec o init_refused (fun v o' => v = 0 /\ init_done o')) o.
Proof.
  unfold rmi_f11_initialize.
  apply io_assign_bind; [reflexivity|].
  apply io_read_check. intros rc b Hbus Hrc. cbv zeta.
  apply io_assign_bind; [reflexivity|].
  match goal with |- wp _ (io_spec ?oc _ _) _ => set (o0 := oc) end.
  clearbody o0. clear Hbus o.
  eapply io_invoke_check; [apply rmi_f11_get_query_parameters_spec|].
  intros v o1 [Hres | []].
  destruct Hres as (_ & Hnf & Hnts & _ & q36 & _ & _ & Hv).
  assert (Hv0 : (v <? 0) = false).
  { apply Z.ltb_ge. pose proof (query_size_upto_bounds 11 o1).
    unfold b2z in Hv. destruct q36; lia. }
  rewrite Hv0. clear Hv0 Hv q36 o0 rc b Hrc.
  apply io_member_bind.
  destruct (has_physical_props (sens_query o1)) eqn:Hp.
  2: { apply wp_bind, wp_Return. apply io_early. left.
       split; [reflexivity | left; exact Hp]. }
  unfold upd_sensor at 1. apply io_assign_bind; [reflexivity|].
  apply io_member_bind. cbn [sens_query with_sensor].
  destruct (has_abs (sens_query o1)) eqn:Ha; cbn [negb].
  2: { apply io_Return. left. split; [reflexivity | right; exact Ha]. }
  apply io_readBlock_check. intros rcx max_x_pos _ _.
  apply io_readBlock_check. intros rcy max_y_pos _ _.
  unfold upd_sensor at 1. apply io_assign_bind; [reflexivity|].
  eapply io_invoke_check; [apply construct_data_io; assumption|].
  intros v1 o2 Hc.
  assert (Hc' : constructed IOMalloc _ v1 o2) by (destruct Hc; eassumption).
  clear Hc.
  destruct Hc' as (Hq & Hacm & _ & Hnbr & Hpkt & Hattn & Hx & Hy & _ & _ & Hend).
  cbv zeta in *.
  cbn [sens_query sensor has_acm data_2d with_sensor record_event with_bus_log
       x_mm y_mm set_max set_mm] in *.
  destruct Hend as [(-> & _ & Hd & Hfs & Hap) | (-> & _ & Hd & _)].
  2: { change (- ENOMEM <? 0) with true. cbv iota. apply io_Return. right.
       rewrite Hq. auto. }
  change (0 <? 0) with false. cbv iota.
  apply io_member_bind.
  unfold upd_sensor at 1. apply io_when_assign_bind; [reflexivity|].
  eapply io_invoke_check; [apply f11_read_control_regs_spec|].
  intros v2 o3 [[] | (-> & Hq3 & Hacm3 & Hs3 & Hd3)].
  change (0 <? 0) with false. cbv iota.
  apply io_member_bind.
  apply io_when_assign_bind; [reflexivity|].
  apply io_when_assign_bind; [reflexivity|].
  apply wp_bind, wp_invoke.
  eapply wp_mono; [|apply f11_write_control_regs_spec].
  intros r o4 [rcw ->]. apply wp_ret.
  eexists [_]. split; [reflexivity|]. split; [apply clean_write|].
  split; [reflexivity|].
  unfold init_done. cbv zeta.
  destruct (has_acm o2) eqn:Eacm;
    destruct (has_palm_det (sens_query o3)), (has_dribble (sens_query o3));
    cbn [sens_query sensor has_acm data_2d record_event with_bus_log
         with_ctrl0_11 with_sensor] in *;
    rewrite Hq3, Hs3, Hacm3, Hd3, Hfs, Hap, Ha;
    cbn [nbr_fingers pkt_size attn_size x_mm y_mm data_pkt set_attn_size];
    rewrite ?Hnbr, ?Hpkt, ?Hx, ?Hy, ?Hd, ?Hattn, ?Hq;
    unfold spec_attn_size; rewrite ?Ha, ?Eacm;
    repeat split; try assumption; try reflexivity; try lia.
Qed.

End Initialize.

(** ** Running the driver on a register file *)

(** A device given by the contents of its registers; [bad] gives the
    addresses at which a read fails and the code it returns.  Writes
    succeed. *)
Definition register_bus (regs : Z -> Z) (bad : Z -> option Z) : RMIBus := {|
  bus_read := fun _ addr =>
    match bad addr with
    | Some rc => (rc, 0)
    | None => (0, regs addr)
    end;
  bus_readBlock := fun _ addr len =>
    match bad addr with
    | Some rc => (rc, [])
    | None => (0, map (fun k => regs (addr + Z.of_nat k)) (seq 0 (Z.to_nat len)))
    end;
  bus_blockWrite := fun _ _ _ => 0
|}.

Fixpoint register_file (l : list (Z * Z)) (addr : Z) : Z :=
  match l with
  | [] => 0
  | (a, v) :: l' => if a =? addr then v else register_file l' addr
  end.

(** The object as the allocator of the kernel hands it out: every member
    is zero. *)
Definition F11_zero : F11 := {|
  has_query9 := false; has_query11 := false; has_query12 := false;
  has_query27 := false; has_query28 := false; has_acm := false;
  sens_query := {|
    nr_fingers := 0; has_rel := false; has_abs := false; has_gestures := false;
    has_dribble := false; has_jitter_filter := false; f11_2d_query6 := 0;
    has_flick := false; has_pinch := false; has_palm_det := false;
    has_rotate := false; has_touch_shapes := false;
    query7_nonzero := false; query8_nonzero := false; nr_touch_shapes := 0;
    has_info2 := false; has_physical_props := false;
    x_sensor_size_mm := 0; y_sensor_size_mm := 0 |};
  sensor := {| nbr_fingers := 0; pkt_size := 0; attn_size := 0; x_mm := 0;
               y_mm := 0; max_x := 0; max_y := 0; data_pkt := None |};
  data_2d := {| f_state := None; abs_pos := None |};
  ctrl0_11 := []; ctrl0_11_address := 0; rezero_wait_ms := 0; bus_log := []
|}.

(** A two-finger pad with absolute data, physical properties (100.0 mm by
    60.0 mm) and, behind queries 28 and 36, the advanced coordinate mode.
    The query registers start at 0, the control registers at 100. *)
Definition acm_pad : Z -> Z :=
  register_file
    [ (0, 160);                       (* query 0: has query 12, has query 28 *)
      (1, 17);                        (* query 1: has_abs, finger code 1 *)
      (6, 32);                        (* query 12: has physical properties *)
      (7, 232); (8, 3);               (* x size: 1000 tenths of mm *)
      (9, 88); (10, 2);               (* y size: 600 tenths of mm *)
      (19, 64);                       (* query 28: has query 36 *)
      (21, 32);                       (* query 36: advanced coordinate mode *)
      (106, 255); (107, 7);           (* max x: 2047 *)
      (108, 255); (109, 3) ].         (* max y: 1023 *)

(** The same pad without queries 28 and 36. *)
Definition plain_pad : Z -> Z :=
  register_file
    [ (0, 32); (1, 17); (6, 32); (7, 232); (8, 3); (9, 88); (10, 2);
      (106, 255); (107, 7); (108, 255); (109, 3) ].

Definition no_failure : Z -> option Z := fun _ => None.

Definition always (_ : Z) : bool := true.

(** ** What a call of [rmi_f11_initialize] amounts to *)

Lemma rmi_f11_initialize_outcome h bus IOMalloc qba cba o rc o' :
  call (rmi_f11_initialize h bus IOMalloc qba cba) o = (rc, o') ->
  exists l, bus_log o' = bus_log o ++ l /\
    (aborted rc l \/
     (clean l /\ (init_refused rc o' \/ (rc = 0 /\ init_done o')))).
Proof.
  intros Hcall.
  pose proof (rmi_f11_initialize_spec h bus IOMalloc qba cba o) as H.
  unfold wp in H. unfold call in Hcall.
  destruct (rmi_f11_initialize h bus IOMalloc qba cba o) as [[v|v] o1];
    simpl in H; inversion Hcall; subst; destruct H as (l & Hl & H);
    exists l; (split; [exact Hl|]).
  - destruct H as [H | [Hc H]]; auto.
  - destruct H as [Hc H]. auto.
Qed.

Lemma init_refused_nonzero v o' : init_refused v o' -> v < 0.
Proof. unfold init_refused, ENODEV, ENOMEM. intros [[-> _] | [-> _]]; lia. Qed.

Lemma gesture_bytes_nonneg q : 0 <= gesture_bytes q.
Proof.
  unfold gesture_bytes.
  destruct (query7_nonzero q), (query8_nonzero q), (has_pinch q), (has_flick q),
    (has_rotate q); simpl; lia.
Qed.

Lemma ceil_div_nonneg n d : 0 <= n -> 0 < d -> 0 <= ceil_div n d.
Proof.
  intros Hn Hd. unfold ceil_div.
  pose proof (Z.div_pos n d Hn Hd). destruct (n mod d =? 0); lia.
Qed.

(** Without the advanced coordinate mode the attention size is within the
    packet size; with it, it is 2 bytes per finger more than the running
    total it was set to. *)
Lemma spec_attn_le_pkt q before :
  has_abs q = true -> 0 <= nr_fingers q ->
  (has_touch_shapes q = true -> 0 <= nr_touch_shapes q) ->
  spec_attn_size q false before <= spec_pkt_size q /\
  forall acm, spec_attn_size q acm before
              <= spec_pkt_size q + 2 * resolved_finger_count (nr_fingers q).
Proof.
  intros Ha Hn Hs. unfold spec_attn_size, spec_pkt_size. rewrite Ha.
  pose proof (gesture_bytes_nonneg q) as Hg.
  pose proof (resolved_finger_count_pos _ Hn) as Hc.
  assert (Ht : 0 <= (if has_touch_shapes q
                     then ceil_div (nr_touch_shapes q + 1) 8 else 0)).
  { destruct (has_touch_shapes q); [|lia].
    apply ceil_div_nonneg; [specialize (Hs eq_refl)|]; lia. }
  split; [destruct (has_rel q); lia|].
  intros acm. destruct acm, (has_rel q); lia.
Qed.

(** ** The layout computed at initialisation *)

(** C5.  The packet layout calculator follows the rules of the
    specification.  For every capability record with a finger code that is
    not negative (and a touch-shape count that is not negative when touch
    shapes are present), [f11_2d_construct_data] leaves: the resolved finger
    count [code == 5 ? 10 : code + 1]; a packet size of [ceil(count/4)]
    bitmap bytes, plus [5 * count] if absolute data is supported, plus
    [2 * count] if relative data is, plus the gesture bytes, plus
    [ceil((shapes + 1) / 8)] if touch shapes are present; and an attention
    size equal to the running total after the absolute bytes.  When
    [rmi_f11_initialize] succeeds, the layout it leaves is this one for the
    record it decoded, with [2 * count] added to the attention size only
    when the advanced coordinate mode was found. *)
Theorem packet_layout_rules h bus IOMalloc qba cba :
  (forall o r o',
     0 <= nr_fingers (sens_query o) ->
     (has_touch_shapes (sens_query o) = true -> 0 <= nr_touch_shapes (sens_query o)) ->
     call (f11_2d_construct_data IOMalloc) o = (r, o') ->
     let q := sens_query o in
     let count := resolved_finger_count (nr_fingers q) in
     nbr_fingers (sensor o') = count /\
     pkt_size (sensor o') = spec_pkt_size q /\
     attn_size (sensor o') =
       (if has_abs q then ceil_div count 4 + count * 5 else attn_size (sensor o))) /\
  (forall o o',
     call (rmi_f11_initialize h bus IOMalloc qba cba) o = (0, o') ->
     let q := sens_query o' in
     let count := resolved_finger_count (nr_fingers q) in
     nbr_fingers (sensor o') = count /\
     pkt_size (sensor o') = spec_pkt_size q /\
     attn_size (sensor o') =
       ceil_div count 4 + count * 5 + (if has_acm o' then count * 2 else 0)).
Proof.
  split.
  - intros o r o' Hn Hs Hcall q count.
    pose proof (construct_data_layout IOMalloc o Hn Hs) as H.
    unfold wp in H. unfold call in Hcall.
    destruct (f11_2d_construct_data IOMalloc o) as [[v|v] o1];
      simpl in H; inversion Hcall; subst;
      destruct H as (_ & _ & _ & Hnbr & Hpkt & Hattn & _);
      (split; [exact Hnbr|]; split; [exact Hpkt|]);
      rewrite Hattn; unfold spec_attn_size; subst q count;
      destruct (has_abs (sens_query o)); lia.
  - intros o o' Hcall q count.
    destruct (rmi_f11_initialize_outcome _ _ _ _ _ _ _ _ Hcall)
      as (l & _ & [Hab | [_ [Hre | [_ Hd]]]]).
    + apply aborted_neg in Hab. lia.
    + apply init_refused_nonzero in Hre. lia.
    + destruct Hd as (_ & Ha & _ & _ & Hnbr & Hpkt & Hattn & _).
      split; [exact Hnbr|]. split; [exact Hpkt|].
      rewrite Hattn. subst q count. unfold spec_attn_size. rewrite Ha. reflexivity.
Qed.

(** The rules at work on the pad with the advanced coordinate mode. *)
Lemma packet_layout_rules_witness :
  let o' := snd (call (rmi_f11_initialize rmi_f11_h
                         (register_bus acm_pad no_failure) always 0 100)
                   F11_zero) in
  nbr_fingers (sensor o') = resolved_finger_count (nr_fingers (sens_query o')) /\
  pkt_size (sensor o') = spec_pkt_size (sens_query o') /\
  attn_size (sensor o') =
    ceil_div (resolved_finger_count (nr_fingers (sens_query o'))) 4
    + resolved_finger_count (nr_fingers (sens_query o')) * 5
    + (if has_acm o' then resolved_finger_count (nr_fingers (sens_query o')) * 2
       else 0).
Proof.
  refine (proj2 (packet_layout_rules rmi_f11_h
                   (register_bus acm_pad no_failure) always 0 100)
            F11_zero _ _).
  vm_compute. reflexivity.
Defined.

(** C1, as stated, fails: on the pad that announces the advanced
    coordinate mode the initialisation succeeds with absolute support and
    finger code 1, and leaves an attention size of 15 for a packet size of
    11. *)
Lemma attention_exceeds_packet_with_acm :
  let r := call (rmi_f11_initialize rmi_f11_h (register_bus acm_pad no_failure)
                   always 0 100) F11_zero in
  fst r = 0 /\
  has_abs (sens_query (snd r)) = true /\
  nr_fingers (sens_query (snd r)) <= 5 /\
  has_acm (snd r) = true /\
  ~ attn_size (sensor (snd r)) <= pkt_size (sensor (snd r)).
Proof.
  cbv zeta. split; [vm_compute; reflexivity|]. split; [vm_compute; reflexivity|].
  split; [vm_compute; discriminate|]. split; [vm_compute; reflexivity|].
  intros H. vm_compute in H. apply H. reflexivity.
Qed.

(** C1, amended.  When [rmi_f11_initialize] succeeds, the packet size and
    the attention size it leaves are the functions [spec_pkt_size] and
    [spec_attn_size] of the decoded record and of the advanced-coordinate
    bit; the attention size is within the packet size when the advanced
    coordinate mode was not found, and in any case within the packet size
    plus 2 bytes per finger. *)
Theorem attention_size_bound h bus IOMalloc qba cba o o' :
  call (rmi_f11_initialize h bus IOMalloc qba cba) o = (0, o') ->
  let q := sens_query o' in
  let s := sensor o' in
  pkt_size s = spec_pkt_size q /\
  attn_size s = spec_attn_size q (has_acm o') 0 /\
  (has_acm o' = false -> attn_size s <= pkt_size s) /\
  attn_size s <= pkt_size s + 2 * nbr_fingers s.
Proof.
  intros Hcall q s.
  destruct (rmi_f11_initialize_outcome _ _ _ _ _ _ _ _ Hcall)
    as (l & _ & [Hab | [_ [Hre | [_ Hd]]]]).
  - apply aborted_neg in Hab. lia.
  - apply init_refused_nonzero in Hre. lia.
  - destruct Hd as (_ & Ha & Hn & Hs & Hnbr & Hpkt & Hattn & _).
    subst q s.
    destruct (spec_attn_le_pkt _ 0 Ha Hn Hs) as [H1 H2].
    split; [exact Hpkt|]. split; [exact Hattn|].
    rewrite Hattn, Hpkt, Hnbr. split.
    + intros ->. exact H1.
    + apply H2.
Qed.

Lemma attention_size_bound_witness :
  let o' := snd (call (rmi_f11_initialize rmi_f11_h
                         (register_bus plain_pad no_failure) always 0 100)
                   F11_zero) in
  attn_size (sensor o') <= pkt_size (sensor o').
Proof.
  refine (proj1 (proj2 (proj2
            (attention_size_bound rmi_f11_h (register_bus plain_pad no_failure)
               always 0 100 F11_zero _ _))) _).
  - vm_compute. reflexivity.
  - vm_compute. reflexivity.
Defined.


(** ** Bytes put side by side *)

Lemma land_low_shifted lo hi k :
  0 <= k -> 0 <= lo < 2 ^ k -> Z.land lo (hi * 2 ^ k) = 0.
Proof.
  intros Hk Hlo. apply Z.bits_inj'. intros n Hn.
  rewrite Z.land_spec, Z.bits_0.
  destruct (Z.lt_ge_cases n k) as [Hlt|Hge].
  - rewrite Z.mul_pow2_bits_low by lia. apply andb_false_r.
  - assert (Hb : Z.testbit lo n = false).
    { destruct (Z.eq_dec lo 0) as [->|Hne]; [apply Z.bits_0|].
      apply Z.bits_above_log2; [lia|].
      apply Z.lt_le_trans with k; [|exact Hge].
      apply Z.log2_lt_pow2; lia. }
    rewrite Hb. reflexivity.
Qed.

(** Two fields that do not overlap: the bitwise or is a sum. *)
Lemma lor_shiftl_add lo hi k :
  0 <= k -> 0 <= lo < 2 ^ k -> Z.lor lo (Z.shiftl hi k) = lo + hi * 2 ^ k.
Proof.
  intros Hk Hlo. rewrite Z.shiftl_mul_pow2 by exact Hk.
  pose proof (land_low_shifted lo hi k Hk Hlo) as Hland.
  rewrite <- Z.lxor_lor by exact Hland.
  symmetry. apply Z.add_nocarry_lxor. exact Hland.
Qed.

(** ** The physical-properties block *)

(** C6, as stated, fails: with physical properties present the block
    moves the cursor from 6 to 18, and on the same pad the decoder
    returns 18 registers (4 + 1 + 1 + 12) where an advance of 16 would
    give 22. *)
Lemma physical_props_advance_is_12 :
  let bus := register_bus plain_pad no_failure in
  let o := with_sens_query (set_query12 false true (sens_query F11_zero)) F11_zero in
  has_physical_props (sens_query o) = true /\
  fst (query_block_physical_props bus 1 6 o) = inr 18 /\
  18 - 6 <> 16 /\
  fst (call (rmi_f11_get_query_parameters rmi_f11_h bus 1)
         (with_query_flags false false true false false F11_zero)) = 18.
Proof.
  cbv zeta. split; [reflexivity|]. split; [vm_compute; reflexivity|].
  split; [lia|]. vm_compute. reflexivity.
Qed.

(** C6, amended.  When the record says physical properties are present and
    the read succeeds, the block reads 4 bytes at the cursor, stores the two
    little-endian 16-bit sizes (X then Y, in tenths of a millimetre) divided
    by 10, and moves the cursor by 12 registers in all: the 4 bytes read and
    8 more. *)
Theorem physical_props_block bus qba size o rc bs :
  has_physical_props (sens_query o) = true ->
  bus_readBlock bus (bus_log o) (qba + size) 4 = (rc, bs) ->
  0 <= rc ->
  exists o',
    query_block_physical_props bus qba size o = (inr (size + 12), o') /\
    x_sensor_size_mm (sens_query o') = (byte_at bs 0 + 256 * byte_at bs 1) / 10 /\
    y_sensor_size_mm (sens_query o') = (byte_at bs 2 + 256 * byte_at bs 3) / 10 /\
    bus_log o' = bus_log o ++ [{| ev_op := op_readBlock (qba + size) 4; ev_rc := rc |}].
Proof.
  intros Hp Hbus Hrc.
  unfold query_block_physical_props, bind, member, readBlock.
  rewrite Hp, Hbus.
  assert (Hlt : (rc <? 0) = false) by (apply Z.ltb_ge; exact Hrc).
  rewrite Hlt. cbn [upd_query assign bind ret].
  eexists. split; [reflexivity|].
  cbn [sens_query with_sens_query record_event with_bus_log bus_log
       x_sensor_size_mm y_sensor_size_mm set_sensor_size_mm].
  pose proof (byte_at_range bs 0). pose proof (byte_at_range bs 1).
  pose proof (byte_at_range bs 2). pose proof (byte_at_range bs 3).
  rewrite !lor_shiftl_add by lia.
  rewrite !Z.quot_div_nonneg by lia.
  repeat split; f_equal; lia.
Qed.

Lemma physical_props_block_witness :
  exists o',
    query_block_physical_props (register_bus plain_pad no_failure) 1 6
      (with_sens_query (set_query12 false true (sens_query F11_zero)) F11_zero)
    = (inr 18, o') /\
    x_sensor_size_mm (sens_query o') = 100 /\
    y_sensor_size_mm (sens_query o') = 60.
Proof.
  destruct (physical_props_block (register_bus plain_pad no_failure) 1 6
              (with_sens_query (set_query12 false true (sens_query F11_zero)) F11_zero)
              0 [232; 3; 88; 2] eq_refl eq_refl ltac:(lia))
    as (o' & Hrun & Hx & Hy & _).
  exists o'. split; [exact Hrun|]. split; [exact Hx | exact Hy].
Defined.

(** ** Failures of the negotiation *)

Lemma attach_result h bus IOMalloc qba cba o rc o' :
  call (rmi_f11_initialize h bus IOMalloc qba cba) o = (rc, o') ->
  attach h (Some bus) IOMalloc qba cba o = (negb (negb (rc =? 0)), o').
Proof.
  intros Hcall. unfold attach. rewrite Hcall.
  destruct (rc =? 0); reflexivity.
Qed.

(** C8.  Whatever the bus answers, [rmi_f11_initialize] returns the code of
    a failed read right after it: if any read it made failed, that read is
    its last bus call, its negative code is the value returned, and
    [attach] refuses the device.  When no read failed and the decoded
    record lacks physical-size data or absolute support, the value returned
    is [-ENODEV] and [attach] refuses the device as well. *)
Theorem negotiation_failure_policy h bus IOMalloc qba cba o rc o' :
  call (rmi_f11_initialize h bus IOMalloc qba cba) o = (rc, o') ->
  exists l, bus_log o' = bus_log o ++ l /\
    (forall ev, In ev l -> failed_read ev ->
       rc = ev_rc ev /\ rc < 0 /\ last l = Some ev /\
       attach h (Some bus) IOMalloc qba cba o = (false, o')) /\
    (clean l ->
     has_physical_props (sens_query o') = false \/ has_abs (sens_query o') = false ->
       rc = - ENODEV /\ attach h (Some bus) IOMalloc qba cba o = (false, o')).
Proof.
  intros Hcall. pose proof (attach_result _ _ _ _ _ _ _ _ Hcall) as Hatt.
  destruct (rmi_f11_initialize_outcome _ _ _ _ _ _ _ _ Hcall)
    as (l & Hl & Hout).
  exists l. split; [exact Hl|]. split.
  - intros ev Hin Hev. destruct Hout as [Hab | [Hc _]].
    + destruct (aborted_failed_read _ _ _ Hab Hin Hev) as [Hrc Hlast].
      pose proof (aborted_neg _ _ Hab) as Hneg.
      repeat split; auto.
      rewrite Hatt. replace (rc =? 0) with false by (symmetry; apply Z.eqb_neq; lia).
      reflexivity.
    + exfalso. unfold clean in Hc. rewrite Forall_forall in Hc.
      apply (Hc ev); [apply list_elem_of_In; exact Hin | exact Hev].
  - intros Hc Hlack. destruct Hout as [Hab | [_ [Hre | [_ Hd]]]].
    + exfalso. exact (aborted_not_clean _ _ Hab Hc).
    + destruct Hre as [[-> _] | (_ & Hp & Ha & _)].
      * split; [reflexivity|]. rewrite Hatt. reflexivity.
      * destruct Hlack; congruence.
    + destruct Hd as (Hp & Ha & _). destruct Hlack; congruence.
Qed.

(** The pad whose query 12 register (address 6) cannot be read. *)
Definition query12_unreadable : Z -> option Z :=
  fun addr => if addr =? 6 then Some (-5) else None.

Lemma negotiation_failure_policy_witness :
  let bus := register_bus plain_pad query12_unreadable in
  fst (call (rmi_f11_initialize rmi_f11_h bus always 0 100) F11_zero) = -5 /\
  fst (attach rmi_f11_h (Some bus) always 0 100 F11_zero) = false.
Proof.
  intros bus.
  set (r := call (rmi_f11_initialize rmi_f11_h bus always 0 100) F11_zero).
  assert (Hcall : call (rmi_f11_initialize rmi_f11_h bus always 0 100) F11_zero
                  = (fst r, snd r)) by (vm_compute; reflexivity).
  destruct (negotiation_failure_policy _ _ _ _ _ _ _ _ Hcall)
    as (l & Hl & Hfail & _).
  assert (El : l = bus_log (snd r)) by (rewrite Hl; reflexivity).
  destruct (Hfail {| ev_op := op_read 6; ev_rc := -5 |}) as (Hrc & _ & _ & Hatt).
  - rewrite El. vm_compute. auto.
  - split; [reflexivity | reflexivity].
  - split; [exact Hrc | rewrite Hatt; reflexivity].
Defined.

(** ** The report assembler: [F11::getReport] *)

(** Modelled from the spec: the object types of RMI_2D_Sensor.hpp, which is
    not among the sources; a contact is tagged none, finger or stylus, and
    none is the value of a cleared report. *)
Inductive rmi_2d_sensor_object_type : Type :=
  | RMI_2D_OBJECT_NONE
  | RMI_2D_OBJECT_FINGER
  | RMI_2D_OBJECT_STYLUS.

Module abs_object.
(** [rmi_2d_sensor_abs_object] *)
Record t : Type := {
  type : rmi_2d_sensor_object_type;
  x : Z;
  y : Z;
  z : Z;
  wx : Z;
  wy : Z
}.
(** An object of a report cleared by [memset]. *)
Definition zero : t :=
  {| type := RMI_2D_OBJECT_NONE; x := 0; y := 0; z := 0; wx := 0; wy := 0 |}.
End abs_object.

(** [RMI2DSensorReport] *)
Record RMI2DSensorReport : Type := {
  timestamp : Z;
  objs : list abs_object.t;
  fingers : Z
}.

(** Modelled from the spec: the finger states of F11.hpp, a 2-bit field
    whose values are not present, present with accuracy, present without
    accuracy and reserved. *)
Definition F11_NO_FINGER : Z := 0.
Definition F11_PRESENT : Z := 1.
Definition F11_INACCURATE : Z := 2.
Definition F11_RESERVED : Z := 3.

(** [data_pkt[k]]; the packet holds bytes. *)
Definition pkt_byte (data_pkt : list Z) (k : Z) : Z :=
  if k <? 0 then 0 else u8 (nth (Z.to_nat k) data_pkt 0).

(** Modelled from the spec: [rmi_f11_parse_finger_state] is defined in
    F11.hpp, which is not among the sources; the states are packed four to a
    byte from the start of the packet, slot [i] in byte [i / 4] at bit
    offset [(i % 4) * 2]. *)
Definition rmi_f11_parse_finger_state (data_pkt : list Z) (n_finger : Z) : Z :=
  Z.land (Z.shiftr (pkt_byte data_pkt (n_finger ÷ 4)) (2 * (Z.rem n_finger 4))) 3.

(** The number of slots [getReport] goes through. *)
Definition report_fingers (nbr_fingers pkt_size : Z) : Z :=
  let abs_size := Z.land nbr_fingers RMI_F11_ABS_BYTES in
  if abs_size >? pkt_size then pkt_size ÷ RMI_F11_ABS_BYTES else nbr_fingers.

(** The five assignments that decode [pos_data]. *)
Definition decode_abs (pos_data : Z -> Z) (ty : rmi_2d_sensor_object_type)
    : abs_object.t := {|
  abs_object.type := ty;
  abs_object.x := Z.lor (Z.shiftl (pos_data 0) 4) (Z.land (pos_data 2) 15);
  abs_object.y := Z.lor (Z.shiftl (pos_data 1) 4) (Z.shiftr (pos_data 2) 4);
  abs_object.z := pos_data 4;
  abs_object.wx := Z.land (pos_data 3) 15;
  abs_object.wy := Z.shiftr (pos_data 3) 4
|}.

(** One turn of the loop of [getReport]; [abs_pos] is the offset of
    [data_2d.abs_pos] in the packet. *)
Definition getReport_slot (data_pkt : list Z) (abs_pos : Z) (i : nat)
    (report : RMI2DSensorReport) : RMI2DSensorReport :=
  let finger_state := rmi_f11_parse_finger_state data_pkt (Z.of_nat i) in
  let pos_data := fun k => pkt_byte data_pkt (abs_pos + Z.of_nat i * RMI_F11_ABS_BYTES + k) in
  if finger_state =? F11_RESERVED then report
  else
    {| timestamp := timestamp report;
       objs := <[i := decode_abs pos_data
                        (if finger_state =? F11_PRESENT
                         then RMI_2D_OBJECT_FINGER else RMI_2D_OBJECT_NONE)]>
                 (objs report);
       fingers := fingers report |}.

(** The report [getReport] hands to the sensor when the packet was read and
    is not discarded: [report] is the member as the last delivery left it,
    [now] the uptime. *)
Definition getReport_assemble (s : RMI2DSensor_layout) (abs_pos : Z)
    (data_pkt : list Z) (now : Z) (report : RMI2DSensorReport) : RMI2DSensorReport :=
  let n := report_fingers (nbr_fingers s) (pkt_size s) in
  let report := foldl (fun r i => getReport_slot data_pkt abs_pos i r) report
                  (seq 0 (Z.to_nat n)) in
  {| timestamp := now; objs := objs report; fingers := n |}.

(** The report member after [memset(report, 0, sizeof(RMI2DSensorReport))];
    [objs] has 10 entries. *)
Definition report_zero : RMI2DSensorReport :=
  {| timestamp := 0; objs := replicate 10 abs_object.zero; fingers := 0 |}.

(** The device side of the 5-byte record: the bytes a contact is sent as. *)
Definition encode_abs (x y z wx wy : Z) (k : Z) : Z :=
  if k =? 0 then Z.shiftr x 4
  else if k =? 1 then Z.shiftr y 4
  else if k =? 2 then Z.lor (Z.land x 15) (Z.shiftl (Z.land y 15) 4)
  else if k =? 3 then Z.lor wx (Z.shiftl wy 4)
  else z.

(** ** The 5-byte absolute record *)

Lemma land_15 a : Z.land a 15 = a mod 16.
Proof. change 15 with (Z.ones 4). rewrite Z.land_ones by lia. reflexivity. Qed.

Lemma shiftr_4 a : Z.shiftr a 4 = a / 16.
Proof. rewrite Z.shiftr_div_pow2 by lia. reflexivity. Qed.

Lemma nibbles_join lo hi :
  0 <= lo < 16 -> Z.lor (Z.shiftl hi 4) lo = hi * 16 + lo.
Proof.
  intros Hlo. rewrite Z.lor_comm, lor_shiftl_add by (change (2 ^ 4) with 16; lia).
  change (2 ^ 4) with 16. lia.
Qed.

(** What the five assignments compute, in arithmetic. *)
Lemma decode_abs_fields pos ty :
  (forall k, 0 <= pos k < 256) ->
  let o := decode_abs pos ty in
  abs_object.x o = pos 0 * 16 + pos 2 mod 16 /\
  abs_object.y o = pos 1 * 16 + pos 2 / 16 /\
  abs_object.z o = pos 4 /\
  abs_object.wx o = pos 3 mod 16 /\
  abs_object.wy o = pos 3 / 16.
Proof.
  intros Hb o. subst o. unfold decode_abs. cbn [abs_object.x abs_object.y
    abs_object.z abs_object.wx abs_object.wy].
  rewrite !land_15, !shiftr_4.
  pose proof (Hb 2) as H2.
  rewrite !nibbles_join; [repeat split | |].
  - split; [apply Z.div_pos; lia | apply Z.div_lt_upper_bound; lia].
  - apply Z.mod_pos_bound. lia.
Qed.

(** C7.  The decoder computes X = (byte0 << 4) | (byte2 & 0xF),
    Y = (byte1 << 4) | (byte2 >> 4), Z = byte4, width-X = byte3 & 0xF and
    width-Y = byte3 >> 4; and for X, Y in [0, 4095], Z in [0, 255] and both
    widths in [0, 15], the 5-byte layout of these values is made of bytes
    and decodes to exactly these values. *)
Theorem abs_record_round_trip x y z wx wy ty :
  0 <= x <= 4095 -> 0 <= y <= 4095 -> 0 <= z <= 255 ->
  0 <= wx <= 15 -> 0 <= wy <= 15 ->
  (forall pos,
     decode_abs pos ty =
       {| abs_object.type := ty;
          abs_object.x := Z.lor (Z.shiftl (pos 0) 4) (Z.land (pos 2) 15);
          abs_object.y := Z.lor (Z.shiftl (pos 1) 4) (Z.shiftr (pos 2) 4);
          abs_object.z := pos 4;
          abs_object.wx := Z.land (pos 3) 15;
          abs_object.wy := Z.shiftr (pos 3) 4 |}) /\
  (forall k, 0 <= encode_abs x y z wx wy k < 256) /\
  decode_abs (encode_abs x y z wx wy) ty =
    {| abs_object.type := ty; abs_object.x := x; abs_object.y := y;
       abs_object.z := z; abs_object.wx := wx; abs_object.wy := wy |}.
Proof.
  intros Hx Hy Hz Hwx Hwy.
  assert (Hbytes : forall k, 0 <= encode_abs x y z wx wy k < 256).
  { intros k. unfold encode_abs.
    destruct (k =? 0); [rewrite shiftr_4; split;
      [apply Z.div_pos; lia | apply Z.div_lt_upper_bound; lia]|].
    destruct (k =? 1); [rewrite shiftr_4; split;
      [apply Z.div_pos; lia | apply Z.div_lt_upper_bound; lia]|].
    destruct (k =? 2).
    { rewrite !land_15, Z.lor_comm, nibbles_join by (apply Z.mod_pos_bound; lia).
      pose proof (Z.mod_pos_bound x 16 ltac:(lia)).
      pose proof (Z.mod_pos_bound y 16 ltac:(lia)). lia. }
    destruct (k =? 3); [|lia].
    rewrite Z.lor_comm, nibbles_join by lia. lia. }
  split; [reflexivity|]. split; [exact Hbytes|].
  destruct (decode_abs_fields (encode_abs x y z wx wy) ty Hbytes)
    as (Ex & Ey & Ez & Ewx & Ewy).
  assert (E2 : encode_abs x y z wx wy 2 = y mod 16 * 16 + x mod 16).
  { change (encode_abs x y z wx wy 2)
      with (Z.lor (Z.land x 15) (Z.shiftl (Z.land y 15) 4)).
    rewrite !land_15, Z.lor_comm.
    apply nibbles_join. apply Z.mod_pos_bound. lia. }
  assert (E3 : encode_abs x y z wx wy 3 = wy * 16 + wx).
  { change (encode_abs x y z wx wy 3) with (Z.lor wx (Z.shiftl wy 4)).
    rewrite Z.lor_comm. apply nibbles_join. lia. }
  assert (E0 : encode_abs x y z wx wy 0 = x / 16)
    by (change (encode_abs x y z wx wy 0) with (Z.shiftr x 4); apply shiftr_4).
  assert (E1 : encode_abs x y z wx wy 1 = y / 16)
    by (change (encode_abs x y z wx wy 1) with (Z.shiftr y 4); apply shiftr_4).
  assert (E4 : encode_abs x y z wx wy 4 = z) by reflexivity.
  rewrite E0, E1, E2, E3, E4 in *.
  pose proof (Z.mod_pos_bound x 16 ltac:(lia)) as Mx.
  pose proof (Z.mod_pos_bound y 16 ltac:(lia)) as My.
  assert (Ex' : abs_object.x (decode_abs (encode_abs x y z wx wy) ty) = x).
  { rewrite Ex. replace ((y mod 16 * 16 + x mod 16) mod 16) with (x mod 16).
    - pose proof (Z.div_mod x 16 ltac:(lia)). lia.
    - rewrite Z.add_comm, Z.mod_add by lia. symmetry. apply Z.mod_small. exact Mx. }
  assert (Ey' : abs_object.y (decode_abs (encode_abs x y z wx wy) ty) = y).
  { rewrite Ey. replace ((y mod 16 * 16 + x mod 16) / 16) with (y mod 16).
    - pose proof (Z.div_mod y 16 ltac:(lia)). lia.
    - rewrite Z.add_comm, Z.div_add by lia. rewrite Z.div_small by exact Mx. lia. }
  assert (Ewx' : abs_object.wx (decode_abs (encode_abs x y z wx wy) ty) = wx).
  { rewrite Ewx. rewrite Z.add_comm, Z.mod_add by lia. apply Z.mod_small. lia. }
  assert (Ewy' : abs_object.wy (decode_abs (encode_abs x y z wx wy) ty) = wy).
  { rewrite Ewy. rewrite Z.add_comm, Z.div_add by lia. rewrite Z.div_small by lia. lia. }
  destruct (decode_abs (encode_abs x y z wx wy) ty) as [t' x' y' z' wx' wy'] eqn:Ed.
  cbn in Ex', Ey', Ez, Ewx', Ewy'.
  assert (t' = ty) by (unfold decode_abs in Ed; congruence).
  congruence.
Qed.

Lemma abs_record_round_trip_witness :
  decode_abs (encode_abs 2748 291 77 5 9) RMI_2D_OBJECT_FINGER =
    {| abs_object.type := RMI_2D_OBJECT_FINGER; abs_object.x := 2748;
       abs_object.y := 291; abs_object.z := 77;
       abs_object.wx := 5; abs_object.wy := 9 |}.
Proof.
  apply (abs_record_round_trip 2748 291 77 5 9 RMI_2D_OBJECT_FINGER); lia.
Defined.

(** ** RMI_2D_Sensor.cpp *)

(** The finger types of VoodooInput ([MT2FingerType]), an enumeration
    used as an index of [freeFingerTypes]; the members are kept as their
    values. *)
Notation MT2FingerType := nat (only parsing).
Definition kMT2FingerTypeUndefined : MT2FingerType := 0%nat.
Definition kMT2FingerTypeThumb : MT2FingerType := 1%nat.
Definition kMT2FingerTypeIndexFinger : MT2FingerType := 2%nat.
Definition kMT2FingerTypeMiddleFinger : MT2FingerType := 3%nat.
Definition kMT2FingerTypeRingFinger : MT2FingerType := 4%nat.
Definition kMT2FingerTypeLittleFinger : MT2FingerType := 5%nat.
Definition kMT2FingerTypeCount : MT2FingerType := 6%nat.

(** [TouchCoordinates] of VoodooInput; [x] and [y] are [UInt32]. *)
Module TouchCoordinates.
Record t : Type := { x : Z; y : Z; pressure : Z; width : Z }.
Definition zero : t := {| x := 0; y := 0; pressure := 0; width := 0 |}.
End TouchCoordinates.

(** [VoodooInputTransducer]: the members [handleReport] writes. *)
Module Transducer.
Record t : Type := {
  isValid : bool;
  fingerType : MT2FingerType;
  currentCoordinates : TouchCoordinates.t;
  previousCoordinates : TouchCoordinates.t;
  timestamp : Z;
  secondaryId : Z;
  isPhysicalButtonDown : bool;
  supportsPressure : bool;
  isTransducerActive : bool
}.
Definition zero : t := {|
  isValid := false; fingerType := kMT2FingerTypeUndefined;
  currentCoordinates := TouchCoordinates.zero;
  previousCoordinates := TouchCoordinates.zero;
  timestamp := 0; secondaryId := 0; isPhysicalButtonDown := false;
  supportsPressure := false; isTransducerActive := false |}.
Definition set_fingerType (v : MT2FingerType) (tr : t) : t := {|
  isValid := isValid tr; fingerType := v;
  currentCoordinates := currentCoordinates tr;
  previousCoordinates := previousCoordinates tr;
  timestamp := timestamp tr; secondaryId := secondaryId tr;
  isPhysicalButtonDown := isPhysicalButtonDown tr;
  supportsPressure := supportsPressure tr;
  isTransducerActive := isTransducerActive tr |}.
End Transducer.

(** [VoodooInputEvent] *)
Module InputEvent.
Record t : Type := {
  contact_count : Z;
  timestamp : Z;
  transducers : list Transducer.t
}.
End InputEvent.

Module Sensor.

(** [RMI2DSensor]: the members [handleReport] and [shouldDiscardReport]
    use. *)
Record t : Type := {
  max_y : Z;
  forceTouchMinPressure : Z;
  forceTouchEmulation : bool;
  disableWhileTypingTimeout : Z;
  clickpadState : bool;
  touchpadEnable : bool;
  lastKeyboardTS : Z;
  pressureLock : bool;
  freeFingerTypes : list bool;
  inputEvent : InputEvent.t
}.

(** [inputEvent.transducers] *)
Definition transducers (s : t) : list Transducer.t :=
  InputEvent.transducers (inputEvent s).

Definition set_pressureLock (v : bool) (s : t) : t := {|
  max_y := max_y s; forceTouchMinPressure := forceTouchMinPressure s;
  forceTouchEmulation := forceTouchEmulation s;
  disableWhileTypingTimeout := disableWhileTypingTimeout s;
  clickpadState := clickpadState s; touchpadEnable := touchpadEnable s;
  lastKeyboardTS := lastKeyboardTS s;
  pressureLock := v; freeFingerTypes := freeFingerTypes s;
  inputEvent := inputEvent s |}.

Definition set_freeFingerTypes (v : list bool) (s : t) : t := {|
  max_y := max_y s; forceTouchMinPressure := forceTouchMinPressure s;
  forceTouchEmulation := forceTouchEmulation s;
  disableWhileTypingTimeout := disableWhileTypingTimeout s;
  clickpadState := clickpadState s; touchpadEnable := touchpadEnable s;
  lastKeyboardTS := lastKeyboardTS s;
  pressureLock := pressureLock s; freeFingerTypes := v;
  inputEvent := inputEvent s |}.

Definition set_inputEvent (v : InputEvent.t) (s : t) : t := {|
  max_y := max_y s; forceTouchMinPressure := forceTouchMinPressure s;
  forceTouchEmulation := forceTouchEmulation s;
  disableWhileTypingTimeout := disableWhileTypingTimeout s;
  clickpadState := clickpadState s; touchpadEnable := touchpadEnable s;
  lastKeyboardTS := lastKeyboardTS s;
  pressureLock := pressureLock s; freeFingerTypes := freeFingerTypes s;
  inputEvent := v |}.

Definition set_transducers (v : list Transducer.t) (s : t) : t :=
  set_inputEvent
    {| InputEvent.contact_count := InputEvent.contact_count (inputEvent s);
       InputEvent.timestamp := InputEvent.timestamp (inputEvent s);
       InputEvent.transducers := v |} s.

(** [inputEvent.contact_count = count; inputEvent.timestamp = ts] *)
Definition set_event (count ts : Z) (s : t) : t :=
  set_inputEvent
    {| InputEvent.contact_count := count;
       InputEvent.timestamp := ts;
       InputEvent.transducers := transducers s |} s.

(** [shouldDiscardReport]; the difference of the two 64-bit times wraps. *)
Definition shouldDiscardReport (s : t) (timestamp : Z) : bool :=
  negb (touchpadEnable s)
  || ((timestamp - lastKeyboardTS s) mod 2 ^ 64 <? disableWhileTypingTimeout s).

(** [obj.type == RMI_2D_OBJECT_FINGER || obj.type == RMI_2D_OBJECT_STYLUS] *)
Definition is_finger_or_stylus (obj : abs_object.t) : bool :=
  match abs_object.type obj with
  | RMI_2D_OBJECT_FINGER | RMI_2D_OBJECT_STYLUS => true
  | RMI_2D_OBJECT_NONE => false
  end.

(** [obj.z / 1.5] stored in an integer: the quotient is exact or has a
    fractional part of a third or two, so its truncation is that of
    [2 * z / 3]. *)
Definition width_of (z : Z) : Z := (2 * z) ÷ 3.

(** The body of the first loop of [handleReport] for the object [obj] of
    slot [i] and its transducer [tr]; [lock] is [pressureLock] and
    [count] is [realFingerCount], both as the turn finds and leaves them. *)
Definition first_loop_transducer (s : t) (report_timestamp : Z) (i : nat)
    (obj : abs_object.t) (tr : Transducer.t) (lock : bool) (count : Z)
    : Transducer.t * bool * Z :=
  let isValid := is_finger_or_stylus obj in
  if isValid then
    let count := count + 1 in
    let valid := (abs_object.z obj <? 120)
                 && (Z.abs (abs_object.wx obj - abs_object.wy obj) <? 3) in
    let previous := Transducer.currentCoordinates tr in
    let current :=
      {| TouchCoordinates.x := TouchCoordinates.x previous;
         TouchCoordinates.y := TouchCoordinates.y previous;
         TouchCoordinates.pressure := TouchCoordinates.pressure previous;
         TouchCoordinates.width := width_of (abs_object.z obj) |} in
    let lock := if negb (count =? 1) then false else lock in
    let current :=
      if negb lock then
        {| TouchCoordinates.x := abs_object.x obj;
           TouchCoordinates.y := u32 (max_y s - abs_object.y obj);
           TouchCoordinates.pressure := TouchCoordinates.pressure current;
           TouchCoordinates.width := TouchCoordinates.width current |}
      else previous in
    let lock :=
      if clickpadState s && forceTouchEmulation s
         && (abs_object.z obj >? forceTouchMinPressure s)
      then true else lock in
    let current :=
      {| TouchCoordinates.x := TouchCoordinates.x current;
         TouchCoordinates.y := TouchCoordinates.y current;
         TouchCoordinates.pressure := if lock then 255 else 0;
         TouchCoordinates.width := TouchCoordinates.width current |} in
    ({| Transducer.isValid := valid;
        Transducer.fingerType := Transducer.fingerType tr;
        Transducer.currentCoordinates := current;
        Transducer.previousCoordinates := previous;
        Transducer.timestamp := report_timestamp;
        Transducer.secondaryId := Z.of_nat i;
        Transducer.isPhysicalButtonDown := clickpadState s && negb lock;
        Transducer.supportsPressure := true;
        Transducer.isTransducerActive := true |}, lock, count)
  else
    ({| Transducer.isValid := false;
        Transducer.fingerType := Transducer.fingerType tr;
        Transducer.currentCoordinates := Transducer.currentCoordinates tr;
        Transducer.previousCoordinates := Transducer.previousCoordinates tr;
        Transducer.timestamp := Transducer.timestamp tr;
        Transducer.secondaryId := Z.of_nat i;
        Transducer.isPhysicalButtonDown := Transducer.isPhysicalButtonDown tr;
        Transducer.supportsPressure := true;
        Transducer.isTransducerActive := true |}, lock, count).

(** One turn of the first loop on the sensor; the pair carries
    [realFingerCount].  A slot outside [objs] or [transducers] is outside
    the arrays of the source and is left alone. *)
Definition first_loop_body (report : RMI2DSensorReport) (st : t * Z) (i : nat)
    : t * Z :=
  let (s, count) := st in
  match objs report !! i, transducers s !! i with
  | Some obj, Some tr =>
      let '(tr', lock, count') :=
        first_loop_transducer s (timestamp report) i obj tr
          (pressureLock s) count in
      (set_pressureLock lock (set_transducers (<[i := tr']> (transducers s)) s),
       count')
  | _, _ => st
  end.

Definition first_loop (report : RMI2DSensorReport) (s : t) : t * Z :=
  foldl (first_loop_body report) (s, 0) (seq 0 (Z.to_nat (fingers report))).

(** The search of [setThumbFingerType]: [minY] and [lowestFingerIndex]
    ([None] is -1) after the slots below [n]. *)
Definition thumb_search_body (trs : list Transducer.t) (acc : Z * option nat)
    (i : nat) : Z * option nat :=
  let (minY, lowestFingerIndex) := acc in
  match trs !! i with
  | Some trans =>
      if Transducer.isValid trans
         && (TouchCoordinates.y (Transducer.currentCoordinates trans) >? minY)
      then (TouchCoordinates.y (Transducer.currentCoordinates trans), Some i)
      else acc
  | None => acc
  end.

Definition thumb_search (trs : list Transducer.t) (n : nat) : Z * option nat :=
  foldl (thumb_search_body trs) (0, None) (seq 0 n).

(** [setThumbFingerType] *)
Definition setThumbFingerType (fingers : Z) (s : t) : t :=
  match snd (thumb_search (transducers s) (Z.to_nat fingers)) with
  | None => s
  | Some lowestFingerIndex =>
      match transducers s !! lowestFingerIndex with
      | None => s
      | Some trans =>
          let free :=
            if negb (Nat.eqb (Transducer.fingerType trans) kMT2FingerTypeUndefined)
            then <[Transducer.fingerType trans := true]> (freeFingerTypes s)
            else freeFingerTypes s in
          let trans := Transducer.set_fingerType kMT2FingerTypeThumb trans in
          set_freeFingerTypes (<[kMT2FingerTypeThumb := false]> free)
            (set_transducers (<[lowestFingerIndex := trans]> (transducers s)) s)
      end
  end.

(** [freeFingerTypes[ty]] *)
Definition is_free (free : list bool) (ty : MT2FingerType) : bool :=
  match free !! ty with
  | Some b => b
  | None => false
  end.

(** The loop of [getFingerType] from type [i], with [n] types left to
    try. *)
Fixpoint getFingerType_from (n : nat) (i : MT2FingerType) (free : list bool)
    : MT2FingerType * list bool :=
  match n with
  | O => (kMT2FingerTypeUndefined, free)
  | S n' =>
      if is_free free i then (i, <[i := false]> free)
      else getFingerType_from n' (S i) free
  end.

(** [getFingerType]: the type returned and [freeFingerTypes] after. *)
Definition getFingerType (free : list bool) : MT2FingerType * list bool :=
  getFingerType_from (kMT2FingerTypeCount - kMT2FingerTypeIndexFinger)
    kMT2FingerTypeIndexFinger free.

(** One turn of the second loop of [handleReport]. *)
Definition second_loop_body (s : t) (i : nat) : t :=
  match transducers s !! i with
  | Some trans =>
      if Transducer.isValid trans then
        if Nat.eqb (Transducer.fingerType trans) kMT2FingerTypeUndefined then
          let (ty, free) := getFingerType (freeFingerTypes s) in
          set_freeFingerTypes free
            (set_transducers
               (<[i := Transducer.set_fingerType ty trans]> (transducers s)) s)
        else s
      else
        let free :=
          if negb (Nat.eqb (Transducer.fingerType trans) kMT2FingerTypeUndefined)
          then <[Transducer.fingerType trans := true]> (freeFingerTypes s)
          else freeFingerTypes s in
        set_freeFingerTypes free
          (set_transducers
             (<[i := Transducer.set_fingerType kMT2FingerTypeUndefined trans]>
                (transducers s)) s)
  | None => s
  end.

Definition second_loop (n : nat) (s : t) : t :=
  foldl second_loop_body s (seq 0 n).

(** [handleReport]: the sensor after the report, whose [inputEvent] is
    what is sent to VoodooInput. *)
Definition handleReport (report : RMI2DSensorReport) (s : t) : t :=
  let n := Z.to_nat (fingers report) in
  let (s, realFingerCount) := first_loop report s in
  let transducer_count := Z.of_nat n in
  let s :=
    if (realFingerCount =? 4) && is_free (freeFingerTypes s) kMT2FingerTypeThumb
    then setThumbFingerType (fingers report) s
    else s in
  let s := second_loop n s in
  let s := set_event transducer_count (timestamp report) s in
  if realFingerCount =? 0 then set_pressureLock false s else s.

(** [start]: every type is free but the undefined one. *)
Definition freeFingerTypes_start : list bool :=
  <[kMT2FingerTypeUndefined := false]> (replicate kMT2FingerTypeCount true).

End Sensor.

(** ** The first loop of [handleReport] *)

(** The first loop after [n] turns. *)
Definition first_loop_upto (report : RMI2DSensorReport) (n : nat) (s : Sensor.t)
    : Sensor.t * Z :=
  foldl (Sensor.first_loop_body report) (s, 0) (seq 0 n).

Lemma first_loop_upto_S report n s :
  first_loop_upto report (S n) s =
  Sensor.first_loop_body report (first_loop_upto report n s) n.
Proof.
  unfold first_loop_upto. rewrite seq_S, foldl_app. reflexivity.
Qed.

Lemma first_loop_is_upto report s :
  Sensor.first_loop report s = first_loop_upto report (Z.to_nat (fingers report)) s.
Proof. reflexivity. Qed.

(** What a turn leaves alone: the settings, the free types, the length of
    [transducers], every other slot, and the finger type of its own slot. *)
Lemma first_loop_body_frame report st i :
  let st' := Sensor.first_loop_body report st i in
  Sensor.max_y (fst st') = Sensor.max_y (fst st) /\
  Sensor.forceTouchMinPressure (fst st') = Sensor.forceTouchMinPressure (fst st) /\
  Sensor.forceTouchEmulation (fst st') = Sensor.forceTouchEmulation (fst st) /\
  Sensor.clickpadState (fst st') = Sensor.clickpadState (fst st) /\
  Sensor.freeFingerTypes (fst st') = Sensor.freeFingerTypes (fst st) /\
  length (Sensor.transducers (fst st')) = length (Sensor.transducers (fst st)) /\
  (forall j, j <> i ->
     Sensor.transducers (fst st') !! j = Sensor.transducers (fst st) !! j) /\
  map Transducer.fingerType (Sensor.transducers (fst st')) =
    map Transducer.fingerType (Sensor.transducers (fst st)).
Proof.
  destruct st as [s count]. unfold Sensor.first_loop_body.
  destruct (objs report !! i) as [obj|] eqn:Eo; [|cbn; repeat split; reflexivity].
  destruct (Sensor.transducers s !! i) as [tr|] eqn:Et; [|cbn; repeat split; reflexivity].
  destruct (Sensor.first_loop_transducer s (timestamp report) i obj tr
              (Sensor.pressureLock s) count) as [[tr' lock] count'] eqn:E.
  cbn. repeat split.
  - apply length_insert.
  - intros j Hj. apply list_lookup_insert_ne. auto.
  - assert (Ht : Transducer.fingerType tr' = Transducer.fingerType tr).
    { unfold Sensor.first_loop_transducer in E.
      destruct (Sensor.is_finger_or_stylus obj); inversion E; reflexivity. }
    apply list_eq. intros j. rewrite !list_lookup_fmap.
    destruct (decide (j = i)) as [->|Hne].
    + rewrite list_lookup_insert_eq by (apply lookup_lt_Some in Et; exact Et).
      rewrite Et. cbn. rewrite Ht. reflexivity.
    + rewrite list_lookup_insert_ne by auto. reflexivity.
Qed.

Lemma first_loop_upto_frame report n s :
  let st' := first_loop_upto report n s in
  Sensor.max_y (fst st') = Sensor.max_y s /\
  Sensor.forceTouchMinPressure (fst st') = Sensor.forceTouchMinPressure s /\
  Sensor.forceTouchEmulation (fst st') = Sensor.forceTouchEmulation s /\
  Sensor.clickpadState (fst st') = Sensor.clickpadState s /\
  Sensor.freeFingerTypes (fst st') = Sensor.freeFingerTypes s /\
  length (Sensor.transducers (fst st')) = length (Sensor.transducers s) /\
  (forall j, (n <= j)%nat ->
     Sensor.transducers (fst st') !! j = Sensor.transducers s !! j) /\
  map Transducer.fingerType (Sensor.transducers (fst st')) =
    map Transducer.fingerType (Sensor.transducers s).
Proof.
  induction n as [|n IH].
  - cbn. repeat split; reflexivity.
  - rewrite first_loop_upto_S.
    pose proof (first_loop_body_frame report (first_loop_upto report n s) n) as H.
    cbv zeta in *.
    destruct IH as (I1 & I2 & I3 & I4 & I5 & I6 & I7 & I8).
    destruct H as (H1 & H2 & H3 & H4 & H5 & H6 & H7 & H8).
    repeat split; try congruence.
    intros j Hj. rewrite H7 by lia. apply I7. lia.
Qed.

(** The number of objects of type finger or stylus among the first [n]. *)
Definition fingers_and_styli (report : RMI2DSensorReport) (n : nat) : Z :=
  Z.of_nat (length (filter (fun obj => Sensor.is_finger_or_stylus obj = true)
                      (take n (objs report)))).

Lemma fingers_and_styli_S report n obj :
  objs report !! n = Some obj ->
  fingers_and_styli report (S n) =
  fingers_and_styli report n + (if Sensor.is_finger_or_stylus obj then 1 else 0).
Proof.
  intros Ho. unfold fingers_and_styli.
  rewrite (take_S_r _ _ _ Ho), filter_app, length_app.
  rewrite filter_cons, filter_nil.
  destruct (Sensor.is_finger_or_stylus obj) eqn:E.
  - rewrite decide_True by reflexivity. cbn. lia.
  - rewrite decide_False by discriminate. cbn. lia.
Qed.

(** [realFingerCount] counts the objects by their decoded type only. *)
Lemma realFingerCount_is_count report n s :
  (n <= length (objs report))%nat -> (n <= length (Sensor.transducers s))%nat ->
  snd (first_loop_upto report n s) = fingers_and_styli report n.
Proof.
  intros Ho Ht. induction n as [|n IH]; [reflexivity|].
  rewrite first_loop_upto_S.
  specialize (IH ltac:(lia) ltac:(lia)).
  destruct (lookup_lt_is_Some_2 (objs report) n ltac:(lia)) as [obj Eo].
  pose proof (first_loop_upto_frame report n s) as (_&_&_&_&_&Hlen&_).
  destruct (lookup_lt_is_Some_2 (Sensor.transducers (fst (first_loop_upto report n s))) n
              ltac:(lia)) as [tr Et].
  rewrite (fingers_and_styli_S _ _ _ Eo), <- IH.
  destruct (first_loop_upto report n s) as [s' count]. cbn in *.
  rewrite Eo, Et. unfold Sensor.first_loop_transducer.
  destruct (Sensor.is_finger_or_stylus obj); cbn; lia.
Qed.




(** A sensor at rest with ten transducers, and reports of ten objects. *)
Definition sensor_start (clickpad emulation lock : bool) : Sensor.t := {|
  Sensor.max_y := 1000; Sensor.forceTouchMinPressure := 80;
  Sensor.forceTouchEmulation := emulation;
  Sensor.disableWhileTypingTimeout := 500000000;
  Sensor.clickpadState := clickpad; Sensor.touchpadEnable := true;
  Sensor.lastKeyboardTS := 0; Sensor.pressureLock := lock;
  Sensor.freeFingerTypes := Sensor.freeFingerTypes_start;
  Sensor.inputEvent :=
    {| InputEvent.contact_count := 0; InputEvent.timestamp := 0;
       InputEvent.transducers := replicate 10 Transducer.zero |}
|}.

Definition finger_at (x y z wx wy : Z) : abs_object.t :=
  {| abs_object.type := RMI_2D_OBJECT_FINGER; abs_object.x := x;
     abs_object.y := y; abs_object.z := z;
     abs_object.wx := wx; abs_object.wy := wy |}.

Definition report_of (l : list abs_object.t) (ts : Z) : RMI2DSensorReport :=
  {| timestamp := ts;
     objs := take 10 (l ++ replicate 10 abs_object.zero);
     fingers := 10 |}.

(** ** The pool of finger types *)

Lemma is_free_insert free ty ty' b :
  Sensor.is_free (<[ty := b]> free) ty' =
  if decide (ty = ty' /\ (ty < length free)%nat) then b else Sensor.is_free free ty'.
Proof.
  unfold Sensor.is_free. destruct (decide (ty = ty')) as [->|Hne].
  - destruct (decide (ty' < length free)%nat) as [Hlt|Hge].
    + rewrite list_lookup_insert_eq by exact Hlt.
      rewrite decide_True by auto. reflexivity.
    + rewrite list_insert_ge by lia. rewrite decide_False by tauto. reflexivity.
  - rewrite list_lookup_insert_ne by exact Hne.
    rewrite decide_False by tauto. reflexivity.
Qed.

Lemma is_free_lt free ty : Sensor.is_free free ty = true -> (ty < length free)%nat.
Proof.
  unfold Sensor.is_free. destruct (free !! ty) eqn:E; [|discriminate].
  intros _. apply lookup_lt_Some in E. exact E.
Qed.

(** What the loop of [getFingerType] returns: the first free type at or
    after [i], which it takes, or the undefined type when the [n] types from
    [i] are all taken. *)
Lemma getFingerType_from_spec n i free :
  (0 < i)%nat ->
  let (ty, free') := Sensor.getFingerType_from n i free in
  (ty = kMT2FingerTypeUndefined /\ free' = free /\
   forall j, (i <= j < i + n)%nat -> Sensor.is_free free j = false) \/
  ((i <= ty < i + n)%nat /\ Sensor.is_free free ty = true /\
   free' = <[ty := false]> free /\
   forall j, (i <= j < ty)%nat -> Sensor.is_free free j = false).
Proof.
  revert i. induction n as [|n IH]; intros i Hi; cbn [Sensor.getFingerType_from].
  - left. repeat split; intros j Hj; lia.
  - destruct (Sensor.is_free free i) eqn:E.
    + right. repeat split; try lia; auto; intros j Hj; lia.
    + specialize (IH (S i) ltac:(lia)).
      destruct (Sensor.getFingerType_from n (S i) free) as [ty free'].
      destruct IH as [(-> & -> & Hall) | (Hr & Hf & -> & Hlow)].
      * left. repeat split; intros j Hj;
          destruct (decide (j = i)) as [->|Hne]; [exact E | apply Hall; lia].
      * right. repeat split; try lia; auto; intros j Hj;
          destruct (decide (j = i)) as [->|Hne]; [exact E | apply Hlow; lia].
Qed.

(** A type is the lowest free non-thumb one of a pool, or undefined when
    the pool has none. *)
Definition lowest_free_finger (free : list bool) (ty : MT2FingerType) : Prop :=
  (ty = kMT2FingerTypeUndefined /\
   forall j, (kMT2FingerTypeIndexFinger <= j < kMT2FingerTypeCount)%nat ->
             Sensor.is_free free j = false) \/
  ((kMT2FingerTypeIndexFinger <= ty < kMT2FingerTypeCount)%nat /\
   Sensor.is_free free ty = true /\
   forall j, (kMT2FingerTypeIndexFinger <= j < ty)%nat ->
             Sensor.is_free free j = false).

Lemma getFingerType_spec free :
  let (ty, free') := Sensor.getFingerType free in
  lowest_free_finger free ty /\
  free' = if Nat.eqb ty kMT2FingerTypeUndefined then free else <[ty := false]> free.
Proof.
  unfold Sensor.getFingerType.
  pose proof (getFingerType_from_spec
                (kMT2FingerTypeCount - kMT2FingerTypeIndexFinger)
                kMT2FingerTypeIndexFinger free) as H.
  destruct (Sensor.getFingerType_from _ _ free) as [ty free'].
  unfold lowest_free_finger.
  unfold kMT2FingerTypeCount, kMT2FingerTypeIndexFinger, kMT2FingerTypeUndefined in *.
  destruct (H ltac:(lia)) as [(-> & -> & Hall) | (Hr & Hf & -> & Hlow)].
  - split; [left; split; [reflexivity|]; intros j Hj; apply Hall; lia | reflexivity].
  - split; [right; repeat split; try lia; auto|].
    destruct ty; [lia | reflexivity].
Qed.

(** The types of the slots and the pool agree: the pool has one entry per
    type, the undefined type is never free, and a type other than undefined
    is either free and held by no slot or not free and held by exactly one
    slot. *)
Definition pool_inv (free : list bool) (tys : list MT2FingerType) : Prop :=
  length free = kMT2FingerTypeCount /\
  Sensor.is_free free kMT2FingerTypeUndefined = false /\
  (forall i ty, tys !! i = Some ty -> (ty < kMT2FingerTypeCount)%nat) /\
  (forall i ty, tys !! i = Some ty -> ty <> kMT2FingerTypeUndefined ->
     Sensor.is_free free ty = false) /\
  (forall ty, ty <> kMT2FingerTypeUndefined -> (ty < kMT2FingerTypeCount)%nat ->
     Sensor.is_free free ty = false -> exists i, tys !! i = Some ty) /\
  (forall i j ty, tys !! i = Some ty -> tys !! j = Some ty ->
     ty <> kMT2FingerTypeUndefined -> i = j).

Ltac pool_simpl :=
  unfold kMT2FingerTypeCount, kMT2FingerTypeUndefined, kMT2FingerTypeThumb,
    kMT2FingerTypeIndexFinger in *.

(** A slot gives its type back. *)
Lemma pool_inv_release free tys i ty :
  pool_inv free tys -> tys !! i = Some ty ->
  pool_inv
    (if negb (Nat.eqb ty kMT2FingerTypeUndefined) then <[ty := true]> free else free)
    (<[i := kMT2FingerTypeUndefined]> tys).
Proof.
  intros (Hlen & H0 & Hlt & Hheld & Hfree & Huniq) Hi. unfold pool_inv. pool_simpl.
  pose proof (lookup_lt_Some _ _ _ Hi) as Hil.
  destruct (Nat.eqb_spec ty 0) as [->|Hne]; cbn [negb].
  - rewrite list_insert_id by exact Hi. repeat split; assumption.
  - pose proof (Hlt _ _ Hi) as Hty.
    split; [rewrite length_insert; exact Hlen|].
    split; [rewrite is_free_insert, decide_False by lia; exact H0|].
    split; [|split; [|split]].
    + intros j t Hj. destruct (decide (j = i)) as [->|Hji].
      * rewrite list_lookup_insert_eq in Hj by exact Hil. inversion Hj. lia.
      * rewrite list_lookup_insert_ne in Hj by auto. eauto.
    + intros j t Hj Ht. destruct (decide (j = i)) as [->|Hji].
      * rewrite list_lookup_insert_eq in Hj by exact Hil. congruence.
      * rewrite list_lookup_insert_ne in Hj by auto.
        rewrite is_free_insert. destruct (decide _) as [[-> _]|_]; [|eauto].
        exfalso. apply Hji. eapply Huniq; eauto.
    + intros t Ht Htlt Hf. rewrite is_free_insert in Hf.
      destruct (decide _) as [_|Hd]; [discriminate|].
      destruct (Hfree t Ht Htlt Hf) as [j Hj]. exists j.
      destruct (decide (j = i)) as [->|Hji].
      * exfalso. apply Hd. split; [congruence | lia].
      * rewrite list_lookup_insert_ne by auto. exact Hj.
    + intros j k t Hj Hk Ht.
      destruct (decide (j = i)) as [->|Hji].
      { rewrite list_lookup_insert_eq in Hj by exact Hil. congruence. }
      destruct (decide (k = i)) as [->|Hki].
      { rewrite list_lookup_insert_eq in Hk by exact Hil. congruence. }
      rewrite list_lookup_insert_ne in Hj, Hk by auto. eauto.
Qed.

(** A slot without a type takes a free type, which is not the undefined
    one. *)
Lemma pool_inv_take free tys i ty :
  pool_inv free tys -> tys !! i = Some kMT2FingerTypeUndefined ->
  Sensor.is_free free ty = true ->
  pool_inv (<[ty := false]> free) (<[i := ty]> tys).
Proof.
  intros (Hlen & H0 & Hlt & Hheld & Hfree & Huniq) Hi Hf. unfold pool_inv. pool_simpl.
  pose proof (lookup_lt_Some _ _ _ Hi) as Hil.
  pose proof (is_free_lt _ _ Hf) as Htl.
  assert (Hty0 : ty <> 0%nat) by (intros ->; congruence).
  assert (Hnone : forall j, tys !! j = Some ty -> False).
  { intros j Hj. specialize (Hheld _ _ Hj Hty0). congruence. }
  split; [rewrite length_insert; exact Hlen|].
  split; [rewrite is_free_insert, decide_False by tauto; exact H0|].
  split; [|split; [|split]].
  - intros j t Hj. destruct (decide (j = i)) as [->|Hji].
    + rewrite list_lookup_insert_eq in Hj by exact Hil. inversion Hj. lia.
    + rewrite list_lookup_insert_ne in Hj by auto. eauto.
  - intros j t Hj Ht. rewrite is_free_insert.
    destruct (decide _) as [_|Hd]; [reflexivity|].
    destruct (decide (j = i)) as [->|Hji].
    + rewrite list_lookup_insert_eq in Hj by exact Hil. inversion Hj. subst t.
      exfalso. apply Hd. auto.
    + rewrite list_lookup_insert_ne in Hj by auto. eauto.
  - intros t Ht Htlt Hft. rewrite is_free_insert in Hft.
    destruct (decide _) as [[-> _]|Hd].
    + exists i. apply list_lookup_insert_eq. exact Hil.
    + destruct (Hfree t Ht Htlt Hft) as [j Hj]. exists j.
      destruct (decide (j = i)) as [->|Hji]; [congruence|].
      rewrite list_lookup_insert_ne by auto. exact Hj.
  - intros j k t Hj Hk Ht.
    destruct (decide (j = i)) as [->|Hji]; destruct (decide (k = i)) as [->|Hki];
      try reflexivity.
    + rewrite list_lookup_insert_eq in Hj by exact Hil.
      rewrite list_lookup_insert_ne in Hk by auto. inversion Hj. subst t.
      exfalso. eauto.
    + rewrite list_lookup_insert_eq in Hk by exact Hil.
      rewrite list_lookup_insert_ne in Hj by auto. inversion Hk. subst t.
      exfalso. eauto.
    + rewrite list_lookup_insert_ne in Hj, Hk by auto. eauto.
Qed.

(** The thumb type, which is free, is given to a slot, whose own type goes
    back to the pool. *)
Lemma pool_inv_thumb free tys k ty :
  pool_inv free tys -> tys !! k = Some ty ->
  Sensor.is_free free kMT2FingerTypeThumb = true ->
  pool_inv
    (<[kMT2FingerTypeThumb := false]>
       (if negb (Nat.eqb ty kMT2FingerTypeUndefined) then <[ty := true]> free
        else free))
    (<[k := kMT2FingerTypeThumb]> tys).
Proof.
  intros Hinv Hk Hthumb.
  pose proof (pool_inv_release free tys k ty Hinv Hk) as Hrel.
  rewrite <- (list_insert_insert_eq tys k kMT2FingerTypeThumb kMT2FingerTypeUndefined).
  apply pool_inv_take.
  - exact Hrel.
  - apply list_lookup_insert_eq. apply lookup_lt_Some in Hk. exact Hk.
  - destruct (negb (Nat.eqb ty kMT2FingerTypeUndefined)); [|exact Hthumb].
    rewrite is_free_insert. destruct (decide _); [reflexivity | exact Hthumb].
Qed.

(** The types the slots hold. *)
Definition types_of (s : Sensor.t) : list MT2FingerType :=
  map Transducer.fingerType (Sensor.transducers s).

Definition sensor_pool_inv (s : Sensor.t) : Prop :=
  pool_inv (Sensor.freeFingerTypes s) (types_of s).

(** A slot that holds a type is valid. *)
Definition typed_slots_valid (s : Sensor.t) : Prop :=
  forall i tr, Sensor.transducers s !! i = Some tr ->
    Transducer.fingerType tr <> kMT2FingerTypeUndefined ->
    Transducer.isValid tr = true.

Lemma types_of_insert s i ty tr :
  types_of (Sensor.set_transducers
              (<[i := Transducer.set_fingerType ty tr]> (Sensor.transducers s)) s)
  = <[i := ty]> (types_of s).
Proof. unfold types_of. cbn. apply list_fmap_insert. Qed.

Lemma types_of_lookup s i tr :
  Sensor.transducers s !! i = Some tr ->
  types_of s !! i = Some (Transducer.fingerType tr).
Proof. intros H. unfold types_of. rewrite list_lookup_fmap, H. reflexivity. Qed.

(** The search of [setThumbFingerType] ends on a valid slot below
    [n]. *)
Lemma thumb_search_found trs n k :
  snd (Sensor.thumb_search trs n) = Some k ->
  (k < n)%nat /\ exists tr, trs !! k = Some tr /\ Transducer.isValid tr = true.
Proof.
  unfold Sensor.thumb_search. induction n as [|n IH]; [discriminate|].
  rewrite seq_S, foldl_app. cbn [foldl Nat.add].
  destruct (foldl (Sensor.thumb_search_body trs) (0, None) (seq 0 n))
    as [minY idx] eqn:E.
  cbn [Sensor.thumb_search_body snd] in *.
  destruct (trs !! n) as [tr|] eqn:Et.
  - destruct (Transducer.isValid tr) eqn:Ev; cbn [andb].
    + match goal with |- context [if ?c then _ else _] => destruct c end; cbn [snd].
      * intros [= <-]. split; [lia | eauto].
      * intros H. destruct (IH H) as [Hlt Hx]. split; [lia | exact Hx].
    + intros H. destruct (IH H) as [Hlt Hx]. split; [lia | exact Hx].
  - intros H. destruct (IH H) as [Hlt Hx]. split; [lia | exact Hx].
Qed.

(** The thumb pre-emption keeps the pool and the slots in agreement. *)
Lemma setThumbFingerType_inv fingers s :
  sensor_pool_inv s ->
  Sensor.is_free (Sensor.freeFingerTypes s) kMT2FingerTypeThumb = true ->
  sensor_pool_inv (Sensor.setThumbFingerType fingers s).
Proof.
  intros Hinv Hthumb. unfold Sensor.setThumbFingerType.
  destruct (snd (Sensor.thumb_search _ _)) as [k|]; [|exact Hinv].
  destruct (Sensor.transducers s !! k) as [tr|] eqn:Ek; [|exact Hinv].
  unfold sensor_pool_inv. cbn [Sensor.freeFingerTypes Sensor.set_freeFingerTypes].
  change (types_of (Sensor.set_freeFingerTypes ?f ?x)) with (types_of x).
  rewrite types_of_insert.
  apply pool_inv_thumb; auto using types_of_lookup.
Qed.

(** A turn of the second loop keeps the pool and the slots in agreement. *)
Lemma second_loop_body_inv s i :
  sensor_pool_inv s -> sensor_pool_inv (Sensor.second_loop_body s i).
Proof.
  intros Hinv. unfold Sensor.second_loop_body.
  destruct (Sensor.transducers s !! i) as [tr|] eqn:Ei; [|exact Hinv].
  pose proof (types_of_lookup _ _ _ Ei) as Hty.
  destruct (Transducer.isValid tr).
  - destruct (Nat.eqb_spec (Transducer.fingerType tr) kMT2FingerTypeUndefined)
      as [E0|Hne]; [|exact Hinv].
    pose proof (getFingerType_spec (Sensor.freeFingerTypes s)) as Hg.
    destruct (Sensor.getFingerType (Sensor.freeFingerTypes s)) as [ty free'].
    destruct Hg as [Hlow ->].
    unfold sensor_pool_inv. cbn [Sensor.freeFingerTypes Sensor.set_freeFingerTypes].
    change (types_of (Sensor.set_freeFingerTypes ?f ?x)) with (types_of x).
    rewrite types_of_insert. rewrite E0 in Hty.
    destruct Hlow as [[-> _] | (Hr & Hf & _)].
    + change (Nat.eqb kMT2FingerTypeUndefined kMT2FingerTypeUndefined) with true.
      cbv iota. rewrite (list_insert_id (types_of s)) by exact Hty. exact Hinv.
    + replace (Nat.eqb ty kMT2FingerTypeUndefined) with false
        by (symmetry; apply Nat.eqb_neq; pool_simpl; lia).
      apply pool_inv_take; assumption.
  - unfold sensor_pool_inv. cbn [Sensor.freeFingerTypes Sensor.set_freeFingerTypes].
    change (types_of (Sensor.set_freeFingerTypes ?f ?x)) with (types_of x).
    rewrite types_of_insert. apply pool_inv_release; assumption.
Qed.

Lemma second_loop_S n s :
  Sensor.second_loop (S n) s = Sensor.second_loop_body (Sensor.second_loop n s) n.
Proof. unfold Sensor.second_loop. rewrite seq_S, foldl_app. reflexivity. Qed.

Lemma second_loop_inv n s :
  sensor_pool_inv s -> sensor_pool_inv (Sensor.second_loop n s).
Proof.
  intros Hinv. induction n as [|n IH]; [exact Hinv|].
  rewrite second_loop_S. apply second_loop_body_inv, IH.
Qed.

(** What a turn of the second loop leaves alone, and what it makes of its
    own slot. *)
Lemma second_loop_body_slots s i :
  let s' := Sensor.second_loop_body s i in
  length (Sensor.transducers s') = length (Sensor.transducers s) /\
  (forall j, j <> i -> Sensor.transducers s' !! j = Sensor.transducers s !! j) /\
  (forall tr', Sensor.transducers s' !! i = Some tr' ->
     Transducer.fingerType tr' <> kMT2FingerTypeUndefined ->
     Transducer.isValid tr' = true) /\
  Sensor.pressureLock s' = Sensor.pressureLock s.
Proof.
  unfold Sensor.second_loop_body.
  destruct (Sensor.transducers s !! i) as [tr|] eqn:Ei.
  2: { cbv zeta. repeat split. intros tr'. rewrite Ei. discriminate. }
  pose proof (lookup_lt_Some _ _ _ Ei) as Hil.
  destruct (Transducer.isValid tr) eqn:Ev.
  - destruct (Nat.eqb (Transducer.fingerType tr) kMT2FingerTypeUndefined).
    + destruct (Sensor.getFingerType (Sensor.freeFingerTypes s)) as [ty free'].
      cbn. repeat split.
      * apply length_insert.
      * intros j Hj. apply list_lookup_insert_ne. auto.
      * intros tr'. rewrite list_lookup_insert_eq by exact Hil.
        intros [= <-] _. exact Ev.
    + cbv zeta. repeat split. intros tr'. rewrite Ei. intros [= <-] _. exact Ev.
  - cbn. repeat split.
    + apply length_insert.
    + intros j Hj. apply list_lookup_insert_ne. auto.
    + intros tr'. rewrite list_lookup_insert_eq by exact Hil.
      intros [= <-] H. cbn in H. congruence.
Qed.

Lemma second_loop_slots n s :
  let s' := Sensor.second_loop n s in
  length (Sensor.transducers s') = length (Sensor.transducers s) /\
  (forall j, (n <= j)%nat -> Sensor.transducers s' !! j = Sensor.transducers s !! j) /\
  (forall i tr', (i < n)%nat -> Sensor.transducers s' !! i = Some tr' ->
     Transducer.fingerType tr' <> kMT2FingerTypeUndefined ->
     Transducer.isValid tr' = true) /\
  Sensor.pressureLock s' = Sensor.pressureLock s.
Proof.
  induction n as [|n IH].
  - cbn. repeat split. intros i tr' Hi. lia.
  - rewrite second_loop_S. cbv zeta in *.
    destruct IH as (I1 & I2 & I3 & I4).
    destruct (second_loop_body_slots (Sensor.second_loop n s) n)
      as (H1 & H2 & H3 & H4).
    split; [congruence|]. split; [|split; [|congruence]].
    + intros j Hj. rewrite H2 by lia. apply I2. lia.
    + intros i tr' Hi Hl Ht. destruct (decide (i = n)) as [->|Hne].
      * eapply H3; eauto.
      * rewrite H2 in Hl by exact Hne. eapply I3; eauto. lia.
Qed.

Lemma setThumbFingerType_slots fingers s j :
  (Z.to_nat fingers <= j)%nat ->
  Sensor.transducers (Sensor.setThumbFingerType fingers s) !! j =
    Sensor.transducers s !! j.
Proof.
  intros Hj. unfold Sensor.setThumbFingerType.
  destruct (snd (Sensor.thumb_search _ _)) as [k|] eqn:Ek; [|reflexivity].
  destruct (thumb_search_found _ _ _ Ek) as [Hk _].
  destruct (Sensor.transducers s !! k); [|reflexivity].
  cbn. apply list_lookup_insert_ne. lia.
Qed.

(** At [start] every type but the undefined one is free and no slot holds
    a type. *)
Lemma pool_inv_start n :
  pool_inv Sensor.freeFingerTypes_start (replicate n kMT2FingerTypeUndefined).
Proof.
  unfold pool_inv. split; [reflexivity|]. split; [reflexivity|].
  split; [|split; [|split]].
  - intros i ty Hi. apply lookup_replicate in Hi as [-> _]. pool_simpl. lia.
  - intros i ty Hi Hne. apply lookup_replicate in Hi as [-> _]. contradiction.
  - intros ty Hne Hlt Hf. exfalso. pool_simpl.
    do 6 (destruct ty as [|ty]; [first [contradiction | discriminate]|]). lia.
  - intros i j ty Hi _ Hne. apply lookup_replicate in Hi as [-> _]. contradiction.
Qed.

(** C9.  Across [handleReport] every finger type other than the undefined
    one is in exactly one of two states, held by exactly one slot (a valid
    one) or free in the pool: this holds at [start], is kept by the thumb
    pre-emption (which gives the pre-empted slot's type back), by each turn
    of the loop that allocates and releases types, and by the whole
    update. *)
Theorem finger_type_pool_invariant :
  (forall n, pool_inv Sensor.freeFingerTypes_start
               (map Transducer.fingerType (replicate n Transducer.zero))) /\
  (forall fingers s,
     sensor_pool_inv s ->
     Sensor.is_free (Sensor.freeFingerTypes s) kMT2FingerTypeThumb = true ->
     sensor_pool_inv (Sensor.setThumbFingerType fingers s)) /\
  (forall s i, sensor_pool_inv s -> sensor_pool_inv (Sensor.second_loop_body s i)) /\
  (forall report s,
     sensor_pool_inv s -> typed_slots_valid s ->
     sensor_pool_inv (Sensor.handleReport report s) /\
     typed_slots_valid (Sensor.handleReport report s)).
Proof.
  split; [|split; [|split]].
  - intros n. rewrite fmap_replicate. apply pool_inv_start.
  - apply setThumbFingerType_inv.
  - apply second_loop_body_inv.
  - intros report s Hinv Hlive. unfold Sensor.handleReport.
    rewrite first_loop_is_upto.
    set (n := Z.to_nat (fingers report)).
    pose proof (first_loop_upto_frame report n s) as (_&_&_&_&Hfree&_&Hhigh&Htys).
    destruct (first_loop_upto report n s) as [s1 count]. cbn [fst] in *.
    assert (Hinv1 : sensor_pool_inv s1).
    { unfold sensor_pool_inv, types_of. rewrite Hfree, Htys. exact Hinv. }
    set (s2 := if (count =? 4)
                  && Sensor.is_free (Sensor.freeFingerTypes s1) kMT2FingerTypeThumb
               then Sensor.setThumbFingerType (fingers report) s1 else s1).
    assert (Hinv2 : sensor_pool_inv s2).
    { subst s2. destruct (count =? 4); [|exact Hinv1]. cbn [andb].
      destruct (Sensor.is_free _ _) eqn:Ef; [|exact Hinv1].
      apply setThumbFingerType_inv; assumption. }
    assert (Hhigh2 : forall j, (n <= j)%nat ->
              Sensor.transducers s2 !! j = Sensor.transducers s !! j).
    { intros j Hj. subst s2.
      destruct (_ && _); [rewrite setThumbFingerType_slots by exact Hj|];
        apply Hhigh; exact Hj. }
    pose proof (second_loop_inv n s2 Hinv2) as Hinv3.
    destruct (second_loop_slots n s2) as (_ & Hhigh3 & Hlow3 & _).
    set (s3 := Sensor.second_loop n s2) in *.
    assert (Hfinal : forall s4,
              Sensor.transducers s4 = Sensor.transducers s3 ->
              Sensor.freeFingerTypes s4 = Sensor.freeFingerTypes s3 ->
              sensor_pool_inv s4 /\ typed_slots_valid s4).
    { intros s4 Ht Hf. split.
      - unfold sensor_pool_inv, types_of. rewrite Ht, Hf. exact Hinv3.
      - intros i tr Hi Hty. rewrite Ht in Hi.
        destruct (Nat.lt_ge_cases i n) as [Hlt|Hge].
        + eapply Hlow3; eauto.
        + rewrite Hhigh3, Hhigh2 in Hi by exact Hge. eapply Hlive; eauto. }
    destruct (count =? 0); apply Hfinal; reflexivity.
Qed.

Lemma typed_slots_valid_start clickpad emulation lock :
  typed_slots_valid (sensor_start clickpad emulation lock).
Proof.
  intros i tr Hi Hty.
  change (replicate 10 Transducer.zero !! i = Some tr) in Hi.
  apply lookup_replicate in Hi as [-> _].
  contradiction.
Qed.

Lemma finger_type_pool_invariant_witness :
  sensor_pool_inv
    (Sensor.handleReport (report_of [finger_at 100 200 50 4 4] 1)
       (sensor_start false true false)).
Proof.
  destruct finger_type_pool_invariant as (Hstart & _ & _ & Hupdate).
  apply Hupdate.
  - exact (Hstart 10%nat).
  - apply typed_slots_valid_start.
Defined.

(** ** The order of releases and allocations *)

Lemma second_loop_body_length s i :
  length (Sensor.freeFingerTypes (Sensor.second_loop_body s i)) =
  length (Sensor.freeFingerTypes s).
Proof.
  unfold Sensor.second_loop_body.
  destruct (Sensor.transducers s !! i) as [tr|]; [|reflexivity].
  destruct (Transducer.isValid tr).
  - destruct (Nat.eqb _ _); [|reflexivity].
    pose proof (getFingerType_spec (Sensor.freeFingerTypes s)) as Hg.
    destruct (Sensor.getFingerType _) as [ty free']. destruct Hg as [_ ->].
    cbn. destruct (Nat.eqb ty _); [reflexivity | apply length_insert].
  - cbn. destruct (negb _); [apply length_insert | reflexivity].
Qed.

(** A turn whose slot is not a valid slot without a type takes nothing
    from the pool. *)
Lemma second_loop_body_keeps_free s i ty :
  (forall tr, Sensor.transducers s !! i = Some tr ->
     Transducer.isValid tr = true ->
     Transducer.fingerType tr <> kMT2FingerTypeUndefined) ->
  Sensor.is_free (Sensor.freeFingerTypes s) ty = true ->
  Sensor.is_free (Sensor.freeFingerTypes (Sensor.second_loop_body s i)) ty = true.
Proof.
  intros Hslot Hf. unfold Sensor.second_loop_body.
  destruct (Sensor.transducers s !! i) as [tr|]; [|exact Hf].
  destruct (Transducer.isValid tr) eqn:Ev.
  - destruct (Nat.eqb_spec (Transducer.fingerType tr) kMT2FingerTypeUndefined)
      as [E|_]; [|exact Hf].
    exfalso. exact (Hslot tr eq_refl Ev E).
  - cbn. destruct (negb _); [|exact Hf].
    rewrite is_free_insert. destruct (decide _); [reflexivity | exact Hf].
Qed.

(** The second loop until it reaches slot [i], from slot [j] on. *)
Lemma second_loop_keeps_free s j i ty :
  (j <= i)%nat ->
  (forall k tr, (j <= k < i)%nat -> Sensor.transducers s !! k = Some tr ->
     Transducer.isValid tr = true ->
     Transducer.fingerType tr <> kMT2FingerTypeUndefined) ->
  Sensor.is_free (Sensor.freeFingerTypes (Sensor.second_loop j s)) ty = true ->
  Sensor.is_free (Sensor.freeFingerTypes (Sensor.second_loop i s)) ty = true.
Proof.
  intros Hji Hslots Hf. induction i as [|i IH].
  - replace j with 0%nat in Hf by lia. exact Hf.
  - destruct (decide (j = S i)) as [->|Hne]; [exact Hf|].
    rewrite second_loop_S. apply second_loop_body_keeps_free.
    + intros tr Hi. destruct (second_loop_slots i s) as (_ & Hhigh & _).
      rewrite Hhigh in Hi by lia. apply (Hslots i); [lia | exact Hi].
    + apply IH; [lia|]. intros k tr Hk. apply Hslots. lia.
Qed.

(** The slot [i] once the loop is over is what turn [i] made of it. *)
Lemma second_loop_slot_final n s i :
  (i < n)%nat ->
  Sensor.transducers (Sensor.second_loop n s) !! i =
  Sensor.transducers (Sensor.second_loop (S i) s) !! i.
Proof.
  intros Hi. induction n as [|n IH]; [lia|].
  destruct (decide (i = n)) as [->|Hne]; [reflexivity|].
  rewrite second_loop_S.
  destruct (second_loop_body_slots (Sensor.second_loop n s) n) as (_ & Hother & _).
  rewrite Hother by exact Hne. apply IH. lia.
Qed.

Lemma second_loop_slot_visit s i :
  Sensor.transducers (Sensor.second_loop i s) !! i = Sensor.transducers s !! i.
Proof. destruct (second_loop_slots i s) as (_ & Hhigh & _). apply Hhigh. lia. Qed.

Lemma second_loop_length n s :
  length (Sensor.freeFingerTypes (Sensor.second_loop n s)) =
  length (Sensor.freeFingerTypes s).
Proof.
  induction n as [|n IH]; [reflexivity|].
  rewrite second_loop_S, second_loop_body_length. exact IH.
Qed.

(** What turn [i] does when it finds [tr] in its slot. *)
Lemma second_loop_turn s i tr :
  Sensor.transducers s !! i = Some tr ->
  let visit := Sensor.second_loop i s in
  let after := Sensor.second_loop (S i) s in
  (Transducer.isValid tr = false ->
     Sensor.transducers after !! i =
       Some (Transducer.set_fingerType kMT2FingerTypeUndefined tr) /\
     (Transducer.fingerType tr <> kMT2FingerTypeUndefined ->
      (Transducer.fingerType tr < length (Sensor.freeFingerTypes s))%nat ->
      Sensor.is_free (Sensor.freeFingerTypes after) (Transducer.fingerType tr) = true)) /\
  (Transducer.isValid tr = true ->
   Transducer.fingerType tr = kMT2FingerTypeUndefined ->
     exists ty, Sensor.transducers after !! i = Some (Transducer.set_fingerType ty tr) /\
                lowest_free_finger (Sensor.freeFingerTypes visit) ty) /\
  (Transducer.isValid tr = true ->
   Transducer.fingerType tr <> kMT2FingerTypeUndefined ->
     Sensor.transducers after !! i = Some tr /\
     Sensor.freeFingerTypes after = Sensor.freeFingerTypes visit).
Proof.
  intros Hi visit after. subst after. rewrite second_loop_S. fold visit.
  pose proof (second_loop_slot_visit s i) as Hv. fold visit in Hv. rewrite Hi in Hv.
  pose proof (second_loop_length i s) as Hlen. fold visit in Hlen.
  pose proof (lookup_lt_Some _ _ _ Hv) as Hil.
  unfold Sensor.second_loop_body. rewrite Hv.
  split; [|split].
  - intros Ev. rewrite Ev. cbn. split.
    + apply list_lookup_insert_eq. exact Hil.
    + intros Hne Hlt.
      replace (Nat.eqb (Transducer.fingerType tr) kMT2FingerTypeUndefined) with false
        by (symmetry; apply Nat.eqb_neq; exact Hne).
      cbn [negb]. rewrite is_free_insert, decide_True; [reflexivity|].
      split; [reflexivity | lia].
  - intros Ev E0. rewrite Ev, E0.
    change (Nat.eqb kMT2FingerTypeUndefined kMT2FingerTypeUndefined) with true.
    cbv iota.
    pose proof (getFingerType_spec (Sensor.freeFingerTypes visit)) as Hg.
    destruct (Sensor.getFingerType (Sensor.freeFingerTypes visit)) as [ty free'].
    destruct Hg as [Hlow _]. exists ty. split; [|exact Hlow].
    cbn. apply list_lookup_insert_eq. exact Hil.
  - intros Ev Hne. rewrite Ev.
    replace (Nat.eqb (Transducer.fingerType tr) kMT2FingerTypeUndefined) with false
      by (symmetry; apply Nat.eqb_neq; exact Hne).
    split; [exact Hv | reflexivity].
Qed.

(** C3, as stated, fails: slot 1 holds the index-finger type; in the next
    update its contact is gone and a contact appears in slot 0.  Slot 0 is
    visited first and receives the middle-finger type, although the
    index-finger type, released in the same update, is lower: the type
    received is not the lowest free one once the released type is counted
    as free. *)
Lemma new_contact_misses_released_type :
  let s1 := Sensor.handleReport
              (report_of [abs_object.zero; finger_at 10 10 50 4 4] 1)
              (sensor_start false true false) in
  let s2 := Sensor.handleReport (report_of [finger_at 20 20 50 4 4] 2) s1 in
  map Transducer.fingerType (take 2 (Sensor.transducers s1)) =
    [kMT2FingerTypeUndefined; kMT2FingerTypeIndexFinger] /\
  map Transducer.isValid (take 2 (Sensor.transducers s2)) = [true; false] /\
  map Transducer.fingerType (take 2 (Sensor.transducers s2)) =
    [kMT2FingerTypeMiddleFinger; kMT2FingerTypeUndefined] /\
  ~ lowest_free_finger
      (<[kMT2FingerTypeIndexFinger := true]> (Sensor.freeFingerTypes s1))
      kMT2FingerTypeMiddleFinger.
Proof.
  cbv zeta. split; [vm_compute; reflexivity|]. split; [vm_compute; reflexivity|].
  split; [vm_compute; reflexivity|].
  intros [[H _] | (_ & _ & Hlow)]; [discriminate|].
  specialize (Hlow kMT2FingerTypeIndexFinger).
  assert (Hr : (kMT2FingerTypeIndexFinger <= kMT2FingerTypeIndexFinger
                < kMT2FingerTypeMiddleFinger)%nat) by (vm_compute; lia).
  specialize (Hlow Hr). vm_compute in Hlow. discriminate.
Qed.

(** C3, amended.  The second loop of an update visits the slots in index
    order and releases and allocates as it goes.  A slot that is invalid
    when visited ends with the undefined type and its former type is free
    right after the visit.  A valid slot without a type receives the lowest
    free non-thumb type of the pool as it is when the loop reaches the slot
    (the undefined type if there is none): a type released earlier in the
    same update by a slot of lower index counts as free, so the type
    received is at most that one if no slot in between asked for a type.
    A valid slot that holds a type keeps it. *)
Theorem identity_pass_order n s i tr :
  (i < n)%nat ->
  length (Sensor.freeFingerTypes s) = kMT2FingerTypeCount ->
  Sensor.transducers s !! i = Some tr ->
  let visit := Sensor.second_loop i s in
  let s' := Sensor.second_loop n s in
  (Transducer.isValid tr = false ->
     Sensor.transducers s' !! i =
       Some (Transducer.set_fingerType kMT2FingerTypeUndefined tr) /\
     (Transducer.fingerType tr <> kMT2FingerTypeUndefined ->
      (Transducer.fingerType tr < kMT2FingerTypeCount)%nat ->
      Sensor.is_free (Sensor.freeFingerTypes (Sensor.second_loop (S i) s))
        (Transducer.fingerType tr) = true)) /\
  (Transducer.isValid tr = true ->
   Transducer.fingerType tr = kMT2FingerTypeUndefined ->
     exists ty,
       Sensor.transducers s' !! i = Some (Transducer.set_fingerType ty tr) /\
       lowest_free_finger (Sensor.freeFingerTypes visit) ty /\
       forall j trj,
         (j < i)%nat -> Sensor.transducers s !! j = Some trj ->
         Transducer.isValid trj = false ->
         (kMT2FingerTypeIndexFinger <= Transducer.fingerType trj
          < kMT2FingerTypeCount)%nat ->
         (forall k trk, (j < k < i)%nat -> Sensor.transducers s !! k = Some trk ->
            Transducer.isValid trk = true ->
            Transducer.fingerType trk <> kMT2FingerTypeUndefined) ->
         (kMT2FingerTypeIndexFinger <= ty <= Transducer.fingerType trj)%nat) /\
  (Transducer.isValid tr = true ->
   Transducer.fingerType tr <> kMT2FingerTypeUndefined ->
     Sensor.transducers s' !! i = Some tr).
Proof.
  intros Hin Hlen Hi visit s'. subst s'. rewrite (second_loop_slot_final n s i Hin).
  destruct (second_loop_turn s i tr Hi) as (Hrel & Halloc & Hkeep).
  split; [|split; [|intros Ev Hne; apply Hkeep; assumption]].
  { intros Ev. destruct (Hrel Ev) as [Hslot Hfree]. split; [exact Hslot|].
    intros Hne Hlt. apply Hfree; [exact Hne | rewrite Hlen; exact Hlt]. }
  intros Ev E0. destruct (Halloc Ev E0) as (ty & Hslot & Hlow).
  exists ty. split; [exact Hslot|]. split; [exact Hlow|].
  intros j trj Hji Hj Evj Htj Hbetween.
  destruct (second_loop_turn s j trj Hj) as (Hrelj & _ & _).
  destruct (Hrelj Evj) as [_ Hfree].
  assert (Hfj : Sensor.is_free (Sensor.freeFingerTypes (Sensor.second_loop (S j) s))
                  (Transducer.fingerType trj) = true).
  { apply Hfree; [pool_simpl; lia | rewrite Hlen; lia]. }
  assert (Hfi : Sensor.is_free (Sensor.freeFingerTypes visit)
                  (Transducer.fingerType trj) = true).
  { apply (second_loop_keeps_free s (S j) i); [lia | | exact Hfj].
    intros k trk Hk. apply Hbetween. lia. }
  destruct Hlow as [[_ Hnone] | (Hr & _ & Hmin)].
  - exfalso. rewrite Hnone in Hfi by lia. discriminate.
  - split; [lia|].
    destruct (Nat.le_gt_cases ty (Transducer.fingerType trj)) as [Hle|Hgt]; [exact Hle|].
    rewrite Hmin in Hfi by lia. discriminate.
Qed.

(** Two updates: the contact of slot 1 moves to slot 2 while slot 0 is held
    by another contact; the sensor after the first loop of the second
    update. *)
Definition moved_contact : Sensor.t :=
  Eval vm_compute in
    fst (Sensor.first_loop
           (report_of [finger_at 5 5 50 4 4; abs_object.zero;
                       finger_at 20 20 50 4 4] 2)
           (Sensor.handleReport
              (report_of [finger_at 5 5 50 4 4; finger_at 10 10 50 4 4] 1)
              (sensor_start false true false))).

Lemma identity_pass_order_witness :
  exists ty tr,
    Sensor.transducers (Sensor.second_loop 10 moved_contact) !! 2%nat
      = Some (Transducer.set_fingerType ty tr) /\
    (kMT2FingerTypeIndexFinger <= ty <= kMT2FingerTypeMiddleFinger)%nat.
Proof.
  destruct (Sensor.transducers moved_contact !! 2%nat) as [tr|] eqn:Htr;
    [|discriminate Htr].
  destruct (Sensor.transducers moved_contact !! 1%nat) as [tr1|] eqn:Htr1;
    [|discriminate Htr1].
  destruct (identity_pass_order 10 moved_contact 2 tr ltac:(lia) eq_refl Htr)
    as (_ & Halloc & _).
  injection Htr as <-. injection Htr1 as <-.
  destruct (Halloc eq_refl eq_refl) as (ty & Hslot & _ & Hle).
  exists ty. eexists. split; [exact Hslot|].
  apply (Hle 1%nat _ ltac:(lia) eq_refl eq_refl).
  - split; [apply Nat.le_succ_diag_r | apply Nat.lt_succ_diag_r || (do 3 constructor)].
  - intros k trk Hk. lia.
Defined.

(** ** The pressure lock *)

(** [clickpadState && forceTouchEmulation && obj.z > forceTouchMinPressure] *)
Definition engages (s : Sensor.t) (obj : abs_object.t) : bool :=
  Sensor.clickpadState s && Sensor.forceTouchEmulation s
  && (abs_object.z obj >? Sensor.forceTouchMinPressure s).

(** What a turn of the first loop makes of a finger or stylus: [held] is
    the lock as the turn keeps it, that is the lock it found unless this is
    not the first contact counted. *)
Lemma first_loop_transducer_contact s ts i obj tr lock count :
  Sensor.is_finger_or_stylus obj = true ->
  let '(tr', lock', count') :=
    Sensor.first_loop_transducer s ts i obj tr lock count in
  let held := lock && (count + 1 =? 1) in
  count' = count + 1 /\
  lock' = held || engages s obj /\
  TouchCoordinates.pressure (Transducer.currentCoordinates tr')
    = (if lock' then 255 else 0) /\
  Transducer.isPhysicalButtonDown tr' = Sensor.clickpadState s && negb lock' /\
  TouchCoordinates.x (Transducer.currentCoordinates tr')
    = (if held then TouchCoordinates.x (Transducer.currentCoordinates tr)
       else abs_object.x obj) /\
  TouchCoordinates.y (Transducer.currentCoordinates tr')
    = (if held then TouchCoordinates.y (Transducer.currentCoordinates tr)
       else u32 (Sensor.max_y s - abs_object.y obj)) /\
  Transducer.previousCoordinates tr' = Transducer.currentCoordinates tr /\
  Transducer.isValid tr'
    = (abs_object.z obj <? 120)
      && (Z.abs (abs_object.wx obj - abs_object.wy obj) <? 3).
Proof.
  intros Hty. unfold Sensor.first_loop_transducer, engages. rewrite Hty.
  cbv zeta.
  destruct lock, (count + 1 =? 1), (Sensor.clickpadState s),
    (Sensor.forceTouchEmulation s),
    (abs_object.z obj >? Sensor.forceTouchMinPressure s);
    cbn; repeat split.
Qed.

(** A turn on an object that is neither finger nor stylus, or outside the
    arrays, leaves the lock and the count. *)
Lemma first_loop_body_none report s count i :
  (forall obj, objs report !! i = Some obj ->
     Sensor.is_finger_or_stylus obj = false) ->
  Sensor.pressureLock (fst (Sensor.first_loop_body report (s, count) i))
    = Sensor.pressureLock s /\
  snd (Sensor.first_loop_body report (s, count) i) = count.
Proof.
  intros Hnone. unfold Sensor.first_loop_body.
  destruct (objs report !! i) as [obj|]; [|split; reflexivity].
  destruct (Sensor.transducers s !! i) as [tr|]; [|split; reflexivity].
  unfold Sensor.first_loop_transducer. rewrite (Hnone obj eq_refl).
  split; reflexivity.
Qed.

(** The report has a finger or stylus in slot [k] and nowhere else. *)
Definition only_contact_at (report : RMI2DSensorReport) (k : nat) : Prop :=
  forall i obj, objs report !! i = Some obj -> i <> k ->
    Sensor.is_finger_or_stylus obj = false.

Lemma first_loop_before_contact report s k m :
  only_contact_at report k -> (m <= k)%nat ->
  Sensor.pressureLock (fst (first_loop_upto report m s)) = Sensor.pressureLock s /\
  snd (first_loop_upto report m s) = 0 /\
  Sensor.transducers (fst (first_loop_upto report m s)) !! k
    = Sensor.transducers s !! k.
Proof.
  intros Honly Hm.
  destruct (first_loop_upto_frame report m s) as (_&_&_&_&_&_&Hhigh&_).
  assert (H : Sensor.pressureLock (fst (first_loop_upto report m s))
                = Sensor.pressureLock s /\
              snd (first_loop_upto report m s) = 0).
  { clear Hhigh. induction m as [|m IH]; [split; reflexivity|].
    rewrite first_loop_upto_S. destruct IH as [IHl IHc]; [lia|].
    destruct (first_loop_upto report m s) as [s1 c]. cbn [fst snd] in *.
    destruct (first_loop_body_none report s1 c m) as [Hl Hcn].
    { intros obj Ho. apply (Honly m obj Ho). lia. }
    split; congruence. }
  destruct H as [Hl Hc]. split; [exact Hl|]. split; [exact Hc|].
  apply Hhigh. exact Hm.
Qed.

Lemma first_loop_after_contact report s k m :
  only_contact_at report k -> (k < m)%nat ->
  snd (first_loop_upto report m s) = snd (first_loop_upto report (S k) s) /\
  Sensor.pressureLock (fst (first_loop_upto report m s))
    = Sensor.pressureLock (fst (first_loop_upto report (S k) s)) /\
  Sensor.transducers (fst (first_loop_upto report m s)) !! k
    = Sensor.transducers (fst (first_loop_upto report (S k) s)) !! k.
Proof.
  intros Honly Hm. induction m as [|m IH]; [lia|].
  destruct (decide (m = k)) as [->|Hne]; [repeat split|].
  destruct IH as (IH1 & IH2 & IH3); [lia|].
  rewrite first_loop_upto_S.
  pose proof (first_loop_body_frame report (first_loop_upto report m s) m)
    as (_&_&_&_&_&_&Hother&_).
  destruct (first_loop_upto report m s) as [s1 c] eqn:E. cbn [fst snd] in *.
  destruct (first_loop_body_none report s1 c m) as [Hl Hcn].
  { intros obj Ho. apply (Honly m obj Ho). lia. }
  split; [congruence|]. split; [congruence|].
  rewrite Hother by lia. exact IH3.
Qed.

(** Two transducers that differ at most by their finger type. *)
Definition same_touch (tr tr' : Transducer.t) : Prop :=
  Transducer.set_fingerType kMT2FingerTypeUndefined tr'
  = Transducer.set_fingerType kMT2FingerTypeUndefined tr.

Lemma same_touch_fields tr tr' :
  same_touch tr tr' ->
  Transducer.currentCoordinates tr' = Transducer.currentCoordinates tr /\
  Transducer.previousCoordinates tr' = Transducer.previousCoordinates tr /\
  Transducer.isValid tr' = Transducer.isValid tr /\
  Transducer.isPhysicalButtonDown tr' = Transducer.isPhysicalButtonDown tr.
Proof.
  unfold same_touch, Transducer.set_fingerType. intros H.
  inversion H. repeat split; assumption.
Qed.

(** The second loop changes finger types only. *)
Lemma second_loop_body_touch s i k tr :
  Sensor.transducers s !! k = Some tr ->
  exists tr', Sensor.transducers (Sensor.second_loop_body s i) !! k = Some tr' /\
              same_touch tr tr'.
Proof.
  intros Hk. unfold Sensor.second_loop_body.
  destruct (Sensor.transducers s !! i) as [tri|] eqn:Ei;
    [|exists tr; split; [exact Hk | reflexivity]].
  pose proof (lookup_lt_Some _ _ _ Ei) as Hil.
  assert (Hcase : forall ty free,
            exists tr',
              Sensor.transducers
                (Sensor.set_freeFingerTypes free
                   (Sensor.set_transducers
                      (<[i := Transducer.set_fingerType ty tri]>
                         (Sensor.transducers s)) s)) !! k = Some tr' /\
              same_touch tr tr').
  { intros ty free. cbn. destruct (decide (k = i)) as [->|Hne].
    - rewrite list_lookup_insert_eq by exact Hil.
      rewrite Ei in Hk. injection Hk as <-.
      eexists. split; [reflexivity | reflexivity].
    - rewrite list_lookup_insert_ne by auto.
      exists tr. split; [exact Hk | reflexivity]. }
  destruct (Transducer.isValid tri).
  - destruct (Nat.eqb _ _); [|exists tr; split; [exact Hk | reflexivity]].
    destruct (Sensor.getFingerType _) as [ty free']. apply Hcase.
  - apply Hcase.
Qed.

Lemma second_loop_touch n s k tr :
  Sensor.transducers s !! k = Some tr ->
  exists tr', Sensor.transducers (Sensor.second_loop n s) !! k = Some tr' /\
              same_touch tr tr'.
Proof.
  intros Hk. induction n as [|n IH].
  - exists tr. split; [exact Hk | reflexivity].
  - destruct IH as (tr1 & Hk1 & Hs1). rewrite second_loop_S.
    destruct (second_loop_body_touch (Sensor.second_loop n s) n k tr1 Hk1)
      as (tr2 & Hk2 & Hs2).
    exists tr2. split; [exact Hk2|]. unfold same_touch in *. congruence.
Qed.

(** The settings, which [handleReport] only reads. *)
Lemma second_loop_body_settings s i :
  let s' := Sensor.second_loop_body s i in
  Sensor.max_y s' = Sensor.max_y s /\
  Sensor.forceTouchMinPressure s' = Sensor.forceTouchMinPressure s /\
  Sensor.forceTouchEmulation s' = Sensor.forceTouchEmulation s /\
  Sensor.clickpadState s' = Sensor.clickpadState s.
Proof.
  unfold Sensor.second_loop_body.
  destruct (Sensor.transducers s !! i) as [tr|]; [|repeat split].
  destruct (Transducer.isValid tr); [|repeat split].
  destruct (Nat.eqb _ _); [|repeat split].
  destruct (Sensor.getFingerType _). repeat split.
Qed.

Lemma second_loop_settings n s :
  let s' := Sensor.second_loop n s in
  Sensor.max_y s' = Sensor.max_y s /\
  Sensor.forceTouchMinPressure s' = Sensor.forceTouchMinPressure s /\
  Sensor.forceTouchEmulation s' = Sensor.forceTouchEmulation s /\
  Sensor.clickpadState s' = Sensor.clickpadState s.
Proof.
  induction n as [|n IH]; [repeat split|].
  rewrite second_loop_S. cbv zeta in *.
  destruct (second_loop_body_settings (Sensor.second_loop n s) n) as (?&?&?&?).
  destruct IH as (?&?&?&?). repeat split; congruence.
Qed.

(** [message] with [kHandleRMIClickpadSet]. *)
Definition message_ClickpadSet (argument : bool) (s : Sensor.t) : Sensor.t := {|
  Sensor.max_y := Sensor.max_y s;
  Sensor.forceTouchMinPressure := Sensor.forceTouchMinPressure s;
  Sensor.forceTouchEmulation := Sensor.forceTouchEmulation s;
  Sensor.disableWhileTypingTimeout := Sensor.disableWhileTypingTimeout s;
  Sensor.clickpadState := argument;
  Sensor.touchpadEnable := Sensor.touchpadEnable s;
  Sensor.lastKeyboardTS := Sensor.lastKeyboardTS s;
  Sensor.pressureLock := Sensor.pressureLock s;
  Sensor.freeFingerTypes := Sensor.freeFingerTypes s;
  Sensor.inputEvent := Sensor.inputEvent s |}.

(** An update whose report has one finger or stylus, in slot [k]. *)
Lemma handleReport_single_contact report s k obj tr :
  (k < Z.to_nat (fingers report))%nat ->
  objs report !! k = Some obj ->
  Sensor.is_finger_or_stylus obj = true ->
  only_contact_at report k ->
  Sensor.transducers s !! k = Some tr ->
  let s' := Sensor.handleReport report s in
  let lock' := Sensor.pressureLock s || engages s obj in
  Sensor.pressureLock s' = lock' /\
  Sensor.max_y s' = Sensor.max_y s /\
  Sensor.forceTouchMinPressure s' = Sensor.forceTouchMinPressure s /\
  Sensor.forceTouchEmulation s' = Sensor.forceTouchEmulation s /\
  exists tr',
    Sensor.transducers s' !! k = Some tr' /\
    TouchCoordinates.pressure (Transducer.currentCoordinates tr')
      = (if lock' then 255 else 0) /\
    Transducer.isPhysicalButtonDown tr' = Sensor.clickpadState s && negb lock' /\
    TouchCoordinates.x (Transducer.currentCoordinates tr')
      = (if Sensor.pressureLock s
         then TouchCoordinates.x (Transducer.currentCoordinates tr)
         else abs_object.x obj) /\
    TouchCoordinates.y (Transducer.currentCoordinates tr')
      = (if Sensor.pressureLock s
         then TouchCoordinates.y (Transducer.currentCoordinates tr)
         else u32 (Sensor.max_y s - abs_object.y obj)).
Proof.
  intros Hk Ho Hty Honly Htr s' lock'. subst s'.
  set (n := Z.to_nat (fingers report)) in *.
  destruct (first_loop_before_contact report s k k Honly ltac:(lia))
    as (Hl0 & Hc0 & Hs0).
  destruct (first_loop_upto_frame report k s) as (Hmy & Hfp & Hfe & Hcp & _).
  destruct (first_loop_after_contact report s k n Honly Hk) as (Hc1 & Hl1 & Hs1).
  destruct (first_loop_upto_frame report n s) as (Hmy1 & Hfp1 & Hfe1 & Hcp1 & _).
  rewrite first_loop_upto_S in Hc1, Hl1, Hs1.
  destruct (first_loop_upto report k s) as [sk ck]. cbn [fst snd] in *. subst ck.
  rewrite Htr in Hs0.
  unfold Sensor.first_loop_body in Hc1, Hl1, Hs1. rewrite Ho, Hs0 in Hc1, Hl1, Hs1.
  pose proof (first_loop_transducer_contact sk (timestamp report) k obj tr
                (Sensor.pressureLock sk) 0 Hty) as Hturn.
  destruct (Sensor.first_loop_transducer sk (timestamp report) k obj tr
              (Sensor.pressureLock sk) 0) as [[trk lockk] countk].
  cbv zeta in Hturn. change (0 + 1 =? 1) with true in Hturn.
  rewrite andb_true_r in Hturn.
  destruct Hturn as (-> & -> & Hp & Hb & Hx & Hy & _).
  cbn [fst snd Sensor.pressureLock Sensor.set_pressureLock] in Hc1, Hl1.
  assert (Hsk : Sensor.transducers
                  (Sensor.set_pressureLock (Sensor.pressureLock sk || engages sk obj)
                     (Sensor.set_transducers (<[k := trk]> (Sensor.transducers sk)) sk))
                  !! k = Some trk).
  { cbn. apply list_lookup_insert_eq. apply lookup_lt_Some in Hs0. exact Hs0. }
  cbn [fst] in Hs1. rewrite Hsk in Hs1. clear Hsk.
  assert (Heng : engages sk obj = engages s obj)
    by (unfold engages; rewrite Hcp, Hfe, Hfp; reflexivity).
  rewrite Heng, Hl0 in *. fold lock' in Hl1, Hp, Hb.
  unfold Sensor.handleReport. rewrite first_loop_is_upto. fold n.
  destruct (first_loop_upto report n s) as [s1 c1]. cbn [fst snd] in *. subst c1.
  change (0 + 1 =? 4) with false. change (0 + 1 =? 0) with false. cbn [andb].
  destruct (second_loop_slots n s1) as (_ & _ & _ & Hl2).
  destruct (second_loop_settings n s1) as (Hmy2 & Hfp2 & Hfe2 & _).
  destruct (second_loop_touch n s1 k trk Hs1) as (tr' & Hk' & Hsame).
  destruct (same_touch_fields _ _ Hsame) as (Hcur & _ & _ & Hbut).
  cbn. split; [congruence|]. split; [congruence|]. split; [congruence|].
  split; [congruence|].
  exists tr'. split; [exact Hk'|]. rewrite Hcur, Hbut.
  rewrite Hp, Hb, Hx, Hy, Hmy, Hcp. repeat split.
Qed.

(** An update that counts no finger or stylus clears the lock. *)
Lemma handleReport_no_contact report s :
  (forall i obj, objs report !! i = Some obj ->
     Sensor.is_finger_or_stylus obj = false) ->
  Sensor.pressureLock (Sensor.handleReport report s) = false.
Proof.
  intros Hnone. unfold Sensor.handleReport. rewrite first_loop_is_upto.
  set (n := Z.to_nat (fingers report)).
  destruct (first_loop_before_contact report s n n) as (_ & Hc & _);
    [intros i obj Ho _; exact (Hnone i obj Ho) | lia |].
  destruct (first_loop_upto report n s) as [s1 c]. cbn [snd] in Hc. subst c.
  reflexivity.
Qed.

(** What an update shows of the lock: [pressureLock] and, for the first
    two slots, whether the slot is valid, its pressure, its position and
    its button. *)
Definition lock_view (s : Sensor.t) : bool * list (bool * Z * Z * Z * bool) :=
  (Sensor.pressureLock s,
   map (fun tr => (Transducer.isValid tr,
                   TouchCoordinates.pressure (Transducer.currentCoordinates tr),
                   TouchCoordinates.x (Transducer.currentCoordinates tr),
                   TouchCoordinates.y (Transducer.currentCoordinates tr),
                   Transducer.isPhysicalButtonDown tr))
     (take 2 (Sensor.transducers s))).

(** C4, as stated, fails in three ways (threshold 80, click-pad pressed).
    - With force-touch emulation switched off, a valid contact with Z = 100
      does not engage the lock: its pressure is 0 and the button is down.
    - With emulation on, a contact with Z = 100 engages the lock; in the
      next update the same contact has widths 2 and 9 and fails the palm
      check: no valid contact remains, and the lock is still engaged.
    - After the lock was engaged by the contact of slot 0, a second valid
      contact appears in slot 1 with Z = 100 (the first one now has Z = 60):
      the lock is engaged after that update, not clear; in the update after,
      the second contact has moved and reports pressure 255 at its new
      position, not a frozen one. *)
Lemma pressure_lock_deviations :
  lock_view (Sensor.handleReport (report_of [finger_at 110 210 100 4 4] 1)
               (sensor_start true false false))
    = (false, [(true, 0, 110, 790, true); (false, 0, 0, 0, false)]) /\
  (let s1 := Sensor.handleReport (report_of [finger_at 110 210 100 4 4] 1)
               (sensor_start true true false) in
   let s2 := Sensor.handleReport (report_of [finger_at 110 210 50 2 9] 2) s1 in
   lock_view s1 = (true, [(true, 255, 110, 790, false); (false, 0, 0, 0, false)]) /\
   Forall (fun tr => Transducer.isValid tr = false) (Sensor.transducers s2) /\
   Sensor.pressureLock s2 = true) /\
  (let s1 := Sensor.handleReport (report_of [finger_at 110 210 100 4 4] 1)
               (sensor_start true true false) in
   let s2 := Sensor.handleReport
               (report_of [finger_at 110 210 60 4 4; finger_at 300 400 100 5 5] 2)
               s1 in
   let s3 := Sensor.handleReport
               (report_of [finger_at 110 210 60 4 4; finger_at 350 450 100 5 5] 3)
               s2 in
   lock_view s2 = (true, [(true, 255, 110, 790, false); (true, 255, 300, 600, false)]) /\
   lock_view s3 = (true, [(true, 255, 110, 790, false); (true, 255, 350, 550, false)])).
Proof.
  split; [vm_compute; reflexivity|]. split.
  - cbv zeta. split; [vm_compute; reflexivity|].
    split; [vm_compute; repeat constructor | vm_compute; reflexivity].
  - cbv zeta. split; vm_compute; reflexivity.
Qed.

(** C4, amended.  With force-touch emulation enabled, the lock engages
    when the Z of a valid contact (of any finger or stylus) exceeds the
    threshold while the click-pad is pressed.  A contact processed under
    the lock reports pressure 255, otherwise 0, and physical-button-down
    exactly when the click-pad is pressed and the lock is not set.  In a
    turn of the first loop the lock found is kept only for the first
    contact counted and then joined with the engage condition: a contact
    that is not the first one counted and does not meet the engage
    condition leaves the lock clear, and reports its live position.  In an
    update with a single finger or stylus, a lock that was engaged stays
    engaged and the slot keeps its position even if the contact moved, so
    that after the threshold was crossed the position stays the one of the
    crossing; an update that counts no finger or stylus clears the lock. *)
Theorem pressure_lock_behaviour :
  (forall s ts i obj tr lock count,
     Sensor.is_finger_or_stylus obj = true ->
     let '(tr', lock', count') :=
       Sensor.first_loop_transducer s ts i obj tr lock count in
     lock' = (lock && (count + 1 =? 1)) || engages s obj /\
     TouchCoordinates.pressure (Transducer.currentCoordinates tr')
       = (if lock' then 255 else 0) /\
     Transducer.isPhysicalButtonDown tr' = Sensor.clickpadState s && negb lock' /\
     (1 <= count ->
      lock' = engages s obj /\
      TouchCoordinates.x (Transducer.currentCoordinates tr') = abs_object.x obj /\
      TouchCoordinates.y (Transducer.currentCoordinates tr')
        = u32 (Sensor.max_y s - abs_object.y obj))) /\
  (forall report s k obj tr,
     (k < Z.to_nat (fingers report))%nat ->
     objs report !! k = Some obj ->
     Sensor.is_finger_or_stylus obj = true ->
     only_contact_at report k ->
     Sensor.transducers s !! k = Some tr ->
     let s' := Sensor.handleReport report s in
     let lock' := Sensor.pressureLock s || engages s obj in
     Sensor.pressureLock s' = lock' /\
     exists tr',
       Sensor.transducers s' !! k = Some tr' /\
       TouchCoordinates.pressure (Transducer.currentCoordinates tr')
         = (if lock' then 255 else 0) /\
       Transducer.isPhysicalButtonDown tr' = Sensor.clickpadState s && negb lock' /\
       TouchCoordinates.x (Transducer.currentCoordinates tr')
         = (if Sensor.pressureLock s
            then TouchCoordinates.x (Transducer.currentCoordinates tr)
            else abs_object.x obj) /\
       TouchCoordinates.y (Transducer.currentCoordinates tr')
         = (if Sensor.pressureLock s
            then TouchCoordinates.y (Transducer.currentCoordinates tr)
            else u32 (Sensor.max_y s - abs_object.y obj))) /\
  (forall report1 report2 s k obj1 obj2 tr clickpad,
     (k < Z.to_nat (fingers report1))%nat ->
     (k < Z.to_nat (fingers report2))%nat ->
     objs report1 !! k = Some obj1 -> objs report2 !! k = Some obj2 ->
     Sensor.is_finger_or_stylus obj1 = true ->
     Sensor.is_finger_or_stylus obj2 = true ->
     only_contact_at report1 k -> only_contact_at report2 k ->
     Sensor.transducers s !! k = Some tr ->
     Sensor.pressureLock s = false -> engages s obj1 = true ->
     let s1 := message_ClickpadSet clickpad (Sensor.handleReport report1 s) in
     let s2 := Sensor.handleReport report2 s1 in
     Sensor.pressureLock s2 = true /\
     exists tr2,
       Sensor.transducers s2 !! k = Some tr2 /\
       TouchCoordinates.pressure (Transducer.currentCoordinates tr2) = 255 /\
       TouchCoordinates.x (Transducer.currentCoordinates tr2) = abs_object.x obj1 /\
       TouchCoordinates.y (Transducer.currentCoordinates tr2)
         = u32 (Sensor.max_y s - abs_object.y obj1)) /\
  (forall report s,
     (forall i obj, objs report !! i = Some obj ->
        Sensor.is_finger_or_stylus obj = false) ->
     Sensor.pressureLock (Sensor.handleReport report s) = false).
Proof.
  split; [|split; [|split]].
  - intros s ts i obj tr lock count Hty.
    pose proof (first_loop_transducer_contact s ts i obj tr lock count Hty) as H.
    destruct (Sensor.first_loop_transducer s ts i obj tr lock count)
      as [[tr' lock'] count'].
    cbv zeta in H. destruct H as (_ & Hl & Hp & Hb & Hx & Hy & _).
    split; [exact Hl|]. split; [exact Hp|]. split; [exact Hb|].
    intros Hc. assert (E : (count + 1 =? 1) = false) by (apply Z.eqb_neq; lia).
    rewrite E, andb_false_r in *. cbn in Hl. auto.
  - intros report s k obj tr Hk Ho Hty Honly Htr.
    destruct (handleReport_single_contact report s k obj tr Hk Ho Hty Honly Htr)
      as (Hl & _ & _ & _ & Hslot).
    split; [exact Hl | exact Hslot].
  - intros report1 report2 s k obj1 obj2 tr clickpad Hk1 Hk2 Ho1 Ho2 Hty1 Hty2
      Honly1 Honly2 Htr Hl0 Heng.
    destruct (handleReport_single_contact report1 s k obj1 tr Hk1 Ho1 Hty1 Honly1 Htr)
      as (Hl1 & Hmy & _ & _ & tr1 & Hk1' & Hp1 & _ & Hx1 & Hy1).
    rewrite Hl0, Heng in *. cbn [orb] in *.
    set (s1 := message_ClickpadSet clickpad (Sensor.handleReport report1 s)).
    assert (Htr1 : Sensor.transducers s1 !! k = Some tr1) by exact Hk1'.
    assert (Hlock1 : Sensor.pressureLock s1 = true) by exact Hl1.
    destruct (handleReport_single_contact report2 s1 k obj2 tr1 Hk2 Ho2 Hty2 Honly2 Htr1)
      as (Hl2 & _ & _ & _ & tr2 & Hk2' & Hp2 & _ & Hx2 & Hy2).
    rewrite Hlock1 in *. cbn [orb] in *.
    split; [exact Hl2|]. exists tr2. split; [exact Hk2'|].
    split; [exact Hp2|]. split; congruence.
  - apply handleReport_no_contact.
Qed.

(** One contact in slot 0 that crosses the threshold and then moves. *)
Lemma pressure_lock_behaviour_witness :
  let s2 := Sensor.handleReport (report_of [finger_at 150 250 60 4 4] 2)
              (message_ClickpadSet false
                 (Sensor.handleReport (report_of [finger_at 110 210 90 4 4] 1)
                    (sensor_start true true false))) in
  Sensor.pressureLock s2 = true /\
  exists tr2, Sensor.transducers s2 !! 0%nat = Some tr2 /\
    TouchCoordinates.pressure (Transducer.currentCoordinates tr2) = 255 /\
    TouchCoordinates.x (Transducer.currentCoordinates tr2) = 110 /\
    TouchCoordinates.y (Transducer.currentCoordinates tr2) = 790.
Proof.
  destruct pressure_lock_behaviour as (_ & _ & Hfreeze & _).
  refine (Hfreeze (report_of [finger_at 110 210 90 4 4] 1)
            (report_of [finger_at 150 250 60 4 4] 2)
            (sensor_start true true false) 0%nat
            (finger_at 110 210 90 4 4) (finger_at 150 250 60 4 4)
            Transducer.zero false _ _ eq_refl eq_refl eq_refl eq_refl _ _
            eq_refl eq_refl eq_refl).
  - vm_compute. lia.
  - vm_compute. lia.
  - intros i obj Ho Hi.
    destruct i as [|i]; [contradiction|].
    change (replicate 9 abs_object.zero !! i = Some obj) in Ho.
    apply lookup_replicate in Ho as [-> _]. reflexivity.
  - intros i obj Ho Hi.
    destruct i as [|i]; [contradiction|].
    change (replicate 9 abs_object.zero !! i = Some obj) in Ho.
    apply lookup_replicate in Ho as [-> _]. reflexivity.
Defined.

(** * Further properties of the driver *)

(** ** After a successful initialisation *)

(** A call of [rmi_f11_initialize] that returns 0 made no failed read and
    leaves the object as [init_done] says. *)
Lemma initialize_success h bus IOMalloc qba cba o o' :
  call (rmi_f11_initialize h bus IOMalloc qba cba) o = (0, o') ->
  init_done o'.
Proof.
  intros Hcall.
  destruct (rmi_f11_initialize_outcome _ _ _ _ _ _ _ _ Hcall)
    as (l & _ & [Hab | [_ [Hre | [_ Hd]]]]).
  - apply aborted_neg in Hab. lia.
  - apply init_refused_nonzero in Hre. lia.
  - exact Hd.
Qed.

(** The packet of an initialised sensor holds the bitmap and 5 bytes per
    finger. *)
Lemma init_done_packet o' :
  init_done o' ->
  let s := sensor o' in
  1 <= nbr_fingers s /\
  ceil_div (nbr_fingers s) 4 + 5 * nbr_fingers s <= pkt_size s.
Proof.
  intros (Hp & Ha & Hn & Hs & Hnbr & Hpkt & _) s. subst s.
  pose proof (resolved_finger_count_pos _ Hn) as Hc.
  destruct (spec_attn_le_pkt (sens_query o') 0 Ha Hn Hs) as [Hle _].
  unfold spec_attn_size in Hle. rewrite Ha in Hle.
  rewrite Hnbr, Hpkt. split; [exact Hc | lia].
Qed.

Lemma land_abs_bytes_bound n : 0 <= Z.land n RMI_F11_ABS_BYTES <= 5.
Proof.
  unfold RMI_F11_ABS_BYTES.
  replace (Z.land n 5) with (Z.land (n mod 2 ^ 3) 5).
  - pose proof (Z.mod_pos_bound n (2 ^ 3) ltac:(lia)) as Hm.
    revert Hm. generalize (n mod 2 ^ 3). intros m Hm. change (2 ^ 3) with 8 in Hm.
    assert (Hc : m = 0 \/ m = 1 \/ m = 2 \/ m = 3 \/ m = 4 \/ m = 5 \/ m = 6 \/ m = 7)
      by lia.
    destruct Hc as [->|[->|[->|[->|[->|[->|[->| ->]]]]]]]; vm_compute; split; discriminate.
  - rewrite <- Z.land_ones by lia. rewrite <- Z.land_assoc. reflexivity.
Qed.

(** X1.  After a successful [rmi_f11_initialize] the clamp of [getReport]
    never fires and is never needed: the packet holds 5 bytes for each
    finger, so the number of slots decoded is the resolved finger count,
    which is also the minimum of that count and of the packet size divided
    by 5. *)
Theorem initialized_slot_count h bus IOMalloc qba cba o o' :
  call (rmi_f11_initialize h bus IOMalloc qba cba) o = (0, o') ->
  let s := sensor o' in
  1 <= nbr_fingers s /\
  report_fingers (nbr_fingers s) (pkt_size s) = nbr_fingers s /\
  report_fingers (nbr_fingers s) (pkt_size s)
    = Z.min (nbr_fingers s) (pkt_size s / RMI_F11_ABS_BYTES).
Proof.
  intros Hcall s. subst s.
  pose proof (initialize_success _ _ _ _ _ _ _ Hcall) as Hd.
  destruct (init_done_packet o' Hd) as [Hn Hp]. cbv zeta in Hn, Hp.
  destruct Hd as (_ & _ & Hnf & _).
  pose proof (ceil_div_nonneg (nbr_fingers (sensor o')) 4 ltac:(lia) ltac:(lia)) as Hc.
  pose proof (land_abs_bytes_bound (nbr_fingers (sensor o'))) as Hl.
  assert (Hrep : report_fingers (nbr_fingers (sensor o')) (pkt_size (sensor o'))
                 = nbr_fingers (sensor o')).
  { unfold report_fingers. cbv zeta.
    destruct (Z.gtb_spec (Z.land (nbr_fingers (sensor o')) RMI_F11_ABS_BYTES)
                (pkt_size (sensor o'))); [lia | reflexivity]. }
  split; [exact Hn|]. split; [exact Hrep|]. rewrite Hrep.
  unfold RMI_F11_ABS_BYTES.
  assert (nbr_fingers (sensor o') <= pkt_size (sensor o') / 5)
    by (apply Z.div_le_lower_bound; lia).
  lia.
Qed.

(** The two-finger pad: 11 bytes, 2 slots. *)
Lemma initialized_slot_count_witness :
  let s := sensor (snd (call (rmi_f11_initialize rmi_f11_h
                                (register_bus plain_pad no_failure) always 0 100)
                          F11_zero)) in
  1 <= nbr_fingers s /\
  report_fingers (nbr_fingers s) (pkt_size s) = nbr_fingers s /\
  report_fingers (nbr_fingers s) (pkt_size s)
    = Z.min (nbr_fingers s) (pkt_size s / RMI_F11_ABS_BYTES).
Proof.
  refine (initialized_slot_count rmi_f11_h (register_bus plain_pad no_failure)
            always 0 100 F11_zero _ _).
  vm_compute. reflexivity.
Defined.

(** ** The size of the query area and the allocation of the packet *)

(** What [rmi_f11_get_query_parameters] leaves alone, on every path: the
    object outside the capability record and the log, and the
    advanced-coordinate flag once it is set. *)
Definition query_frame (o o' : F11) : Prop :=
  same_outside_query o o' /\ (has_acm o = true -> has_acm o' = true).

Lemma query_frame_refl o : query_frame o o.
Proof. split; [apply same_outside_query_refl | auto]. Qed.

Lemma query_frame_trans o1 o2 o3 :
  query_frame o1 o2 -> query_frame o2 o3 -> query_frame o1 o3.
Proof.
  intros [H1 A1] [H2 A2].
  split; [exact (same_outside_query_trans _ _ _ H1 H2) | auto].
Qed.

Lemma frame_bind {A B} (m : Fn A) (f : A -> Fn B) o :
  wp m (fun _ o1 => query_frame o o1) o ->
  (forall a o1, wp (f a) (fun _ o2 => query_frame o1 o2) o1) ->
  wp (bind m f) (fun _ o2 => query_frame o o2) o.
Proof.
  intros Hm Hf. apply wp_bind. revert Hm. apply wp_mono.
  intros [v|a] o1 H1; [exact H1|].
  eapply wp_mono; [|apply Hf].
  intros r o2 H2. exact (query_frame_trans _ _ _ H1 H2).
Qed.

Ltac frame_end :=
  unfold query_frame, same_outside_query;
  cbv beta iota delta
    [sens_query sensor data_2d has_acm bus_log ctrl0_11 ctrl0_11_address
     rezero_wait_ms has_query9 has_query11 has_query12 has_query27 has_query28];
  repeat split; try reflexivity; auto.

Section QueryFrame.

Variable h : F11_hpp.
Variable bus : RMIBus.
Variable qba : Z.

Lemma query_block_first_frame o :
  wp (query_block_first h bus qba) (fun _ o' => query_frame o o') o.
Proof.
  unfold query_block_first.
  destruct o as [q9 q11 q12 q27 q28 acm q sens d2d ctrl ctrla rz log].
  run_io.
  destruct (bus_readBlock bus log qba RMI_F11_QUERY_SIZE) as [rc b].
  destruct (rc <? 0); cbv beta iota; frame_end.
Qed.

Lemma query_block_abs_frame size o :
  wp (query_block_abs h bus qba size) (fun _ o' => query_frame o o') o.
Proof.
  unfold query_block_abs.
  destruct o as [q9 q11 q12 q27 q28 acm q sens d2d ctrl ctrla rz log].
  run_io. destruct (has_abs q); [|cbv beta iota; frame_end].
  destruct (bus_read bus log (qba + size)) as [rc b].
  destruct (rc <? 0); cbv beta iota; frame_end.
Qed.

Lemma query_block_rel_frame size o :
  wp (query_block_rel bus qba size) (fun _ o' => query_frame o o') o.
Proof.
  unfold query_block_rel.
  destruct o as [q9 q11 q12 q27 q28 acm q sens d2d ctrl ctrla rz log].
  run_io. destruct (has_rel q); [|cbv beta iota; frame_end].
  destruct (bus_read bus log (qba + size)) as [rc b].
  cbv beta iota. destruct (rc <? 0); cbv beta iota; frame_end.
Qed.

Lemma query_block_gestures_frame size o :
  wp (query_block_gestures h bus qba size) (fun _ o' => query_frame o o') o.
Proof.
  unfold query_block_gestures.
  destruct o as [q9 q11 q12 q27 q28 acm q sens d2d ctrl ctrla rz log].
  run_io. destruct (has_gestures q); [|cbv beta iota; frame_end].
  destruct (bus_readBlock bus log (qba + size) RMI_F11_QUERY_GESTURE_SIZE) as [rc b].
  destruct (rc <? 0); cbv beta iota; frame_end.
Qed.

Lemma query_block_one_byte_frame present size o :
  wp (query_block_one_byte bus present qba size) (fun _ o' => query_frame o o') o.
Proof.
  unfold query_block_one_byte.
  destruct o as [q9 q11 q12 q27 q28 acm q sens d2d ctrl ctrla rz log].
  run_io. destruct present; [|cbv beta iota; frame_end].
  destruct (bus_read bus log (qba + size)) as [rc b].
  destruct (rc <? 0); cbv beta iota; frame_end.
Qed.

Lemma query_block_touch_shapes_frame size o :
  wp (query_block_touch_shapes h bus qba size) (fun _ o' => query_frame o o') o.
Proof.
  unfold query_block_touch_shapes.
  destruct o as [q9 q11 q12 q27 q28 acm q sens d2d ctrl ctrla rz log].
  run_io. destruct (has_touch_shapes q); [|cbv beta iota; frame_end].
  destruct (bus_read bus log (qba + size)) as [rc b].
  destruct (rc <? 0); cbv beta iota; frame_end.
Qed.

Lemma query_block_12_frame size o :
  wp (query_block_12 h bus qba size) (fun _ o' => query_frame o o') o.
Proof.
  unfold query_block_12.
  destruct o as [q9 q11 q12 q27 q28 acm q sens d2d ctrl ctrla rz log].
  run_io. destruct q12; [|cbv beta iota; frame_end].
  destruct (bus_read bus log (qba + size)) as [rc b].
  destruct (rc <? 0); cbv beta iota; frame_end.
Qed.

Lemma query_block_physical_props_frame size o :
  wp (query_block_physical_props bus qba size) (fun _ o' => query_frame o o') o.
Proof.
  unfold query_block_physical_props.
  destruct o as [q9 q11 q12 q27 q28 acm q sens d2d ctrl ctrla rz log].
  run_io. destruct (has_physical_props q); [|cbv beta iota; frame_end].
  destruct (bus_readBlock bus log (qba + size) 4) as [rc b].
  destruct (rc <? 0); cbv beta iota; frame_end.
Qed.

Lemma query_block_27_frame size o :
  wp (query_block_27 size) (fun _ o' => query_frame o o') o.
Proof.
  unfold query_block_27.
  destruct o as [q9 q11 q12 q27 q28 acm q sens d2d ctrl ctrla rz log].
  run_io. destruct q27; cbv beta iota; frame_end.
Qed.

Lemma query_block_28_frame size q36 o :
  wp (query_block_28 bus qba size q36) (fun _ o' => query_frame o o') o.
Proof.
  unfold query_block_28.
  destruct o as [q9 q11 q12 q27 q28 acm q sens d2d ctrl ctrla rz log].
  run_io. destruct q28; [|cbv beta iota; frame_end].
  destruct (bus_read bus log (qba + size)) as [rc b].
  destruct (rc <? 0); cbv beta iota; frame_end.
Qed.

Lemma query_block_36_frame size q36 o :
  wp (query_block_36 bus qba size q36) (fun _ o' => query_frame o o') o.
Proof.
  unfold query_block_36.
  destruct o as [q9 q11 q12 q27 q28 acm q sens d2d ctrl ctrla rz log].
  run_io. destruct q36; [|cbv beta iota; frame_end].
  destruct (bus_read bus log (qba + (size + 2))) as [rc b].
  destruct (rc <? 0); cbv beta iota; [frame_end|].
  destruct (truthy (Z.land (u8 b) (BIT 5))); cbv beta iota; frame_end.
Qed.

Lemma member_frame {A} (f : F11 -> A) o :
  wp (member f) (fun _ o' => query_frame o o') o.
Proof. apply wp_member. apply query_frame_refl. Qed.

Lemma rmi_f11_get_query_parameters_frame o :
  wp (rmi_f11_get_query_parameters h bus qba) (fun _ o' => query_frame o o') o.
Proof.
  unfold rmi_f11_get_query_parameters. cbv zeta.
  apply frame_bind; [apply query_block_first_frame | intros ? ?].
  apply frame_bind; [apply query_block_abs_frame | intros ? ?].
  apply frame_bind; [apply query_block_rel_frame | intros ? ?].
  apply frame_bind; [apply query_block_gestures_frame | intros ? ?].
  apply frame_bind; [apply member_frame | intros ? ?].
  apply frame_bind; [apply query_block_one_byte_frame | intros ? ?].
  apply frame_bind; [apply query_block_touch_shapes_frame | intros ? ?].
  apply frame_bind; [apply member_frame | intros ? ?].
  apply frame_bind; [apply query_block_one_byte_frame | intros ? ?].
  apply frame_bind; [apply query_block_12_frame | intros ? ?].
  apply frame_bind; [apply member_frame | intros ? ?].
  apply frame_bind; [apply query_block_one_byte_frame | intros ? ?].
  apply frame_bind; [apply member_frame | intros ? ?].
  apply frame_bind; [apply query_block_one_byte_frame | intros ? ?].
  apply frame_bind; [apply query_block_physical_props_frame | intros ? ?].
  apply frame_bind; [apply query_block_27_frame | intros ? ?].
  apply frame_bind; [apply query_block_28_frame | intros ? ?].
  apply frame_bind; [apply query_block_36_frame | intros ? ?].
  apply wp_Return. apply query_frame_refl.
Qed.

End QueryFrame.

(** X3.  Whatever the bus answers, also when a read fails,
    [rmi_f11_get_query_parameters] changes nothing of the object but the
    capability record, the bus log and the advanced-coordinate flag, which
    it can set but never clears.  It either stops at its first failed read
    and returns that read's negative code, or makes no failed read and
    returns the number of query registers, which is between 4 and 29: the 4
    of the first block and the registers of each block whose gate is set,
    with the flag as it was, or 2 more than that, which happens only when
    query 28 is present. *)
Theorem query_area_size h bus qba o rc o' :
  call (rmi_f11_get_query_parameters h bus qba) o = (rc, o') ->
  same_outside_query o o' /\
  (has_acm o = true -> has_acm o' = true) /\
  exists l, bus_log o' = bus_log o ++ l /\
    ((aborted rc l /\ rc < 0) \/
     (clean l /\ 4 <= rc <= 29 /\
      ((rc = query_size_upto 11 o' /\ has_acm o' = has_acm o) \/
       (has_query28 o' = true /\ rc = query_size_upto 11 o' + 2)))).
Proof.
  intros Hcall.
  pose proof (rmi_f11_get_query_parameters_frame h bus qba o) as [Hsame Hacm].
  pose proof (rmi_f11_get_query_parameters_spec h bus qba o) as H.
  unfold wp in H, Hsame, Hacm. unfold call in Hcall.
  destruct (rmi_f11_get_query_parameters h bus qba o) as [[v|v] o1];
    simpl in H, Hsame, Hacm; inversion Hcall; subst;
    (split; [exact Hsame|]); (split; [exact Hacm|]);
    destruct H as (l & Hl & H); exists l; (split; [exact Hl|]).
  - destruct H as [Hab | [Hc Hres]].
    + left. split; [exact Hab | exact (aborted_neg _ _ Hab)].
    + right. split; [exact Hc|].
      destruct Hres as (_ & _ & _ & _ & q36 & H28 & Hq36 & Hsize).
      pose proof (query_size_upto_bounds 11 o') as Hb.
      destruct q36; cbn in Hsize.
      * split; [lia|]. right. split; [|lia].
        destruct (has_query28 o') eqn:E; [reflexivity|].
        specialize (H28 eq_refl). discriminate.
      * split; [lia|]. left. split; [lia | apply Hq36; reflexivity].
  - destruct H as [_ []].
Qed.

(** The pad with the advanced coordinate mode: 20 registers. *)
Definition acm_query_start : F11 :=
  Eval vm_compute in with_query_flags false false true false true F11_zero.

Definition acm_query_run : Z * F11 :=
  Eval vm_compute in
    call (rmi_f11_get_query_parameters rmi_f11_h (register_bus acm_pad no_failure) 1)
      acm_query_start.

Lemma query_area_size_witness :
  fst acm_query_run = 20 /\
  same_outside_query acm_query_start (snd acm_query_run) /\
  (has_acm acm_query_start = true -> has_acm (snd acm_query_run) = true) /\
  exists l, bus_log (snd acm_query_run) = bus_log acm_query_start ++ l /\
    ((aborted 20 l /\ 20 < 0) \/
     (clean l /\ 4 <= 20 <= 29 /\
      ((20 = query_size_upto 11 (snd acm_query_run) /\
        has_acm (snd acm_query_run) = has_acm acm_query_start) \/
       (has_query28 (snd acm_query_run) = true /\
        20 = query_size_upto 11 (snd acm_query_run) + 2)))).
Proof.
  split; [reflexivity|].
  refine (query_area_size rmi_f11_h (register_bus acm_pad no_failure) 1
            acm_query_start 20 (snd acm_query_run) _).
  vm_compute. reflexivity.
Defined.

(** X4.  [f11_2d_construct_data] makes no bus call and returns 0 exactly
    when [IOMalloc] grants the packet size it computed; the buffer then has
    that size and the finger states start at its first byte.  When
    [IOMalloc] refuses, it returns [-ENOMEM] with the sizes already written
    to the sensor but the data offsets left as they were. *)
Theorem construct_data_allocation IOMalloc o r o' :
  0 <= nr_fingers (sens_query o) ->
  (has_touch_shapes (sens_query o) = true -> 0 <= nr_touch_shapes (sens_query o)) ->
  call (f11_2d_construct_data IOMalloc) o = (r, o') ->
  bus_log o' = bus_log o /\
  pkt_size (sensor o') = spec_pkt_size (sens_query o) /\
  (IOMalloc (spec_pkt_size (sens_query o)) = true ->
     r = 0 /\ data_pkt (sensor o') = Some (pkt_size (sensor o')) /\
     f_state (data_2d o') = Some 0) /\
  (IOMalloc (spec_pkt_size (sens_query o)) = false ->
     r = - ENOMEM /\ data_pkt (sensor o') = None /\ data_2d o' = data_2d o).
Proof.
  intros Hn Hs Hcall.
  pose proof (construct_data_layout IOMalloc o Hn Hs) as H.
  unfold wp in H. unfold call in Hcall.
  assert (Hc : constructed IOMalloc o r o').
  { destruct (f11_2d_construct_data IOMalloc o) as [[v|v] o1];
      simpl in H; inversion Hcall; subst; exact H. }
  clear H Hcall. unfold constructed in Hc. cbv zeta in Hc.
  destruct Hc as (_ & _ & Hlog & _ & Hpkt & _ & _ & _ & _ & _ & Hres).
  split; [exact Hlog|]. split; [exact Hpkt|].
  destruct Hres as [(-> & Hm & Hd & Hf & _) | (-> & Hm & Hd & H2d)];
    (split; intros Hm'; [|]); try congruence.
  - rewrite Hpkt. auto.
  - auto.
Qed.

(** A record with two fingers and absolute data, and an allocator that
    grants nothing above 8 bytes: the 11 bytes are refused. *)
Definition small_allocator (n : Z) : bool := n <=? 8.

Definition two_finger_record : F11 :=
  Eval vm_compute in
    with_sens_query (set_query1 1 false true false (sens_query F11_zero)) F11_zero.

Definition refused_allocation : Z * F11 :=
  Eval vm_compute in call (f11_2d_construct_data small_allocator) two_finger_record.

Lemma construct_data_allocation_witness :
  fst refused_allocation = - ENOMEM /\
  pkt_size (sensor (snd refused_allocation)) = 11 /\
  data_pkt (sensor (snd refused_allocation)) = None.
Proof.
  assert (Hn : 0 <= nr_fingers (sens_query two_finger_record))
    by (vm_compute; discriminate).
  assert (Hs : has_touch_shapes (sens_query two_finger_record) = true ->
               0 <= nr_touch_shapes (sens_query two_finger_record))
    by (intros H; discriminate H).
  assert (Hcall : call (f11_2d_construct_data small_allocator) two_finger_record
                  = (fst refused_allocation, snd refused_allocation))
    by (vm_compute; reflexivity).
  destruct (construct_data_allocation small_allocator two_finger_record _ _
              Hn Hs Hcall) as (_ & Hpkt & _ & Hno).
  destruct (Hno ltac:(vm_compute; reflexivity)) as (Hr & Hd & _).
  split; [exact Hr|]. split; [|exact Hd].
  rewrite Hpkt. vm_compute. reflexivity.
Defined.

(** ** The write of the control registers *)

(** X5.  The result of the final [f11_write_control_regs] is only logged:
    when no read failed, the device has physical-size data and absolute
    support and the packet buffer was allocated, [rmi_f11_initialize]
    returns 0 whatever the write returned.  It never returns a positive
    value. *)
Theorem initialize_ignores_write_result h bus IOMalloc qba cba o rc o' :
  call (rmi_f11_initialize h bus IOMalloc qba cba) o = (rc, o') ->
  rc <= 0 /\
  exists l, bus_log o' = bus_log o ++ l /\
    (clean l ->
     has_physical_props (sens_query o') = true -> has_abs (sens_query o') = true ->
     data_pkt (sensor o') <> None -> rc = 0).
Proof.
  intros Hcall.
  destruct (rmi_f11_initialize_outcome _ _ _ _ _ _ _ _ Hcall) as (l & Hl & Hout).
  split.
  - destruct Hout as [Hab | [_ [Hre | [-> _]]]].
    + apply aborted_neg in Hab. lia.
    + apply init_refused_nonzero in Hre. lia.
    + lia.
  - exists l. split; [exact Hl|]. intros Hc Hp Ha Hbuf.
    destruct Hout as [Hab | [_ [Hre | [-> _]]]].
    + exfalso. exact (aborted_not_clean _ _ Hab Hc).
    + destruct Hre as [[_ [H|H]] | (_ & _ & _ & H)]; congruence.
    + reflexivity.
Qed.

(** The two-finger pad behind a bus that refuses every write. *)
Definition write_refusing_bus : RMIBus := {|
  bus_read := bus_read (register_bus plain_pad no_failure);
  bus_readBlock := bus_readBlock (register_bus plain_pad no_failure);
  bus_blockWrite := fun _ _ _ => -5
|}.

Definition write_refused : Z * F11 :=
  Eval vm_compute in
    call (rmi_f11_initialize rmi_f11_h write_refusing_bus always 0 100) F11_zero.

Lemma initialize_ignores_write_result_witness :
  fst write_refused = 0 /\
  exists ev, last (bus_log (snd write_refused)) = Some ev /\
             is_read ev = false /\ ev_rc ev = -5.
Proof.
  destruct (initialize_ignores_write_result rmi_f11_h write_refusing_bus always
              0 100 F11_zero (fst write_refused) (snd write_refused))
    as (_ & l & Hl & H).
  - vm_compute. reflexivity.
  - split.
    + apply H.
      * assert (El : l = bus_log (snd write_refused)) by (symmetry; exact Hl).
        rewrite El. vm_compute.
        repeat (constructor;
                [intros [H1 H2]; first [discriminate H1 | discriminate H2]|]).
        constructor.
      * reflexivity.
      * reflexivity.
      * discriminate.
    + eexists. split; [vm_compute; reflexivity|]. split; reflexivity.
Defined.

(** ** The report assembled by [getReport] *)

(** The loop of [getReport] after [n] turns. *)
Definition getReport_upto (data_pkt : list Z) (abs_pos : Z) (n : nat)
    (report : RMI2DSensorReport) : RMI2DSensorReport :=
  foldl (fun r i => getReport_slot data_pkt abs_pos i r) report (seq 0 n).

Lemma getReport_upto_S data_pkt abs_pos n report :
  getReport_upto data_pkt abs_pos (S n) report =
  getReport_slot data_pkt abs_pos n (getReport_upto data_pkt abs_pos n report).
Proof.
  unfold getReport_upto. rewrite seq_S, foldl_app. reflexivity.
Qed.

(** What a slot holds after its turn. *)
Definition slot_decoded (data_pkt : list Z) (abs_pos : Z) (i : nat)
    (old : abs_object.t) : abs_object.t :=
  let st := rmi_f11_parse_finger_state data_pkt (Z.of_nat i) in
  if st =? F11_RESERVED then old
  else decode_abs
         (fun k => pkt_byte data_pkt (abs_pos + Z.of_nat i * RMI_F11_ABS_BYTES + k))
         (if st =? F11_PRESENT then RMI_2D_OBJECT_FINGER else RMI_2D_OBJECT_NONE).

Lemma getReport_slot_frame data_pkt abs_pos i report :
  let r' := getReport_slot data_pkt abs_pos i report in
  timestamp r' = timestamp report /\ fingers r' = fingers report /\
  length (objs r') = length (objs report) /\
  (forall j, j <> i -> objs r' !! j = objs report !! j) /\
  (forall old, objs report !! i = Some old ->
     objs r' !! i = Some (slot_decoded data_pkt abs_pos i old)).
Proof.
  unfold getReport_slot, slot_decoded. cbv zeta.
  destruct (rmi_f11_parse_finger_state data_pkt (Z.of_nat i) =? F11_RESERVED).
  - repeat split; auto.
  - cbn [timestamp fingers objs]. rewrite length_insert.
    repeat split.
    + intros j Hj. apply list_lookup_insert_ne. auto.
    + intros old Ho. apply list_lookup_insert_eq. eapply lookup_lt_Some. exact Ho.
Qed.

Lemma getReport_upto_frame data_pkt abs_pos n report :
  let r' := getReport_upto data_pkt abs_pos n report in
  timestamp r' = timestamp report /\ fingers r' = fingers report /\
  length (objs r') = length (objs report) /\
  (forall j, (n <= j)%nat -> objs r' !! j = objs report !! j) /\
  (forall i old, (i < n)%nat -> objs report !! i = Some old ->
     objs r' !! i = Some (slot_decoded data_pkt abs_pos i old)).
Proof.
  induction n as [|n IH]; cbv zeta.
  - repeat split; auto. intros i old Hi. lia.
  - rewrite getReport_upto_S.
    destruct IH as (Hts & Hf & Hlen & Hhigh & Hlow).
    destruct (getReport_slot_frame data_pkt abs_pos n
                (getReport_upto data_pkt abs_pos n report))
      as (Hts' & Hf' & Hlen' & Hne & Heq).
    split; [congruence|]. split; [congruence|]. split; [congruence|]. split.
    + intros j Hj. rewrite Hne by lia. apply Hhigh. lia.
    + intros i old Hi Ho. destruct (Nat.eq_dec i n) as [->|Hn].
      * apply Heq. rewrite Hhigh by lia. exact Ho.
      * rewrite Hne by exact Hn. apply Hlow; [lia | exact Ho].
Qed.

(** A packet of a two-finger pad: slot 0 present, slot 1 inaccurate. *)
Definition two_finger_layout : RMI2DSensor_layout :=
  {| nbr_fingers := 2; pkt_size := 11; attn_size := 11; x_mm := 100; y_mm := 60;
     max_x := 2047; max_y := 1023; data_pkt := Some 11 |}.

Definition two_finger_packet : list Z := [9; 171; 18; 60; 149; 77; 10; 20; 33; 68; 50].

(** [getReport] is its loop, the uptime and the slot count. *)
Lemma getReport_assemble_fields s abs_pos data_pkt now report :
  let n := report_fingers (nbr_fingers s) (pkt_size s) in
  let r' := getReport_assemble s abs_pos data_pkt now report in
  objs r' = objs (getReport_upto data_pkt abs_pos (Z.to_nat n) report) /\
  fingers r' = n /\ timestamp r' = now.
Proof. repeat split. Qed.

(** ** The number of slots of a report *)




(** ** The bytes [getReport] reads *)






(** X6.  The report [getReport] delivers carries the uptime and the number
    of slots gone through; each of these slots holds the decoding of the 5
    bytes at [abs_pos + 5 * i] with type finger when its state is "present"
    and type none otherwise, except that a slot whose state is the reserved
    one keeps what the report member held; the slots above are not
    written. *)
Theorem getReport_decodes_slots s abs_pos data_pkt now report :
  let r' := getReport_assemble s abs_pos data_pkt now report in
  let n := report_fingers (nbr_fingers s) (pkt_size s) in
  timestamp r' = now /\ fingers r' = n /\
  length (objs r') = length (objs report) /\
  (forall j, (Z.to_nat n <= j)%nat -> objs r' !! j = objs report !! j) /\
  (forall i old, (i < Z.to_nat n)%nat -> objs report !! i = Some old ->
     objs r' !! i = Some (slot_decoded data_pkt abs_pos i old)).
Proof.
  cbv zeta.
  destruct (getReport_assemble_fields s abs_pos data_pkt now report)
    as (Ho & Hf & Ht).
  cbv zeta in Ho, Hf, Ht. rewrite Ho, Hf, Ht.
  destruct (getReport_upto_frame data_pkt abs_pos
              (Z.to_nat (report_fingers (nbr_fingers s) (pkt_size s))) report)
    as (_ & _ & Hlen & Hhigh & Hlow).
  repeat split; auto.
Qed.

Lemma getReport_decodes_slots_witness :
  objs (getReport_assemble two_finger_layout 1 two_finger_packet 7 report_zero)
    !! 0%nat
  = Some (slot_decoded two_finger_packet 1 0 abs_object.zero).
Proof.
  refine (proj2 (proj2 (proj2 (proj2
            (getReport_decodes_slots two_finger_layout 1 two_finger_packet 7
               report_zero)))) 0%nat abs_object.zero _ eq_refl).
  vm_compute. lia.
Defined.

(** X7.  [getReport] never produces a stylus: starting from the zeroed
    report member, every object of the report it delivers has type finger
    or none, and a finger is found only in a slot that was gone through and
    whose state in the packet is "present".  A contact in the "inaccurate"
    state is delivered with type none. *)
Theorem getReport_finger_only_when_present s abs_pos data_pkt now i obj :
  objs (getReport_assemble s abs_pos data_pkt now report_zero) !! i = Some obj ->
  abs_object.type obj <> RMI_2D_OBJECT_STYLUS /\
  (abs_object.type obj = RMI_2D_OBJECT_FINGER ->
     (i < Z.to_nat (report_fingers (nbr_fingers s) (pkt_size s)))%nat /\
     rmi_f11_parse_finger_state data_pkt (Z.of_nat i) = F11_PRESENT) /\
  Sensor.is_finger_or_stylus obj
    = match abs_object.type obj with RMI_2D_OBJECT_FINGER => true | _ => false end.
Proof.
  intros Ho.
  destruct (getReport_assemble_fields s abs_pos data_pkt now report_zero)
    as (Hobjs & _ & _).
  cbv zeta in Hobjs. rewrite Hobjs in Ho. clear Hobjs.
  destruct (getReport_upto_frame data_pkt abs_pos
              (Z.to_nat (report_fingers (nbr_fingers s) (pkt_size s))) report_zero)
    as (_ & _ & Hlen & Hhigh & Hlow).
  cbv zeta in *.
  set (n := Z.to_nat (report_fingers (nbr_fingers s) (pkt_size s))) in *.
  assert (Hold : exists old, objs report_zero !! i = Some old).
  { apply lookup_lt_is_Some_2. rewrite <- Hlen. eapply lookup_lt_Some. exact Ho. }
  destruct Hold as [old Hold].
  assert (Hz : old = abs_object.zero).
  { cbn [report_zero objs] in Hold. apply lookup_replicate in Hold as [-> _].
    reflexivity. }
  subst old.
  destruct (Nat.lt_ge_cases i n) as [Hi | Hi].
  - rewrite (Hlow i _ Hi Hold) in Ho. inversion Ho as [Hobj]. clear Ho.
    unfold slot_decoded. cbv zeta.
    destruct (Z.eqb_spec (rmi_f11_parse_finger_state data_pkt (Z.of_nat i))
                F11_RESERVED) as [Er | Er].
    + cbn. split; [discriminate|]. split; [discriminate | reflexivity].
    + destruct (Z.eqb_spec (rmi_f11_parse_finger_state data_pkt (Z.of_nat i))
                  F11_PRESENT) as [Ep | Ep]; cbn.
      * split; [discriminate|]. split; [auto | reflexivity].
      * split; [discriminate|]. split; [discriminate | reflexivity].
  - rewrite (Hhigh i Hi), Hold in Ho. inversion Ho. cbn.
    split; [discriminate|]. split; [discriminate | reflexivity].
Qed.

Lemma getReport_finger_only_when_present_witness :
  (0 < Z.to_nat (report_fingers (nbr_fingers two_finger_layout)
                   (pkt_size two_finger_layout)))%nat /\
  rmi_f11_parse_finger_state two_finger_packet (Z.of_nat 0) = F11_PRESENT.
Proof.
  refine (proj1 (proj2 (getReport_finger_only_when_present two_finger_layout 1
                          two_finger_packet 7 0
                          (decode_abs (fun k => pkt_byte two_finger_packet (1 + k))
                             RMI_2D_OBJECT_FINGER) _)) eq_refl).
  vm_compute. reflexivity.
Defined.

(** X8.  The fields decoded from five bytes fit their widths: X and Y are
    12-bit values, Z an 8-bit value, the widths 4-bit values; the difference
    of the widths that the palm check compares with 3 is below 16. *)
Theorem decode_abs_ranges pos ty :
  (forall k, 0 <= pos k < 256) ->
  let o := decode_abs pos ty in
  0 <= abs_object.x o < 4096 /\ 0 <= abs_object.y o < 4096 /\
  0 <= abs_object.z o < 256 /\
  0 <= abs_object.wx o < 16 /\ 0 <= abs_object.wy o < 16 /\
  Z.abs (abs_object.wx o - abs_object.wy o) < 16.
Proof.
  intros Hb o.
  destruct (decode_abs_fields pos ty Hb) as (Hx & Hy & Hz & Hwx & Hwy).
  fold o in Hx, Hy, Hz, Hwx, Hwy. rewrite Hx, Hy, Hz, Hwx, Hwy.
  pose proof (Hb 0) as B0. pose proof (Hb 1) as B1. pose proof (Hb 2) as B2.
  pose proof (Hb 3) as B3. pose proof (Hb 4) as B4.
  pose proof (Z.mod_pos_bound (pos 2) 16 ltac:(lia)) as M2.
  pose proof (Z.mod_pos_bound (pos 3) 16 ltac:(lia)) as M3.
  assert (D2 : 0 <= pos 2 / 16 < 16)
    by (split; [apply Z.div_pos; lia | apply Z.div_lt_upper_bound; lia]).
  assert (D3 : 0 <= pos 3 / 16 < 16)
    by (split; [apply Z.div_pos; lia | apply Z.div_lt_upper_bound; lia]).
  repeat split; lia.
Qed.

Lemma decode_abs_ranges_witness :
  let o := decode_abs (fun k => pkt_byte two_finger_packet (1 + k)) RMI_2D_OBJECT_FINGER in
  0 <= abs_object.x o < 4096 /\ 0 <= abs_object.y o < 4096 /\
  0 <= abs_object.z o < 256 /\
  0 <= abs_object.wx o < 16 /\ 0 <= abs_object.wy o < 16 /\
  Z.abs (abs_object.wx o - abs_object.wy o) < 16.
Proof.
  apply (decode_abs_ranges (fun k => pkt_byte two_finger_packet (1 + k))
           RMI_2D_OBJECT_FINGER).
  intros k. unfold pkt_byte. destruct (1 + k <? 0); [lia | apply u8_range].
Defined.

(** ** What an update leaves alone *)

(** The members an update never writes. *)
Definition same_settings (s s' : Sensor.t) : Prop :=
  Sensor.max_y s' = Sensor.max_y s /\
  Sensor.forceTouchMinPressure s' = Sensor.forceTouchMinPressure s /\
  Sensor.forceTouchEmulation s' = Sensor.forceTouchEmulation s /\
  Sensor.disableWhileTypingTimeout s' = Sensor.disableWhileTypingTimeout s /\
  Sensor.clickpadState s' = Sensor.clickpadState s /\
  Sensor.touchpadEnable s' = Sensor.touchpadEnable s /\
  Sensor.lastKeyboardTS s' = Sensor.lastKeyboardTS s.

Lemma same_settings_refl s : same_settings s s.
Proof. repeat split. Qed.

Lemma same_settings_trans s1 s2 s3 :
  same_settings s1 s2 -> same_settings s2 s3 -> same_settings s1 s3.
Proof.
  unfold same_settings. intros (?&?&?&?&?&?&?) (?&?&?&?&?&?&?).
  repeat split; congruence.
Qed.

Lemma first_loop_body_same_settings report st i :
  same_settings (fst st) (fst (Sensor.first_loop_body report st i)) /\
  length (Sensor.freeFingerTypes (fst (Sensor.first_loop_body report st i)))
    = length (Sensor.freeFingerTypes (fst st)).
Proof.
  destruct st as [s count]. unfold Sensor.first_loop_body.
  destruct (objs report !! i); [|split; [apply same_settings_refl | reflexivity]].
  destruct (Sensor.transducers s !! i);
    [|split; [apply same_settings_refl | reflexivity]].
  destruct (Sensor.first_loop_transducer s (timestamp report) i t t0
              (Sensor.pressureLock s) count) as [[tr' lock] count'].
  cbn. repeat split.
Qed.

Lemma first_loop_upto_same_settings report n s :
  same_settings s (fst (first_loop_upto report n s)).
Proof.
  induction n as [|n IH]; [apply same_settings_refl|].
  rewrite first_loop_upto_S.
  eapply same_settings_trans; [exact IH|].
  apply first_loop_body_same_settings.
Qed.

Lemma setThumbFingerType_same_settings fingers s :
  same_settings s (Sensor.setThumbFingerType fingers s) /\
  length (Sensor.freeFingerTypes (Sensor.setThumbFingerType fingers s))
    = length (Sensor.freeFingerTypes s) /\
  length (Sensor.transducers (Sensor.setThumbFingerType fingers s))
    = length (Sensor.transducers s).
Proof.
  unfold Sensor.setThumbFingerType.
  destruct (snd (Sensor.thumb_search (Sensor.transducers s) (Z.to_nat fingers)));
    [|split; [apply same_settings_refl | split; reflexivity]].
  destruct (Sensor.transducers s !! n);
    [|split; [apply same_settings_refl | split; reflexivity]].
  cbn. split; [repeat split|]. split.
  - destruct (negb _); rewrite ?length_insert; reflexivity.
  - unfold Sensor.transducers. rewrite length_insert. reflexivity.
Qed.

Lemma second_loop_body_same_settings s i :
  same_settings s (Sensor.second_loop_body s i) /\
  length (Sensor.freeFingerTypes (Sensor.second_loop_body s i))
    = length (Sensor.freeFingerTypes s).
Proof.
  unfold Sensor.second_loop_body.
  destruct (Sensor.transducers s !! i);
    [|split; [apply same_settings_refl | reflexivity]].
  destruct (Transducer.isValid t).
  - destruct (Nat.eqb _ _); [|split; [apply same_settings_refl | reflexivity]].
    pose proof (getFingerType_spec (Sensor.freeFingerTypes s)) as Hg.
    destruct (Sensor.getFingerType (Sensor.freeFingerTypes s)) as [ty free].
    destruct Hg as [_ ->]. cbn. split; [repeat split|].
    destruct (Nat.eqb ty _); rewrite ?length_insert; reflexivity.
  - cbn. split; [repeat split|].
    destruct (negb _); rewrite ?length_insert; reflexivity.
Qed.

Lemma second_loop_same_settings n s :
  same_settings s (Sensor.second_loop n s) /\
  length (Sensor.freeFingerTypes (Sensor.second_loop n s))
    = length (Sensor.freeFingerTypes s).
Proof.
  induction n as [|n [IH1 IH2]]; [split; [apply same_settings_refl | reflexivity]|].
  rewrite second_loop_S.
  destruct (second_loop_body_same_settings (Sensor.second_loop n s) n) as [H1 H2].
  split; [eapply same_settings_trans; eassumption | congruence].
Qed.

(** The sensor between the loops of [handleReport]. *)
Definition after_first_loop (report : RMI2DSensorReport) (s : Sensor.t) : Sensor.t :=
  fst (first_loop_upto report (Z.to_nat (fingers report)) s).

Definition realFingerCount (report : RMI2DSensorReport) (s : Sensor.t) : Z :=
  snd (first_loop_upto report (Z.to_nat (fingers report)) s).

Definition after_thumb (report : RMI2DSensorReport) (s : Sensor.t) : Sensor.t :=
  if (realFingerCount report s =? 4)
     && Sensor.is_free (Sensor.freeFingerTypes (after_first_loop report s))
          kMT2FingerTypeThumb
  then Sensor.setThumbFingerType (fingers report) (after_first_loop report s)
  else after_first_loop report s.

Lemma handleReport_stages report s :
  Sensor.handleReport report s =
  let s3 := Sensor.set_event (Z.of_nat (Z.to_nat (fingers report))) (timestamp report)
              (Sensor.second_loop (Z.to_nat (fingers report)) (after_thumb report s)) in
  if realFingerCount report s =? 0 then Sensor.set_pressureLock false s3 else s3.
Proof.
  unfold Sensor.handleReport, after_thumb, after_first_loop, realFingerCount.
  rewrite first_loop_is_upto.
  destruct (first_loop_upto report (Z.to_nat (fingers report)) s) as [s1 c].
  reflexivity.
Qed.

(** The slots of the sensor after the update are those the second loop
    leaves. *)
Lemma handleReport_transducers report s :
  Sensor.transducers (Sensor.handleReport report s) =
  Sensor.transducers
    (Sensor.second_loop (Z.to_nat (fingers report)) (after_thumb report s)).
Proof.
  rewrite handleReport_stages. cbv zeta.
  destruct (realFingerCount report s =? 0); reflexivity.
Qed.

(** X9.  An update writes only the slots below the number of fingers of
    the report, the pool, the lock and the two counters of the event: the
    maximum, the force-touch settings, the typing timeout, the click-pad
    state, the touchpad switch and the keyboard time are as before, the
    arrays keep their lengths, the slots from [report->fingers] on are not
    touched, and the event carries the number of slots gone through and the
    time of the report. *)
Theorem handleReport_frame report s :
  let s' := Sensor.handleReport report s in
  same_settings s s' /\
  InputEvent.contact_count (Sensor.inputEvent s') = Z.of_nat (Z.to_nat (fingers report)) /\
  InputEvent.timestamp (Sensor.inputEvent s') = timestamp report /\
  length (Sensor.transducers s') = length (Sensor.transducers s) /\
  length (Sensor.freeFingerTypes s') = length (Sensor.freeFingerTypes s) /\
  (forall j, (Z.to_nat (fingers report) <= j)%nat ->
     Sensor.transducers s' !! j = Sensor.transducers s !! j).
Proof.
  cbv zeta. rewrite handleReport_transducers.
  pose proof (first_loop_upto_same_settings report (Z.to_nat (fingers report)) s)
    as H1.
  pose proof (first_loop_upto_frame report (Z.to_nat (fingers report)) s)
    as (_&_&_&_&Hfree1&Hlen1&Hhigh1&_).
  change (fst (first_loop_upto report (Z.to_nat (fingers report)) s))
    with (after_first_loop report s) in *.
  set (n := Z.to_nat (fingers report)) in *.
  assert (H2 : same_settings s (after_thumb report s) /\
               length (Sensor.freeFingerTypes (after_thumb report s))
                 = length (Sensor.freeFingerTypes s) /\
               length (Sensor.transducers (after_thumb report s))
                 = length (Sensor.transducers s) /\
               forall j, (n <= j)%nat ->
                 Sensor.transducers (after_thumb report s) !! j
                   = Sensor.transducers s !! j).
  { unfold after_thumb. destruct (_ && _).
    - destruct (setThumbFingerType_same_settings (fingers report)
                  (after_first_loop report s)) as (Ha & Hb & Hc).
      split; [eapply same_settings_trans; eassumption|].
      split; [congruence|]. split; [congruence|].
      intros j Hj. rewrite setThumbFingerType_slots by exact Hj. apply Hhigh1. exact Hj.
    - split; [exact H1|]. split; [congruence|]. split; [exact Hlen1 | exact Hhigh1]. }
  destruct H2 as (H2 & Hfree2 & Hlen2 & Hhigh2).
  destruct (second_loop_same_settings n (after_thumb report s)) as [H3 Hfree3].
  destruct (second_loop_slots n (after_thumb report s)) as (Hlen3 & Hhigh3 & _).
  cbv zeta in Hlen3, Hhigh3.
  assert (H4 : same_settings s (Sensor.second_loop n (after_thumb report s)))
    by (eapply same_settings_trans; eassumption).
  rewrite handleReport_stages. cbv zeta. fold n.
  split; [|split; [|split; [|split; [|split]]]].
  - destruct (realFingerCount report s =? 0); exact H4.
  - destruct (realFingerCount report s =? 0); reflexivity.
  - destruct (realFingerCount report s =? 0); reflexivity.
  - congruence.
  - destruct (realFingerCount report s =? 0); cbn; congruence.
  - intros j Hj. rewrite Hhigh3 by exact Hj. apply Hhigh2. exact Hj.
Qed.

(** ** The identity of a contact across an update *)

(** The palm check of the first loop. *)
Definition passes_palm_check (obj : abs_object.t) : bool :=
  (abs_object.z obj <? 120)
  && (Z.abs (abs_object.wx obj - abs_object.wy obj) <? 3).

(** A slot is written by its own turn of the first loop only. *)
Lemma first_loop_slot_final report s i n :
  (i < n)%nat ->
  Sensor.transducers (fst (first_loop_upto report n s)) !! i =
  Sensor.transducers (fst (first_loop_upto report (S i) s)) !! i.
Proof.
  intros Hi. induction n as [|n IH]; [lia|].
  destruct (Nat.eq_dec i n) as [->|Hne]; [reflexivity|].
  rewrite first_loop_upto_S.
  destruct (first_loop_body_frame report (first_loop_upto report n s) n)
    as (_&_&_&_&_&_&Hother&_).
  rewrite Hother by exact Hne. apply IH. lia.
Qed.

(** What the first loop leaves in a slot it goes through: the type held
    is kept, and the slot is valid exactly when the object is a finger or a
    stylus that passes the palm check. *)
Lemma first_loop_slot report s n i obj tr :
  (i < n)%nat -> objs report !! i = Some obj ->
  Sensor.transducers s !! i = Some tr ->
  exists tr',
    Sensor.transducers (fst (first_loop_upto report n s)) !! i = Some tr' /\
    Transducer.fingerType tr' = Transducer.fingerType tr /\
    Transducer.isValid tr' = Sensor.is_finger_or_stylus obj && passes_palm_check obj.
Proof.
  intros Hi Ho Htr. rewrite (first_loop_slot_final report s i n Hi).
  rewrite first_loop_upto_S.
  pose proof (first_loop_upto_frame report i s) as (_&_&_&_&_&_&Hhigh&_).
  specialize (Hhigh i (Nat.le_refl i)). rewrite Htr in Hhigh.
  destruct (first_loop_upto report i s) as [si ci]. cbn [fst] in Hhigh.
  unfold Sensor.first_loop_body. rewrite Ho, Hhigh.
  destruct (Sensor.is_finger_or_stylus obj) eqn:Hty.
  - pose proof (first_loop_transducer_contact si (timestamp report) i obj tr
                  (Sensor.pressureLock si) ci Hty) as Hc.
    assert (Hft : Transducer.fingerType
                    (fst (fst (Sensor.first_loop_transducer si (timestamp report) i
                                 obj tr (Sensor.pressureLock si) ci)))
                  = Transducer.fingerType tr).
    { unfold Sensor.first_loop_transducer. rewrite Hty. reflexivity. }
    destruct (Sensor.first_loop_transducer si (timestamp report) i obj tr
                (Sensor.pressureLock si) ci) as [[tr' lock'] count'].
    cbv zeta in Hc. destruct Hc as (_&_&_&_&_&_&_&Hv).
    exists tr'. cbn [fst]. unfold Sensor.transducers at 1. cbn.
    split; [apply list_lookup_insert_eq; eapply lookup_lt_Some; exact Hhigh|].
    split; [exact Hft | exact Hv].
  - unfold Sensor.first_loop_transducer. rewrite Hty.
    eexists. cbn [fst]. unfold Sensor.transducers at 1. cbn.
    split; [apply list_lookup_insert_eq; eapply lookup_lt_Some; exact Hhigh|].
    split; reflexivity.
Qed.

(** The thumb pre-emption changes the type of one slot at most, a valid
    one, to the thumb. *)
Lemma setThumbFingerType_slot fingers s i tr :
  Sensor.transducers s !! i = Some tr ->
  Sensor.transducers (Sensor.setThumbFingerType fingers s) !! i = Some tr \/
  (Transducer.isValid tr = true /\
   Sensor.transducers (Sensor.setThumbFingerType fingers s) !! i
     = Some (Transducer.set_fingerType kMT2FingerTypeThumb tr)).
Proof.
  intros Htr. unfold Sensor.setThumbFingerType.
  destruct (snd (Sensor.thumb_search (Sensor.transducers s) (Z.to_nat fingers)))
    as [k|] eqn:Hs; [|left; exact Htr].
  destruct (thumb_search_found _ _ _ Hs) as (_ & trk & Hk & Hvalid).
  rewrite Hk. unfold Sensor.transducers at 1 3. cbn.
  fold (Sensor.transducers s).
  destruct (Nat.eq_dec k i) as [->|Hne].
  - right. rewrite Htr in Hk. inversion Hk; subst trk.
    split; [exact Hvalid|].
    apply list_lookup_insert_eq. eapply lookup_lt_Some. exact Htr.
  - left. rewrite list_lookup_insert_ne by exact Hne. exact Htr.
Qed.

Lemma after_thumb_slot report s i tr :
  Sensor.transducers (after_first_loop report s) !! i = Some tr ->
  Sensor.transducers (after_thumb report s) !! i = Some tr \/
  (Transducer.isValid tr = true /\
   realFingerCount report s = 4 /\
   Sensor.is_free (Sensor.freeFingerTypes s) kMT2FingerTypeThumb = true /\
   Sensor.transducers (after_thumb report s) !! i
     = Some (Transducer.set_fingerType kMT2FingerTypeThumb tr)).
Proof.
  intros Htr. unfold after_thumb.
  pose proof (first_loop_upto_frame report (Z.to_nat (fingers report)) s)
    as (_&_&_&_&Hfree&_).
  change (fst (first_loop_upto report (Z.to_nat (fingers report)) s))
    with (after_first_loop report s) in Hfree.
  destruct (Z.eqb_spec (realFingerCount report s) 4) as [Hc|Hc]; [|left; exact Htr].
  destruct (Sensor.is_free (Sensor.freeFingerTypes (after_first_loop report s))
              kMT2FingerTypeThumb) eqn:Hf; [|left; exact Htr].
  cbn [andb].
  destruct (setThumbFingerType_slot (fingers report) _ i tr Htr) as [H | [Hv H]].
  - left. exact H.
  - right. rewrite <- Hfree. auto.
Qed.

(** X10.  A contact keeps its identity while it stays valid: if the slot
    holds a type and the report has in it a finger or a stylus that passes
    the palm check, the slot is valid after the update and holds the same
    type, unless the update counted 4 contacts with the thumb type free and
    this slot was taken as the thumb. *)
Theorem identity_kept_while_valid report s i obj tr :
  (i < Z.to_nat (fingers report))%nat ->
  objs report !! i = Some obj ->
  Sensor.transducers s !! i = Some tr ->
  Sensor.is_finger_or_stylus obj = true ->
  passes_palm_check obj = true ->
  Transducer.fingerType tr <> kMT2FingerTypeUndefined ->
  exists tr',
    Sensor.transducers (Sensor.handleReport report s) !! i = Some tr' /\
    Transducer.isValid tr' = true /\
    (Transducer.fingerType tr' = Transducer.fingerType tr \/
     (Transducer.fingerType tr' = kMT2FingerTypeThumb /\
      realFingerCount report s = 4 /\
      Sensor.is_free (Sensor.freeFingerTypes s) kMT2FingerTypeThumb = true)).
Proof.
  intros Hi Ho Htr Hty Hpalm Hheld.
  rewrite handleReport_transducers.
  destruct (first_loop_slot report s _ i obj tr Hi Ho Htr) as (tr1 & H1 & Hft1 & Hv1).
  rewrite Hty, Hpalm in Hv1. cbn in Hv1.
  fold (after_first_loop report s) in H1.
  assert (H2 : exists tr2,
             Sensor.transducers (after_thumb report s) !! i = Some tr2 /\
             Transducer.isValid tr2 = true /\
             Transducer.fingerType tr2 <> kMT2FingerTypeUndefined /\
             (Transducer.fingerType tr2 = Transducer.fingerType tr \/
              (Transducer.fingerType tr2 = kMT2FingerTypeThumb /\
               realFingerCount report s = 4 /\
               Sensor.is_free (Sensor.freeFingerTypes s) kMT2FingerTypeThumb = true))).
  { destruct (after_thumb_slot report s i tr1 H1) as [H | (_ & Hc & Hf & H)].
    - exists tr1. repeat split; auto. congruence.
    - eexists. split; [exact H|]. cbn. repeat split; auto; try discriminate. }
  destruct H2 as (tr2 & H2 & Hv2 & Hne2 & Hcase).
  rewrite second_loop_slot_final by exact Hi.
  destruct (second_loop_turn (after_thumb report s) i tr2 H2) as (_ & _ & Hkeep).
  destruct (Hkeep Hv2 Hne2) as [Hslot _].
  exists tr2. auto.
Qed.

Definition index_held : Sensor.t :=
  Eval vm_compute in
    Sensor.handleReport (report_of [finger_at 10 10 50 4 4] 1)
      (sensor_start false true false).

Definition index_held_slot : Transducer.t :=
  Eval vm_compute in
    match Sensor.transducers index_held !! 0%nat with
    | Some tr => tr
    | None => Transducer.zero
    end.

(** The index finger of the first update is the index finger of the
    second. *)
Lemma identity_kept_while_valid_witness :
  exists tr',
    Sensor.transducers
      (Sensor.handleReport (report_of [finger_at 30 40 60 5 4] 2) index_held)
      !! 0%nat = Some tr' /\
    Transducer.isValid tr' = true /\
    (Transducer.fingerType tr' = kMT2FingerTypeIndexFinger \/
     (Transducer.fingerType tr' = kMT2FingerTypeThumb /\
      realFingerCount (report_of [finger_at 30 40 60 5 4] 2) index_held = 4 /\
      Sensor.is_free (Sensor.freeFingerTypes index_held) kMT2FingerTypeThumb = true)).
Proof.
  refine (identity_kept_while_valid (report_of [finger_at 30 40 60 5 4] 2)
            index_held 0%nat (finger_at 30 40 60 5 4) index_held_slot
            _ eq_refl eq_refl eq_refl eq_refl _).
  - vm_compute. lia.
  - vm_compute. discriminate.
Defined.



(** ** The contact count *)




(** ** The thumb *)

(** [trans.currentCoordinates.y] *)
Definition slot_y (tr : Transducer.t) : Z :=
  TouchCoordinates.y (Transducer.currentCoordinates tr).

Lemma thumb_search_S trs n :
  Sensor.thumb_search trs (S n) =
  Sensor.thumb_search_body trs (Sensor.thumb_search trs n) n.
Proof.
  unfold Sensor.thumb_search. rewrite seq_S, foldl_app. reflexivity.
Qed.

(** What the search holds after [n] slots: [minY] bounds the [y] of the
    valid slots seen, and the index is that of the first valid slot whose
    [y] is [minY], if a valid slot with a positive [y] was seen. *)
Definition thumb_found (trs : list Transducer.t) (n : nat) (acc : Z * option nat)
    : Prop :=
  (forall j tr, (j < n)%nat -> trs !! j = Some tr -> Transducer.isValid tr = true ->
     slot_y tr <= fst acc) /\
  match snd acc with
  | None => fst acc = 0
  | Some k =>
      (k < n)%nat /\ 0 < fst acc /\
      exists tr, trs !! k = Some tr /\ Transducer.isValid tr = true /\
                 slot_y tr = fst acc /\
                 forall j trj, (j < k)%nat -> trs !! j = Some trj ->
                   Transducer.isValid trj = true -> slot_y trj < fst acc
  end.

Lemma thumb_search_max trs n : thumb_found trs n (Sensor.thumb_search trs n).
Proof.
  induction n as [|n IH].
  - split; [intros j tr Hj; lia | reflexivity].
  - rewrite thumb_search_S.
    destruct (Sensor.thumb_search trs n) as [minY idx].
    destruct IH as [Hmax Hidx]. cbn [fst snd] in Hmax, Hidx.
    assert (Hpos : 0 <= minY).
    { destruct idx as [k|]; [destruct Hidx as (_ & H & _)|]; lia. }
    unfold Sensor.thumb_search_body.
    destruct (trs !! n) as [trans|] eqn:Hn.
    + fold (slot_y trans).
      destruct (Transducer.isValid trans) eqn:Hv; cbn [andb].
      * destruct (Z.gtb_spec (slot_y trans) minY) as [Hgt|Hle].
        -- split; cbn [fst snd].
           ++ intros j tr Hj Htr Hvj. destruct (Nat.eq_dec j n) as [->|Hne].
              ** rewrite Hn in Htr. inversion Htr. lia.
              ** specialize (Hmax j tr ltac:(lia) Htr Hvj). lia.
           ++ split; [lia|]. split; [lia|]. exists trans.
              repeat split; auto.
              intros j trj Hj Htr Hvj. specialize (Hmax j trj Hj Htr Hvj). lia.
        -- split; cbn [fst snd].
           ++ intros j tr Hj Htr Hvj. destruct (Nat.eq_dec j n) as [->|Hne].
              ** rewrite Hn in Htr. inversion Htr; subst. lia.
              ** apply (Hmax j tr); [lia | exact Htr | exact Hvj].
           ++ destruct idx as [k|]; [|exact Hidx].
              destruct Hidx as (Hk & H0 & H). split; [lia|]. split; [exact H0 | exact H].
      * split; cbn [fst snd].
        -- intros j tr Hj Htr Hvj. destruct (Nat.eq_dec j n) as [->|Hne].
           ++ rewrite Hn in Htr. inversion Htr; subst. congruence.
           ++ apply (Hmax j tr); [lia | exact Htr | exact Hvj].
        -- destruct idx as [k|]; [|exact Hidx].
           destruct Hidx as (Hk & H0 & H). split; [lia|]. split; [exact H0 | exact H].
    + split; cbn [fst snd].
      * intros j tr Hj Htr Hvj. destruct (Nat.eq_dec j n) as [->|Hne].
        -- congruence.
        -- apply (Hmax j tr); [lia | exact Htr | exact Hvj].
      * destruct idx as [k|]; [|exact Hidx].
        destruct Hidx as (Hk & H0 & H). split; [lia|]. split; [exact H0 | exact H].
Qed.

Lemma is_free_insert_false free ty :
  Sensor.is_free (<[ty := false]> free) ty = false.
Proof.
  rewrite is_free_insert. destruct (decide _) as [_|Hn]; [reflexivity|].
  destruct (Sensor.is_free free ty) eqn:Hf; [|reflexivity].
  exfalso. apply Hn. split; [reflexivity | apply is_free_lt; exact Hf].
Qed.

(** X12.  [setThumbFingerType] makes the thumb of the valid slot that is
    lowest on the pad: among the slots below [fingers] it takes the first
    valid one whose [y] is the largest, provided that [y] is positive; the
    slot receives the thumb type, its former type goes back to the pool, the
    thumb type leaves the pool and no other slot changes.  When no valid
    slot has a positive [y] the sensor is left as it is. *)
Theorem setThumbFingerType_lowest fingers s :
  match snd (Sensor.thumb_search (Sensor.transducers s) (Z.to_nat fingers)) with
  | Some k =>
      exists tr,
        Sensor.transducers s !! k = Some tr /\
        (k < Z.to_nat fingers)%nat /\
        Transducer.isValid tr = true /\ 0 < slot_y tr /\
        (forall j trj, (j < Z.to_nat fingers)%nat ->
           Sensor.transducers s !! j = Some trj ->
           Transducer.isValid trj = true -> slot_y trj <= slot_y tr) /\
        (forall j trj, (j < k)%nat -> Sensor.transducers s !! j = Some trj ->
           Transducer.isValid trj = true -> slot_y trj < slot_y tr) /\
        Sensor.transducers (Sensor.setThumbFingerType fingers s) !! k
          = Some (Transducer.set_fingerType kMT2FingerTypeThumb tr) /\
        (forall j, j <> k ->
           Sensor.transducers (Sensor.setThumbFingerType fingers s) !! j
             = Sensor.transducers s !! j) /\
        Sensor.is_free (Sensor.freeFingerTypes (Sensor.setThumbFingerType fingers s))
          kMT2FingerTypeThumb = false /\
        (Transducer.fingerType tr <> kMT2FingerTypeUndefined ->
         Transducer.fingerType tr <> kMT2FingerTypeThumb ->
         (Transducer.fingerType tr < length (Sensor.freeFingerTypes s))%nat ->
         Sensor.is_free (Sensor.freeFingerTypes (Sensor.setThumbFingerType fingers s))
           (Transducer.fingerType tr) = true)
  | None =>
      Sensor.setThumbFingerType fingers s = s /\
      forall j trj, (j < Z.to_nat fingers)%nat ->
        Sensor.transducers s !! j = Some trj ->
        Transducer.isValid trj = true -> slot_y trj <= 0
  end.
Proof.
  pose proof (thumb_search_max (Sensor.transducers s) (Z.to_nat fingers)) as [Hmax Hidx].
  unfold Sensor.setThumbFingerType.
  destruct (Sensor.thumb_search (Sensor.transducers s) (Z.to_nat fingers))
    as [minY idx].
  cbn [fst snd] in *.
  destruct idx as [k|].
  - destruct Hidx as (Hk & Hpos & tr & Htr & Hv & Hy & Hfirst).
    exists tr. rewrite Htr. subst minY.
    split; [reflexivity|]. split; [exact Hk|]. split; [exact Hv|].
    split; [exact Hpos|]. split; [exact Hmax|]. split; [exact Hfirst|].
    unfold Sensor.transducers at 1 2. cbn. fold (Sensor.transducers s).
    split; [apply list_lookup_insert_eq; eapply lookup_lt_Some; exact Htr|].
    split; [intros j Hj; apply list_lookup_insert_ne; auto|].
    split.
    + apply is_free_insert_false.
    + intros Hu Ht Hlen.
      assert (E : Nat.eqb (Transducer.fingerType tr) kMT2FingerTypeUndefined = false)
        by (apply Nat.eqb_neq; exact Hu).
      rewrite E. cbn [negb].
      rewrite is_free_insert. destruct (decide _) as [[E' _]|_]; [congruence|].
      rewrite is_free_insert. destruct (decide _) as [_|Hn]; [reflexivity|].
      exfalso. apply Hn. split; [reflexivity | exact Hlen].
  - split; [reflexivity|]. subst minY. exact Hmax.
Qed.

(** ** The allocation of finger types *)

(** X13.  Two calls of [getFingerType] in a row never hand out the same
    type: the first returns a type that was free and is no longer, never
    the thumb, and the second returns a higher type or the undefined one.
    Once the undefined type is returned the pool is left as it is and the
    next call returns the undefined type again. *)
Theorem getFingerType_increasing free :
  let (t1, free1) := Sensor.getFingerType free in
  let (t2, free2) := Sensor.getFingerType free1 in
  t1 <> kMT2FingerTypeThumb /\
  (t1 = kMT2FingerTypeUndefined ->
     free1 = free /\ t2 = kMT2FingerTypeUndefined /\ free2 = free) /\
  (t1 <> kMT2FingerTypeUndefined ->
     Sensor.is_free free t1 = true /\ Sensor.is_free free1 t1 = false /\
     (t2 = kMT2FingerTypeUndefined \/ (t1 < t2)%nat)).
Proof.
  pose proof (getFingerType_spec free) as H1.
  destruct (Sensor.getFingerType free) as [t1 free1].
  pose proof (getFingerType_spec free1) as H2.
  destruct (Sensor.getFingerType free1) as [t2 free2].
  destruct H1 as [Hl1 Hf1]. destruct H2 as [Hl2 Hf2].
  destruct Hl1 as [[-> Hnone] | (Hr1 & Hfree1 & Hbelow1)].
  - cbn in Hf1. subst free1.
    split; [discriminate|]. split; [|intros H; contradiction].
    intros _. split; [reflexivity|].
    destruct Hl2 as [[-> _] | (Hr2 & Hfree2 & _)].
    + cbn in Hf2. auto.
    + rewrite (Hnone t2 Hr2) in Hfree2. discriminate.
  - pool_simpl.
    assert (E : Nat.eqb t1 0 = false) by (apply Nat.eqb_neq; lia).
    rewrite E in Hf1. subst free1.
    split; [lia|]. split; [intros ->; lia|]. intros _.
    split; [exact Hfree1|]. split.
    + apply is_free_insert_false.
    + destruct Hl2 as [[-> _] | (Hr2 & Hfree2 & _)]; [left; reflexivity|].
      right. pool_simpl. rewrite is_free_insert in Hfree2.
      destruct (decide _) as [_|Hn]; [discriminate|].
      destruct (Nat.lt_trichotomy t2 t1) as [Hlt | [Heq | Hgt]].
      * rewrite (Hbelow1 t2 ltac:(lia)) in Hfree2. discriminate.
      * exfalso. apply Hn. split; [auto | apply is_free_lt; exact Hfree1].
      * exact Hgt.
Qed.

(** ** Typing and the touchpad switch *)

(** [message] with [kKeyboardKeyPressTime]. *)
Definition message_KeyboardKeyPressTime (argument : Z) (s : Sensor.t) : Sensor.t := {|
  Sensor.max_y := Sensor.max_y s;
  Sensor.forceTouchMinPressure := Sensor.forceTouchMinPressure s;
  Sensor.forceTouchEmulation := Sensor.forceTouchEmulation s;
  Sensor.disableWhileTypingTimeout := Sensor.disableWhileTypingTimeout s;
  Sensor.clickpadState := Sensor.clickpadState s;
  Sensor.touchpadEnable := Sensor.touchpadEnable s;
  Sensor.lastKeyboardTS := argument;
  Sensor.pressureLock := Sensor.pressureLock s;
  Sensor.freeFingerTypes := Sensor.freeFingerTypes s;
  Sensor.inputEvent := Sensor.inputEvent s |}.

(** [message] with [kKeyboardSetTouchStatus]. *)
Definition message_KeyboardSetTouchStatus (argument : bool) (s : Sensor.t)
    : Sensor.t := {|
  Sensor.max_y := Sensor.max_y s;
  Sensor.forceTouchMinPressure := Sensor.forceTouchMinPressure s;
  Sensor.forceTouchEmulation := Sensor.forceTouchEmulation s;
  Sensor.disableWhileTypingTimeout := Sensor.disableWhileTypingTimeout s;
  Sensor.clickpadState := Sensor.clickpadState s;
  Sensor.touchpadEnable := argument;
  Sensor.lastKeyboardTS := Sensor.lastKeyboardTS s;
  Sensor.pressureLock := Sensor.pressureLock s;
  Sensor.freeFingerTypes := Sensor.freeFingerTypes s;
  Sensor.inputEvent := Sensor.inputEvent s |}.

(** X14.  After a key press at time [key], with the touchpad switched on,
    the reports whose time is within the typing timeout after [key] are
    discarded and the later ones are kept; with the touchpad switched off
    every report is discarded.  The difference of the times is unsigned: a
    report stamped before the key press is discarded only if the timeout
    exceeds [2^64] minus the advance of the key press. *)
Theorem typing_window s key now enable :
  0 <= key < 2 ^ 64 -> 0 <= now < 2 ^ 64 ->
  let s' := message_KeyboardSetTouchStatus enable
              (message_KeyboardKeyPressTime key s) in
  Sensor.shouldDiscardReport s' now =
    negb enable
    || (if key <=? now then now - key <? Sensor.disableWhileTypingTimeout s
        else 2 ^ 64 - (key - now) <? Sensor.disableWhileTypingTimeout s).
Proof.
  intros Hk Hn s'. subst s'. unfold Sensor.shouldDiscardReport. cbn.
  f_equal. destruct (Z.leb_spec key now) as [Hle|Hgt].
  - rewrite Z.mod_small by lia. reflexivity.
  - replace ((now - key) mod 2 ^ 64) with (2 ^ 64 - (key - now)); [reflexivity|].
    apply Z.mod_unique with (q := -1); [left; lia | lia].
Qed.

(** Half a second of timeout: a report 0.2 s after the key press is
    discarded. *)
Lemma typing_window_witness :
  Sensor.shouldDiscardReport
    (message_KeyboardSetTouchStatus true
       (message_KeyboardKeyPressTime 1000000000 (sensor_start false true false)))
    1200000000 = true.
Proof.
  rewrite (typing_window (sensor_start false true false) 1000000000 1200000000 true);
    [reflexivity | lia | lia].
Defined.

(** ** From the packet to the contact count *)

(** The slots below [n] whose state in the packet is "present". *)
Definition present_slots (data_pkt : list Z) (n : nat) : list nat :=
  filter (fun i => rmi_f11_parse_finger_state data_pkt (Z.of_nat i) = F11_PRESENT)
    (seq 0 n).

Lemma slot_decoded_zero_is_contact data_pkt abs_pos i :
  Sensor.is_finger_or_stylus (slot_decoded data_pkt abs_pos i abs_object.zero) = true
  <-> rmi_f11_parse_finger_state data_pkt (Z.of_nat i) = F11_PRESENT.
Proof.
  unfold slot_decoded. cbv zeta.
  destruct (Z.eqb_spec (rmi_f11_parse_finger_state data_pkt (Z.of_nat i)) F11_RESERVED)
    as [Er|Er].
  - cbn. rewrite Er. split; discriminate.
  - destruct (Z.eqb_spec (rmi_f11_parse_finger_state data_pkt (Z.of_nat i)) F11_PRESENT)
      as [Ep|Ep]; cbn; split; auto; try discriminate; try contradiction.
Qed.

Lemma count_present_slots data_pkt abs_pos (l : list abs_object.t) n :
  (n <= length l)%nat ->
  (forall i, (i < n)%nat ->
     l !! i = Some (slot_decoded data_pkt abs_pos i abs_object.zero)) ->
  length (filter (fun obj => Sensor.is_finger_or_stylus obj = true) (take n l))
  = length (present_slots data_pkt n).
Proof.
  unfold present_slots. induction n as [|n IH]; intros Hlen Hslots; [reflexivity|].
  rewrite (take_S_r l n _ (Hslots n ltac:(lia))), seq_S. cbn [Nat.add].
  rewrite !filter_app, !length_app, IH by (try lia; intros i Hi; apply Hslots; lia).
  f_equal. rewrite !filter_cons, !filter_nil.
  destruct (decide (Sensor.is_finger_or_stylus
                      (slot_decoded data_pkt abs_pos n abs_object.zero) = true))
    as [Hc|Hc];
    destruct (decide (rmi_f11_parse_finger_state data_pkt (Z.of_nat n) = F11_PRESENT))
      as [Hp|Hp]; try reflexivity; exfalso.
  - apply Hp. apply (slot_decoded_zero_is_contact data_pkt abs_pos n). exact Hc.
  - apply Hc. apply (slot_decoded_zero_is_contact data_pkt abs_pos n). exact Hp.
Qed.

(** X15.  The contact count of the update that follows a packet is the
    number of slots, among those gone through, whose 2-bit state in the
    packet is "present": a slot in the "inaccurate" state, or in the
    reserved one, is not counted.  This is the count compared with 4 for the
    thumb, with 1 for the lock and with 0 to clear it. *)
Theorem contact_count_is_present_slots lay abs_pos data_pkt now s :
  let report := getReport_assemble lay abs_pos data_pkt now report_zero in
  (Z.to_nat (fingers report) <= 10)%nat ->
  (Z.to_nat (fingers report) <= length (Sensor.transducers s))%nat ->
  snd (Sensor.first_loop report s)
  = Z.of_nat (length (present_slots data_pkt (Z.to_nat (fingers report)))).
Proof.
  intros report Hn Htr.
  destruct (getReport_assemble_fields lay abs_pos data_pkt now report_zero)
    as (Hobjs & Hf & _).
  cbv zeta in Hobjs, Hf. fold report in Hobjs, Hf.
  destruct (getReport_upto_frame data_pkt abs_pos
              (Z.to_nat (report_fingers (nbr_fingers lay) (pkt_size lay))) report_zero)
    as (_ & _ & Hlen & _ & Hlow).
  cbv zeta in Hlen, Hlow. rewrite <- Hobjs in Hlen, Hlow. rewrite <- Hf in Hlow.
  rewrite first_loop_is_upto.
  assert (Hl : length (objs report) = 10%nat) by (rewrite Hlen; reflexivity).
  rewrite realFingerCount_is_count by lia.
  unfold fingers_and_styli. f_equal.
  apply (count_present_slots data_pkt abs_pos); [lia|].
  intros i Hi. apply Hlow; [exact Hi|].
  cbn [report_zero objs]. apply lookup_replicate. split; [reflexivity | lia].
Qed.

Lemma contact_count_is_present_slots_witness :
  snd (Sensor.first_loop
         (getReport_assemble two_finger_layout 1 two_finger_packet 7 report_zero)
         (sensor_start false true false))
  = Z.of_nat (length (present_slots two_finger_packet
                        (Z.to_nat (fingers (getReport_assemble two_finger_layout 1
                                              two_finger_packet 7 report_zero))))).
Proof.
  refine (contact_count_is_present_slots two_finger_layout 1 two_finger_packet 7
            (sensor_start false true false) _ _).
  - vm_compute. lia.
  - vm_compute. lia.
Defined.

(** ** [attach] *)

(** X16.  [attach] refuses a provider that is not the bus without a bus
    call and without touching the object.  With the bus it accepts exactly
    when [rmi_f11_initialize] returned 0: then no read of the negotiation
    failed, the device has absolute data and physical-size data, and the
    packet buffer is allocated with the size of the layout computed; when
    it refuses, the initialisation returned a negative value. *)
Theorem attach_accepts h provider IOMalloc qba cba o :
  let r := attach h provider IOMalloc qba cba o in
  (fst r = true ->
     exists bus, provider = Some bus /\
       call (rmi_f11_initialize h bus IOMalloc qba cba) o = (0, snd r) /\
       has_physical_props (sens_query (snd r)) = true /\
       has_abs (sens_query (snd r)) = true /\
       pkt_size (sensor (snd r)) = spec_pkt_size (sens_query (snd r)) /\
       data_pkt (sensor (snd r)) = Some (pkt_size (sensor (snd r))) /\
       exists l, bus_log (snd r) = bus_log o ++ l /\ clean l) /\
  (fst r = false ->
     (provider = None /\ snd r = o) \/
     exists bus rc, provider = Some bus /\ rc < 0 /\
       call (rmi_f11_initialize h bus IOMalloc qba cba) o = (rc, snd r)).
Proof.
  cbv zeta. destruct provider as [bus|].
  2: { cbn. split; [discriminate | auto]. }
  destruct (call (rmi_f11_initialize h bus IOMalloc qba cba) o) as [rc o'] eqn:Hcall.
  rewrite (attach_result _ _ _ _ _ _ _ _ Hcall). cbn [fst snd].
  destruct (rmi_f11_initialize_outcome _ _ _ _ _ _ _ _ Hcall) as (l & Hl & Hout).
  destruct (Z.eqb_spec rc 0) as [->|Hne]; cbn [negb]; split; intros Hr;
    try discriminate Hr.
  - exists bus. split; [reflexivity|]. split; [exact Hcall|].
    destruct Hout as [Hab | [Hc [Hre | [_ Hd]]]].
    + apply aborted_neg in Hab. lia.
    + apply init_refused_nonzero in Hre. lia.
    + destruct Hd as (Hp & Ha & _ & _ & _ & Hpkt & _ & _ & _ & Hbuf & _).
      repeat split; auto. exists l. auto.
  - right. exists bus, rc. split; [reflexivity|]. split; [|exact Hcall].
    destruct Hout as [Hab | [Hc [Hre | [-> Hd]]]].
    + exact (aborted_neg _ _ Hab).
    + exact (init_refused_nonzero _ _ Hre).
    + contradiction.
Qed.

(** The pad whose query 12 register cannot be read, and a provider that is
    not the bus. *)
Lemma attach_accepts_witness :
  ((@None RMIBus = None /\
    snd (attach rmi_f11_h None always 0 100 F11_zero) = F11_zero) \/
   exists bus rc, @None RMIBus = Some bus /\ rc < 0 /\
     call (rmi_f11_initialize rmi_f11_h bus always 0 100) F11_zero
     = (rc, snd (attach rmi_f11_h None always 0 100 F11_zero))) /\
  ((Some (register_bus acm_pad query12_unreadable) = None /\
    snd (attach rmi_f11_h (Some (register_bus acm_pad query12_unreadable))
           always 0 100 F11_zero) = F11_zero) \/
   exists bus rc, Some (register_bus acm_pad query12_unreadable) = Some bus /\
     rc < 0 /\
     call (rmi_f11_initialize rmi_f11_h bus always 0 100) F11_zero
     = (rc, snd (attach rmi_f11_h (Some (register_bus acm_pad query12_unreadable))
                   always 0 100 F11_zero))).
Proof.
  split.
  - refine (proj2 (attach_accepts rmi_f11_h None always 0 100 F11_zero) _).
    reflexivity.
  - refine (proj2 (attach_accepts rmi_f11_h
                     (Some (register_bus acm_pad query12_unreadable))
                     always 0 100 F11_zero) _).
    vm_compute. reflexivity.
Defined.
